(** * openiboot/usb.c: descriptor tables, endpoint handlers and controller lifecycle

    A shallow embedding of [trunk/openiboot/usb.c].  The file-level statics of
    the C file become the fields of one record [State]; each C function
    becomes a function over that record, and keeps its name.

    - C integers are [Z]; a store into a field of 8, 16 or 32 bits reduces
      the value ([u8], [u16], [u32]), and arguments are values of their
      parameter types.
    - Heap blocks are modelled by their contents (see [pointer]); [malloc],
      [realloc] and [memalign] do not fail.
    - A function whose C body can read or write outside a block, dereference
      or free a pointer that is not live, or whose block would hold elements
      the program never wrote, returns [None] on those inputs.
    - [usb_setup] and [usb_shutdown], which talk to the controller, are
      interaction trees over the hardware events they perform. *)

From Stdlib Require Import ZArith List String Ascii Lia Bool.
From ITree Require Import ITree ITreeFacts Props.Leaf.
Import ListNotations.
Local Open Scope Z_scope.

(** ** Machine integers *)

Definition u8 (z : Z) : Z := z mod 256.
Definition u16 (z : Z) : Z := z mod 65536.
Definition u32 (z : Z) : Z := z mod 4294967296.

(** Conversion to [int8_t] (two's complement, as the ARM compilers do it). *)
Definition s8 (z : Z) : Z := (z + 128) mod 256 - 128.

(** ** The headers

    [usb.h] declares the enumerations, the descriptor structures and the
    constants the C file uses; it is not part of the sources at hand, so its
    values are parameters of the development.  They are taken as [int]
    constants: a comparison with one of them is a signed comparison. *)

Class UsbH : Type := {
  (* sizeof of the descriptor structures *)
  sizeof_USBDeviceDescriptor : Z;
  sizeof_USBConfigurationDescriptor : Z;
  sizeof_USBInterfaceDescriptor : Z;
  sizeof_USBEndpointDescriptor : Z;
  sizeof_USBStringDescriptor : Z;
  sizeof_USBFirstStringDescriptor : Z;
  (* bDescriptorType values *)
  USBDeviceDescriptorType : Z;
  USBConfigurationDescriptorType : Z;
  USBStringDescriptorType : Z;
  USBInterfaceDescriptorType : Z;
  USBEndpointDescriptorType : Z;
  (* device identity *)
  USB_2_0 : Z;
  USB_MAX_PACKETSIZE : Z;
  VENDOR_APPLE : Z;
  PRODUCT_IPHONE : Z;
  DEVICE_IPHONE : Z;
  OPENIBOOT_INTERFACE_CLASS : Z;
  OPENIBOOT_INTERFACE_SUBCLASS : Z;
  OPENIBOOT_INTERFACE_PROTOCOL : Z;
  USB_LANGID_ENGLISH_US : Z;
  (* negotiated speeds *)
  USB_HIGHSPEED : Z;
  USB_FULLSPEED : Z;
  USB_FULLSPEED_48_MHZ : Z;
  USB_LOWSPEED : Z;
  (* endpoints *)
  USB_NUM_ENDPOINTS : Z;
  USB_ENDPOINT_DIRECTIONS_BIDIR : Z;
  USB_ENDPOINT_DIRECTIONS_IN : Z;
  USB_ENDPOINT_DIRECTIONS_OUT : Z;
  (* enum USBDirection *)
  USBOut : Z;
  USBIn : Z;
  USBBiDir : Z;
  (* enum USBTransferType, USBSynchronisationType, USBUsageType *)
  USBBulk : Z;
  USBNoSynchronization : Z;
  USBDataEndpoint : Z;
  (* enum USBState *)
  USBStart : Z;
  USBPowered : Z;
  USBConfigured : Z
}.

(** ** Pointers and heap blocks

    A pointer to a heap block is modelled by the block's contents.  [Wild] is
    a pointer value that is neither null nor the address of a live block. *)

Inductive pointer (A : Type) : Type :=
| NULL : pointer A
| Ptr (a : A) : pointer A
| Wild : pointer A.
Arguments NULL {A}.
Arguments Ptr {A} a.
Arguments Wild {A}.

Definition is_NULL {A} (p : pointer A) : bool :=
  match p with NULL => true | _ => false end.

(** What a block just returned by [realloc] holds in a pointer field that the
    program has not written yet: all-zero bits, or anything else. *)
Inductive fresh_bits : Type := Zero_bits | Other_bits.

Definition fresh_pointer {A} (f : fresh_bits) : pointer A :=
  match f with Zero_bits => NULL | Other_bits => Wild end.

(** [free p] is defined on the null pointer and on live blocks only. *)
Definition free {A} (p : pointer A) : option unit :=
  match p with Wild => None | _ => Some tt end.

(** Array access [a[i]] with a C [int] index. *)
Definition array_get {A} (l : list A) (i : Z) : option A :=
  if i <? 0 then None else nth_error l (Z.to_nat i).

(** [p = realloc(p, n * sizeof *p); p[i] = v;] on a block of [A]s.  The
    block keeps its first [n] elements; the elements of the model's list are
    the ones that have been written, so [i] has to be the next free slot or
    an older one. *)
Definition store {A} (l : list A) (i : nat) (v : A) : option (list A) :=
  if (i <=? List.length l)%nat then Some (firstn i l ++ v :: skipn (S i) l) else None.

(** [a[i] = v] on a block whose elements have all been written. *)
Definition array_set {A} (l : list A) (i : Z) (v : A) : option (list A) :=
  if (0 <=? i) && (i <? Z.of_nat (List.length l))
  then Some (firstn (Z.to_nat i) l ++ v :: skipn (S (Z.to_nat i)) l)
  else None.

Definition realloc_store {A} (p : pointer (list A)) (n i : Z) (v : A)
  : option (list A) :=
  match p with
  | Wild => None
  | NULL => if (0 <=? i) && (i <? n) then store [] (Z.to_nat i) v else None
  | Ptr l =>
      if (0 <=? i) && (i <? n)
      then store (firstn (Z.to_nat n) l) (Z.to_nat i) v
      else None
  end.

(** ** Descriptor structures *)

Record USBDeviceDescriptor : Type := {
  dev_bLength : Z;
  dev_bDescriptorType : Z;
  bcdUSB : Z;
  bDeviceClass : Z;
  bDeviceSubClass : Z;
  bDeviceProtocol : Z;
  bMaxPacketSize : Z;
  idVendor : Z;
  idProduct : Z;
  bcdDevice : Z;
  iManufacturer : Z;
  iProduct : Z;
  iSerialNumber : Z;
  bNumConfigurations : Z
}.

Record USBConfigurationDescriptor : Type := {
  cfg_bLength : Z;
  cfg_bDescriptorType : Z;
  wTotalLength : Z;
  bNumInterfaces : Z;
  bConfigurationValue : Z;
  iConfiguration : Z;
  cfg_bmAttributes : Z;
  bMaxPower : Z
}.

Record USBInterfaceDescriptor : Type := {
  if_bLength : Z;
  if_bDescriptorType : Z;
  bInterfaceNumber : Z;
  bAlternateSetting : Z;
  bNumEndpoints : Z;
  bInterfaceClass : Z;
  bInterfaceSubClass : Z;
  bInterfaceProtocol : Z;
  iInterface : Z
}.

Record USBEndpointDescriptor : Type := {
  ep_bLength : Z;
  ep_bDescriptorType : Z;
  bEndpointAddress : Z;
  ep_bmAttributes : Z;
  wMaxPacketSize : Z;
  bInterval : Z
}.

Record USBStringDescriptor : Type := {
  str_bLength : Z;
  str_bDescriptorType : Z;
  bString : string
}.

(** The language-ID descriptor.  A header field is [None] as long as the
    program has not written it: it then holds whatever the allocator left in
    the block. *)
Record USBFirstStringDescriptor : Type := {
  fsd_bLength : option Z;
  fsd_bDescriptorType : option Z;
  wLANGID : list Z
}.

Record USBInterface : Type := {
  if_descriptor : USBInterfaceDescriptor;
  endpointDescriptors : pointer (list USBEndpointDescriptor)
}.

Record USBConfiguration : Type := {
  descriptor : USBConfigurationDescriptor;
  interfaces : pointer (list USBInterface)
}.

(** ** Endpoint handlers *)

Record USBEndpointHandlerInfo : Type := {
  handler : Z;       (* USBEndpointHandler, a function pointer *)
  token : Z
}.

Record USBEndpointBidirHandlerInfo : Type := {
  in_ : USBEndpointHandlerInfo;
  out : USBEndpointHandlerInfo
}.

(** ** The statics of usb.c *)

Record State : Type := {
  usb_inited : bool;
  usb_state : Z;
  endpoint_directions : list Z;
  endpoint_handlers : list USBEndpointBidirHandlerInfo;
  InEPRegs : Z;
  OutEPRegs : Z;
  deviceDescriptor : USBDeviceDescriptor;
  numStringDescriptors : Z;
  stringDescriptors : pointer (list USBStringDescriptor);
  firstStringDescriptor : pointer USBFirstStringDescriptor;
  configurations : pointer (list USBConfiguration);
  inBuffer : Z;
  outBuffer : Z
}.

(** Field updates ([s.f = v]). *)

Definition set_usb_inited (v : bool) (s : State) : State :=
  {| usb_inited := v; usb_state := usb_state s;
     endpoint_directions := endpoint_directions s;
     endpoint_handlers := endpoint_handlers s;
     InEPRegs := InEPRegs s; OutEPRegs := OutEPRegs s;
     deviceDescriptor := deviceDescriptor s;
     numStringDescriptors := numStringDescriptors s;
     stringDescriptors := stringDescriptors s;
     firstStringDescriptor := firstStringDescriptor s;
     configurations := configurations s;
     inBuffer := inBuffer s; outBuffer := outBuffer s |}.

Definition set_usb_state (v : Z) (s : State) : State :=
  {| usb_inited := usb_inited s; usb_state := v;
     endpoint_directions := endpoint_directions s;
     endpoint_handlers := endpoint_handlers s;
     InEPRegs := InEPRegs s; OutEPRegs := OutEPRegs s;
     deviceDescriptor := deviceDescriptor s;
     numStringDescriptors := numStringDescriptors s;
     stringDescriptors := stringDescriptors s;
     firstStringDescriptor := firstStringDescriptor s;
     configurations := configurations s;
     inBuffer := inBuffer s; outBuffer := outBuffer s |}.

Definition set_endpoint_directions (v : list Z) (s : State) : State :=
  {| usb_inited := usb_inited s; usb_state := usb_state s;
     endpoint_directions := v;
     endpoint_handlers := endpoint_handlers s;
     InEPRegs := InEPRegs s; OutEPRegs := OutEPRegs s;
     deviceDescriptor := deviceDescriptor s;
     numStringDescriptors := numStringDescriptors s;
     stringDescriptors := stringDescriptors s;
     firstStringDescriptor := firstStringDescriptor s;
     configurations := configurations s;
     inBuffer := inBuffer s; outBuffer := outBuffer s |}.

Definition set_endpoint_handlers (v : list USBEndpointBidirHandlerInfo)
  (s : State) : State :=
  {| usb_inited := usb_inited s; usb_state := usb_state s;
     endpoint_directions := endpoint_directions s;
     endpoint_handlers := v;
     InEPRegs := InEPRegs s; OutEPRegs := OutEPRegs s;
     deviceDescriptor := deviceDescriptor s;
     numStringDescriptors := numStringDescriptors s;
     stringDescriptors := stringDescriptors s;
     firstStringDescriptor := firstStringDescriptor s;
     configurations := configurations s;
     inBuffer := inBuffer s; outBuffer := outBuffer s |}.

Definition set_EPRegs (vin vout : Z) (s : State) : State :=
  {| usb_inited := usb_inited s; usb_state := usb_state s;
     endpoint_directions := endpoint_directions s;
     endpoint_handlers := endpoint_handlers s;
     InEPRegs := vin; OutEPRegs := vout;
     deviceDescriptor := deviceDescriptor s;
     numStringDescriptors := numStringDescriptors s;
     stringDescriptors := stringDescriptors s;
     firstStringDescriptor := firstStringDescriptor s;
     configurations := configurations s;
     inBuffer := inBuffer s; outBuffer := outBuffer s |}.

Definition set_deviceDescriptor (v : USBDeviceDescriptor) (s : State) : State :=
  {| usb_inited := usb_inited s; usb_state := usb_state s;
     endpoint_directions := endpoint_directions s;
     endpoint_handlers := endpoint_handlers s;
     InEPRegs := InEPRegs s; OutEPRegs := OutEPRegs s;
     deviceDescriptor := v;
     numStringDescriptors := numStringDescriptors s;
     stringDescriptors := stringDescriptors s;
     firstStringDescriptor := firstStringDescriptor s;
     configurations := configurations s;
     inBuffer := inBuffer s; outBuffer := outBuffer s |}.

Definition set_numStringDescriptors (v : Z) (s : State) : State :=
  {| usb_inited := usb_inited s; usb_state := usb_state s;
     endpoint_directions := endpoint_directions s;
     endpoint_handlers := endpoint_handlers s;
     InEPRegs := InEPRegs s; OutEPRegs := OutEPRegs s;
     deviceDescriptor := deviceDescriptor s;
     numStringDescriptors := v;
     stringDescriptors := stringDescriptors s;
     firstStringDescriptor := firstStringDescriptor s;
     configurations := configurations s;
     inBuffer := inBuffer s; outBuffer := outBuffer s |}.

Definition set_stringDescriptors (v : pointer (list USBStringDescriptor))
  (s : State) : State :=
  {| usb_inited := usb_inited s; usb_state := usb_state s;
     endpoint_directions := endpoint_directions s;
     endpoint_handlers := endpoint_handlers s;
     InEPRegs := InEPRegs s; OutEPRegs := OutEPRegs s;
     deviceDescriptor := deviceDescriptor s;
     numStringDescriptors := numStringDescriptors s;
     stringDescriptors := v;
     firstStringDescriptor := firstStringDescriptor s;
     configurations := configurations s;
     inBuffer := inBuffer s; outBuffer := outBuffer s |}.

Definition set_firstStringDescriptor (v : pointer USBFirstStringDescriptor)
  (s : State) : State :=
  {| usb_inited := usb_inited s; usb_state := usb_state s;
     endpoint_directions := endpoint_directions s;
     endpoint_handlers := endpoint_handlers s;
     InEPRegs := InEPRegs s; OutEPRegs := OutEPRegs s;
     deviceDescriptor := deviceDescriptor s;
     numStringDescriptors := numStringDescriptors s;
     stringDescriptors := stringDescriptors s;
     firstStringDescriptor := v;
     configurations := configurations s;
     inBuffer := inBuffer s; outBuffer := outBuffer s |}.

Definition set_configurations (v : pointer (list USBConfiguration))
  (s : State) : State :=
  {| usb_inited := usb_inited s; usb_state := usb_state s;
     endpoint_directions := endpoint_directions s;
     endpoint_handlers := endpoint_handlers s;
     InEPRegs := InEPRegs s; OutEPRegs := OutEPRegs s;
     deviceDescriptor := deviceDescriptor s;
     numStringDescriptors := numStringDescriptors s;
     stringDescriptors := stringDescriptors s;
     firstStringDescriptor := firstStringDescriptor s;
     configurations := v;
     inBuffer := inBuffer s; outBuffer := outBuffer s |}.

Definition set_inBuffer (v : Z) (s : State) : State :=
  {| usb_inited := usb_inited s; usb_state := usb_state s;
     endpoint_directions := endpoint_directions s;
     endpoint_handlers := endpoint_handlers s;
     InEPRegs := InEPRegs s; OutEPRegs := OutEPRegs s;
     deviceDescriptor := deviceDescriptor s;
     numStringDescriptors := numStringDescriptors s;
     stringDescriptors := stringDescriptors s;
     firstStringDescriptor := firstStringDescriptor s;
     configurations := configurations s;
     inBuffer := v; outBuffer := outBuffer s |}.

Definition set_outBuffer (v : Z) (s : State) : State :=
  {| usb_inited := usb_inited s; usb_state := usb_state s;
     endpoint_directions := endpoint_directions s;
     endpoint_handlers := endpoint_handlers s;
     InEPRegs := InEPRegs s; OutEPRegs := OutEPRegs s;
     deviceDescriptor := deviceDescriptor s;
     numStringDescriptors := numStringDescriptors s;
     stringDescriptors := stringDescriptors s;
     firstStringDescriptor := firstStringDescriptor s;
     configurations := configurations s;
     inBuffer := inBuffer s; outBuffer := v |}.

Definition set_bNumConfigurations (v : Z) (d : USBDeviceDescriptor)
  : USBDeviceDescriptor :=
  {| dev_bLength := dev_bLength d; dev_bDescriptorType := dev_bDescriptorType d;
     bcdUSB := bcdUSB d; bDeviceClass := bDeviceClass d;
     bDeviceSubClass := bDeviceSubClass d; bDeviceProtocol := bDeviceProtocol d;
     bMaxPacketSize := bMaxPacketSize d; idVendor := idVendor d;
     idProduct := idProduct d; bcdDevice := bcdDevice d;
     iManufacturer := iManufacturer d; iProduct := iProduct d;
     iSerialNumber := iSerialNumber d; bNumConfigurations := v |}.

Definition set_wTotalLength (v : Z) (d : USBConfigurationDescriptor)
  : USBConfigurationDescriptor :=
  {| cfg_bLength := cfg_bLength d; cfg_bDescriptorType := cfg_bDescriptorType d;
     wTotalLength := v; bNumInterfaces := bNumInterfaces d;
     bConfigurationValue := bConfigurationValue d;
     iConfiguration := iConfiguration d;
     cfg_bmAttributes := cfg_bmAttributes d; bMaxPower := bMaxPower d |}.

Definition set_bNumInterfaces (v : Z) (d : USBConfigurationDescriptor)
  : USBConfigurationDescriptor :=
  {| cfg_bLength := cfg_bLength d; cfg_bDescriptorType := cfg_bDescriptorType d;
     wTotalLength := wTotalLength d; bNumInterfaces := v;
     bConfigurationValue := bConfigurationValue d;
     iConfiguration := iConfiguration d;
     cfg_bmAttributes := cfg_bmAttributes d; bMaxPower := bMaxPower d |}.

Definition set_bNumEndpoints (v : Z) (d : USBInterfaceDescriptor)
  : USBInterfaceDescriptor :=
  {| if_bLength := if_bLength d; if_bDescriptorType := if_bDescriptorType d;
     bInterfaceNumber := bInterfaceNumber d;
     bAlternateSetting := bAlternateSetting d; bNumEndpoints := v;
     bInterfaceClass := bInterfaceClass d;
     bInterfaceSubClass := bInterfaceSubClass d;
     bInterfaceProtocol := bInterfaceProtocol d; iInterface := iInterface d |}.

(** ** A state and undefined-behaviour monad for the functions over the statics *)

Definition M (A : Type) : Type := State -> option (A * State).

Definition M_ret {A} (a : A) : M A := fun s => Some (a, s).

Definition M_bind {A B} (m : M A) (k : A -> M B) : M B :=
  fun s => match m s with Some (a, s') => k a s' | None => None end.

Definition M_get : M State := fun s => Some (s, s).

Definition M_modify (f : State -> State) : M unit := fun s => Some (tt, f s).

Definition M_lift {A} (o : option A) : M A :=
  fun s => match o with Some a => Some (a, s) | None => None end.

Declare Scope M_scope.
Delimit Scope M_scope with M.
Notation "'let*' x ':=' m 'in' k" := (M_bind m (fun x => k))
  (at level 10, x name, m at level 100, k at level 200) : M_scope.
Local Open Scope M_scope.

(** ** libc *)

(** [strlen]: the number of characters before the first NUL. *)
Fixpoint strlen (s : string) : nat :=
  match s with
  | EmptyString => 0%nat
  | String c r => if Ascii.eqb c Ascii.zero then 0%nat else S (strlen r)
  end.

(** [memcpy(dst, src, n)]: the first [n] characters of [src]. *)
Definition memcpy (src : string) (n : nat) : string := substring 0 n src.

(** ** The functions of usb.c over the descriptor tables *)

Section Descriptors.
Context {usb_h : UsbH}.

(** *** String table *)

(** [realloc] of the language-ID descriptor to [n] language IDs, followed by
    [wLANGID[i] = v].  A block obtained from [realloc(NULL, ...)] has a
    header nobody has written. *)
Definition realloc_store_langid (p : pointer USBFirstStringDescriptor)
  (n i v : Z) : option USBFirstStringDescriptor :=
  match p with
  | Wild => None
  | NULL =>
      match realloc_store NULL n i v with
      | Some ids =>
          Some {| fsd_bLength := None; fsd_bDescriptorType := None;
                  wLANGID := ids |}
      | None => None
      end
  | Ptr d =>
      match realloc_store (Ptr (wLANGID d)) n i v with
      | Some ids =>
          Some {| fsd_bLength := fsd_bLength d;
                  fsd_bDescriptorType := fsd_bDescriptorType d;
                  wLANGID := ids |}
      | None => None
      end
  end.

Definition addStringDescriptor (descriptorString : string) : M Z :=
  let* s := M_get in
  let newIndex := numStringDescriptors s in
  let* _ := M_modify (set_numStringDescriptors (u8 (newIndex + 1))) in
  let* s := M_get in
  let sLen := strlen descriptorString in
  let entry :=
    {| str_bLength := u8 (sizeof_USBStringDescriptor + Z.of_nat sLen);
       str_bDescriptorType := u8 USBStringDescriptorType;
       bString := memcpy descriptorString sLen |} in
  let* sds :=
    M_lift (realloc_store (stringDescriptors s) (numStringDescriptors s)
              newIndex entry) in
  let* _ := M_modify (set_stringDescriptors (Ptr sds)) in
  let* fsd :=
    M_lift (realloc_store_langid (firstStringDescriptor s)
              (numStringDescriptors s) newIndex (u16 USB_LANGID_ENGLISH_US)) in
  let* _ := M_modify (set_firstStringDescriptor (Ptr fsd)) in
  M_ret (u8 (newIndex + 1)).

(** What [usb_get_string_descriptor] points to: the language-ID descriptor
    (cast to [USBStringDescriptor*]) or an entry of the table. *)
Inductive string_descriptor_ref : Type :=
| LanguageIDs (p : pointer USBFirstStringDescriptor)
| Entry (d : USBStringDescriptor).

Definition usb_get_string_descriptor (index : Z) : M string_descriptor_ref :=
  let* s := M_get in
  if index =? 0 then M_ret (LanguageIDs (firstStringDescriptor s))
  else
    match stringDescriptors s with
    | Ptr sds =>
        let* d := M_lift (array_get sds (index - 1)) in M_ret (Entry d)
    | _ => M_lift None
    end.

(** [for(i = 0; i < n; i++) free(stringDescriptors[i]);] with [int8_t i]. *)
Fixpoint free_strings (fuel : nat) (sds : list USBStringDescriptor) (n i : Z)
  : option unit :=
  match fuel with
  | O => None
  | S fuel' =>
      if i <? n then
        match array_get sds i with
        | Some _ => free_strings fuel' sds n (s8 (i + 1))
        | None => None
        end
      else Some tt
  end.

Definition releaseStringDescriptors : M unit :=
  let* s := M_get in
  match stringDescriptors s with
  | NULL => M_ret tt
  | Wild => M_lift None
  | Ptr sds =>
      let* _ := M_lift (free_strings 256 sds (numStringDescriptors s) 0) in
      let* _ := M_modify (set_numStringDescriptors 0) in
      M_modify (set_stringDescriptors NULL)
  end.

(** *** Descriptor registry *)

Definition initializeDescriptors (s : State) : State :=
  set_configurations NULL
    (set_stringDescriptors NULL (set_numStringDescriptors 0 s)).

(** [addConfiguration] leaves [configurations[newIndex].interfaces] as the
    allocator returned it: [fresh] says what the new block holds there. *)
Definition addConfiguration (fresh : fresh_bits)
  (bConfigurationValue iConfiguration selfPowered remoteWakeup maxPower : Z)
  : M Z :=
  let* s := M_get in
  let newIndex := bNumConfigurations (deviceDescriptor s) in
  let* _ := M_modify (fun s =>
    set_deviceDescriptor
      (set_bNumConfigurations (u8 (newIndex + 1)) (deviceDescriptor s)) s) in
  let* s := M_get in
  let entry :=
    {| descriptor :=
         {| cfg_bLength := u8 sizeof_USBConfigurationDescriptor;
            cfg_bDescriptorType := u8 USBConfigurationDescriptorType;
            wTotalLength := 0;
            bNumInterfaces := 0;
            bConfigurationValue := u8 bConfigurationValue;
            iConfiguration := u8 iConfiguration;
            cfg_bmAttributes :=
              u8 (Z.lor (Z.lor (Z.shiftl 1 7)
                           (Z.shiftl (Z.land selfPowered 1) 6))
                    (Z.shiftl (Z.land remoteWakeup 1) 5));
            bMaxPower := u8 (Z.quot maxPower 2) |};
       interfaces := fresh_pointer fresh |} in
  let* cfgs :=
    M_lift (realloc_store (configurations s)
              (bNumConfigurations (deviceDescriptor s)) newIndex entry) in
  let* _ := M_modify (set_configurations (Ptr cfgs)) in
  M_ret newIndex.

(** [addInterfaceDescriptor] works on the configuration its first argument
    points to and returns the index of the new interface in it (the C
    function returns the address of that element). *)
Definition addInterfaceDescriptor (configuration : USBConfiguration)
  (bInterfaceNumber' bAlternateSetting' bInterfaceClass' bInterfaceSubClass'
     bInterfaceProtocol' iInterface' : Z)
  : option (Z * USBConfiguration) :=
  let newIndex := bNumInterfaces (descriptor configuration) in
  let d := set_bNumInterfaces (u8 (newIndex + 1)) (descriptor configuration) in
  let entry :=
    {| if_descriptor :=
         {| if_bLength := u8 sizeof_USBInterfaceDescriptor;
            if_bDescriptorType := u8 USBInterfaceDescriptorType;
            bInterfaceNumber := u8 bInterfaceNumber';
            bAlternateSetting := u8 bAlternateSetting';
            bNumEndpoints := 0;
            bInterfaceClass := u8 bInterfaceClass';
            bInterfaceSubClass := u8 bInterfaceSubClass';
            bInterfaceProtocol := u8 bInterfaceProtocol';
            iInterface := u8 iInterface' |};
       endpointDescriptors := NULL |} in
  match realloc_store (interfaces configuration) (bNumInterfaces d)
          newIndex entry with
  | Some ifs => Some (newIndex, {| descriptor := d; interfaces := Ptr ifs |})
  | None => None
  end.

(** [addEndpointDescriptor] works on the interface its first argument points
    to.  [return -1] from a function returning [uint8_t] yields 255. *)
Definition addEndpointDescriptor (interface : USBInterface)
  (endpoint direction transferType syncType usageType wMaxPacketSize'
     bInterval' : Z)
  : option (Z * USBInterface) :=
  if 2 <? direction then Some (u8 (-1), interface)
  else
    let newIndex := bNumEndpoints (if_descriptor interface) in
    let d := set_bNumEndpoints (u8 (newIndex + 1)) (if_descriptor interface) in
    let entry :=
      {| ep_bLength := u8 sizeof_USBEndpointDescriptor;
         ep_bDescriptorType := u8 USBEndpointDescriptorType;
         bEndpointAddress :=
           u8 (Z.lor (Z.land endpoint 3) (Z.shiftl (Z.land direction 1) 7));
         ep_bmAttributes :=
           u8 (Z.lor (Z.lor (Z.land transferType 3)
                        (Z.shiftl (Z.land syncType 3) 2))
                 (Z.shiftl (Z.land usageType 3) 4));
         wMaxPacketSize := u16 wMaxPacketSize';
         bInterval := u8 bInterval' |} in
    match realloc_store (endpointDescriptors interface) (bNumEndpoints d)
            newIndex entry with
    | Some eps =>
        Some (newIndex, {| if_descriptor := d; endpointDescriptors := Ptr eps |})
    | None => None
    end.

(** [return -1] from a function returning [uint16_t] yields 65535. *)
Definition packetsizeFromSpeed (speed_id : Z) : Z :=
  if speed_id =? USB_HIGHSPEED then 512
  else if (speed_id =? USB_FULLSPEED) || (speed_id =? USB_FULLSPEED_48_MHZ)
  then 64
  else if speed_id =? USB_LOWSPEED then 32
  else u16 (-1).

(** Work on [configurations[k]] through a pointer to it. *)
Definition with_configuration {A} (k : Z)
  (f : USBConfiguration -> option (A * USBConfiguration)) : M A :=
  let* s := M_get in
  match configurations s with
  | Ptr cfgs =>
      let* c := M_lift (array_get cfgs k) in
      let* r := M_lift (f c) in
      let* cfgs' := M_lift (array_set cfgs k (snd r)) in
      let* _ := M_modify (set_configurations (Ptr cfgs')) in
      M_ret (fst r)
  | _ => M_lift None
  end.

(** Work on [configurations[k].interfaces[j]] through a pointer to it. *)
Definition with_interface {A} (k j : Z)
  (f : USBInterface -> option (A * USBInterface)) : M A :=
  with_configuration k (fun c =>
    match interfaces c with
    | Ptr ifs =>
        match array_get ifs j with
        | Some itf =>
            match f itf with
            | Some (a, itf') =>
                match array_set ifs j itf' with
                | Some ifs' =>
                    Some (a, {| descriptor := descriptor c;
                                interfaces := Ptr ifs' |})
                | None => None
                end
            | None => None
            end
        | None => None
        end
    | _ => None
    end).

(** One iteration of the loop of [endConfiguration]:
    [wTotalLength += sizeof(USBInterfaceDescriptor)
       + interfaces[i].descriptor.bNumEndpoints * sizeof(USBEndpointDescriptor)]. *)
Definition endConfiguration_step (ifs : pointer (list USBInterface))
  (acc : option Z) (i : nat) : option Z :=
  match acc, ifs with
  | Some total, Ptr l =>
      match nth_error l i with
      | Some itf =>
          Some (u16 (total + (sizeof_USBInterfaceDescriptor
                              + bNumEndpoints (if_descriptor itf)
                                * sizeof_USBEndpointDescriptor)))
      | None => None
      end
  | _, _ => None
  end.

(** [endConfiguration(&configurations[k])].  The bound of the loop is read
    through the static [configurations], that is from [configurations[0]];
    the interfaces are read through the argument. *)
Definition endConfiguration (k : Z) : M unit :=
  let* s := M_get in
  match configurations s with
  | Ptr cfgs =>
      let* configuration := M_lift (array_get cfgs k) in
      let* first := M_lift (array_get cfgs 0) in
      let* total :=
        M_lift (fold_left (endConfiguration_step (interfaces configuration))
                  (seq 0 (Z.to_nat (bNumInterfaces (descriptor first))))
                  (Some (u16 sizeof_USBConfigurationDescriptor))) in
      with_configuration k (fun c =>
        Some (tt, {| descriptor := set_wTotalLength total (descriptor c);
                     interfaces := interfaces c |}))
  | _ => M_lift None
  end.

Definition usb_get_device_descriptor (fresh : fresh_bits)
  : M USBDeviceDescriptor :=
  let* s := M_get in
  let* _ :=
    if is_NULL (configurations s) then
      let* iManufacturer' := addStringDescriptor "Apple Inc." in
      let* iProduct' :=
        addStringDescriptor "Apple Mobile Device (OpenIBoot Mode)" in
      let* iSerialNumber' := addStringDescriptor "" in
      let* _ := M_modify (set_deviceDescriptor
        {| dev_bLength := u8 sizeof_USBDeviceDescriptor;
           dev_bDescriptorType := u8 USBDeviceDescriptorType;
           bcdUSB := u16 USB_2_0;
           bDeviceClass := 0;
           bDeviceSubClass := 0;
           bDeviceProtocol := 0;
           bMaxPacketSize := u8 USB_MAX_PACKETSIZE;
           idVendor := u16 VENDOR_APPLE;
           idProduct := u16 PRODUCT_IPHONE;
           bcdDevice := u16 DEVICE_IPHONE;
           iManufacturer := iManufacturer';
           iProduct := iProduct';
           iSerialNumber := iSerialNumber';
           bNumConfigurations := 0 |}) in
      let* iConfiguration' :=
        addStringDescriptor "OpenIBoot Mode Configuration" in
      let* _ := addConfiguration fresh 1 iConfiguration' 0 0 500 in
      M_ret tt
    else M_ret tt in
  let* s := M_get in
  M_ret (deviceDescriptor s).

(** [configurations[0].interfaces == NULL], evaluated only for index 0. *)
Definition synthesizes (index : Z) : M bool :=
  let* s := M_get in
  if index =? 0 then
    match configurations s with
    | Ptr cfgs =>
        let* first := M_lift (array_get cfgs 0) in
        M_ret (is_NULL (interfaces first))
    | _ => M_lift None
    end
  else M_ret false.

Definition usb_get_configuration_descriptor (index speed_id : Z)
  : M USBConfigurationDescriptor :=
  let* synth := synthesizes index in
  let* _ :=
    if synth then
      let* iInterface' := addStringDescriptor "IF0" in
      let* interface :=
        with_configuration 0 (fun c =>
          addInterfaceDescriptor c 0 0 OPENIBOOT_INTERFACE_CLASS
            OPENIBOOT_INTERFACE_SUBCLASS OPENIBOOT_INTERFACE_PROTOCOL
            iInterface') in
      let* _ :=
        with_interface 0 interface (fun itf =>
          addEndpointDescriptor itf 1 USBIn USBBulk USBNoSynchronization
            USBDataEndpoint (packetsizeFromSpeed speed_id) 0) in
      let* _ :=
        with_interface 0 interface (fun itf =>
          addEndpointDescriptor itf 1 USBOut USBBulk USBNoSynchronization
            USBDataEndpoint (packetsizeFromSpeed speed_id) 0) in
      endConfiguration 0
    else M_ret tt in
  let* s := M_get in
  match configurations s with
  | Ptr cfgs =>
      let* c := M_lift (array_get cfgs index) in M_ret (descriptor c)
  | _ => M_lift None
  end.

(** The inner loop of [releaseConfigurations], with [int8_t j]. *)
Fixpoint free_interfaces (fuel : nat) (ifs : pointer (list USBInterface))
  (n j : Z) : option unit :=
  match fuel with
  | O => None
  | S fuel' =>
      if j <? n then
        match ifs with
        | Ptr l =>
            match array_get l j with
            | Some itf =>
                match free (endpointDescriptors itf) with
                | Some _ => free_interfaces fuel' ifs n (s8 (j + 1))
                | None => None
                end
            | None => None
            end
        | _ => None
        end
      else Some tt
  end.

(** The outer loop of [releaseConfigurations], with [int8_t i]. *)
Fixpoint free_configurations (fuel : nat) (cfgs : list USBConfiguration)
  (n i : Z) : option unit :=
  match fuel with
  | O => None
  | S fuel' =>
      if i <? n then
        match array_get cfgs i with
        | Some c =>
            match free_interfaces 256 (interfaces c)
                    (bNumInterfaces (descriptor c)) 0 with
            | Some _ =>
                match free (interfaces c) with
                | Some _ => free_configurations fuel' cfgs n (s8 (i + 1))
                | None => None
                end
            | None => None
            end
        | None => None
        end
      else Some tt
  end.

Definition releaseConfigurations : M unit :=
  let* s := M_get in
  match configurations s with
  | NULL => M_ret tt
  | Wild => M_lift None
  | Ptr cfgs =>
      let* _ :=
        M_lift (free_configurations 256 cfgs
                  (bNumConfigurations (deviceDescriptor s)) 0) in
      let* _ := M_modify (fun s =>
        set_deviceDescriptor
          (set_bNumConfigurations 0 (deviceDescriptor s)) s) in
      M_modify (set_configurations NULL)
  end.

(** *** Endpoint handler registry *)

Definition usb_install_ep_handler (endpoint direction handler' token' : Z)
  : M Z :=
  if endpoint >=? USB_NUM_ENDPOINTS then M_ret (-1)
  else
    let* s := M_get in
    let* d := M_lift (array_get (endpoint_directions s) endpoint) in
    if negb (d =? direction) && negb (d =? USBBiDir) then M_ret (-1)
    else if direction =? USBIn then
      let* h := M_lift (array_get (endpoint_handlers s) endpoint) in
      let* hs :=
        M_lift (array_set (endpoint_handlers s) endpoint
                  {| in_ := {| handler := handler'; token := u32 token' |};
                     out := out h |}) in
      let* _ := M_modify (set_endpoint_handlers hs) in
      M_ret 0
    else if direction =? USBOut then
      let* h := M_lift (array_get (endpoint_handlers s) endpoint) in
      let* hs :=
        M_lift (array_set (endpoint_handlers s) endpoint
                  {| in_ := in_ h;
                     out := {| handler := handler'; token := u32 token' |} |}) in
      let* _ := M_modify (set_endpoint_handlers hs) in
      M_ret 0
    else M_ret (-1).

Definition change_state (new_state : Z) (s : State) : State :=
  set_usb_state new_state s.

End Descriptors.

(** ** Controller lifecycle

    [hardware/usb.h], [hardware/power.h] and [openiboot.h] give the register
    addresses, bit masks, delays and gate numbers; they are parameters too. *)

Class HardwareH : Type := {
  ON : Z; OFF : Z;
  USB : Z; USB_PHY : Z; USB_INREGS : Z; USB_OUTREGS : Z;
  POWER_USB : Z;
  USB_OTGCLOCKGATE : Z; USB_PHYCLOCKGATE : Z; EDRAM_CLOCKGATE : Z;
  USB_INTERRUPT : Z;
  (* delays *)
  USB_START_DELAYUS : Z; USB_SFTDISCONNECT_DELAYUS : Z;
  USB_ONOFFSTART_DELAYUS : Z; USB_PHYPWRPOWERON_DELAYUS : Z;
  USB_RESET2_DELAYUS : Z; USB_RESET_DELAYUS : Z;
  USB_RESETWAITFINISH_DELAYUS : Z; USB_SFTCONNECT_DELAYUS : Z;
  USB_PROGRAMDONE_DELAYUS : Z;
  (* registers *)
  DCTL : Z; USB_ONOFF : Z; OPHYPWR : Z; OPHYCLK : Z; ORSTCON : Z;
  GRSTCTL : Z; GINTMSK : Z; DIEPMSK : Z; DOEPMSK : Z; GAHBCFG : Z;
  USB_UNKNOWNREG1 : Z; DCFG : Z; GRXFSIZ : Z; GNPTXFSIZ : Z; DAINTMSK : Z;
  GOTGCTL : Z;
  (* bits *)
  DCTL_SFTDISCONNECT : Z; DCTL_PROGRAMDONE : Z; DCTL_CGOUTNAK : Z;
  DCTL_CGNPINNAK : Z;
  USB_ONOFF_OFF : Z;
  OPHYPWR_POWERON : Z; OPHYPWR_FORCESUSPEND : Z; OPHYPWR_PLLPOWERDOWN : Z;
  OPHYPWR_XOPOWERDOWN : Z; OPHYPWR_ANALOGPOWERDOWN : Z;
  OPHYPWR_UNKNOWNPOWERDOWN : Z;
  OPHYCLK_CLKSEL_MASK : Z; OPHYCLK_CLKSEL_48MHZ : Z;
  ORSTCON_PHYSWRESET : Z; ORSTCON_LINKSWRESET : Z; ORSTCON_PHYLINKSWRESET : Z;
  GRSTCTL_CORESOFTRESET : Z;
  USB_EPINT_INEPNakEff : Z; USB_EPINT_INTknEPMis : Z;
  USB_EPINT_INTknTXFEmp : Z; USB_EPINT_TimeOUT : Z; USB_EPINT_AHBErr : Z;
  USB_EPINT_EPDisbld : Z; USB_EPINT_XferCompl : Z;
  USB_EPINT_OUTTknEPDis : Z; USB_EPINT_SetUp : Z; USB_EPINT_ALL : Z;
  USB_EPCON_ACTIVE : Z;
  GINTMSK_NONE : Z; GINTMSK_OTG : Z; GINTMSK_SUSPEND : Z; GINTMSK_RESET : Z;
  GINTMSK_INEP : Z; GINTMSK_OEP : Z; GINTMSK_DISCONNECT : Z;
  DIEPMSK_NONE : Z; DIEPMSK_XFERCOMPL : Z; DIEPMSK_AHBERR : Z;
  DIEPMSK_TIMEOUT : Z;
  DOEPMSK_NONE : Z; DOEPMSK_XFERCOMPL : Z; DOEPMSK_SETUP : Z;
  DOEPMSK_BACK2BACKSETUP : Z;
  DAINTMSK_ALL : Z;
  GAHBCFG_DMAEN : Z; GAHBCFG_BSTLEN_INCR8 : Z; GAHBCFG_MASKINT : Z;
  USB_UNKNOWNREG1_START : Z;
  DCFG_NZSTSOUTHSHK : Z; DCFG_DEVICEADDRMSK : Z;
  RX_FIFO_DEPTH : Z; TX_FIFO_DEPTH : Z; TX_FIFO_STARTADDR : Z;
  GOTGCTL_SESSIONREQUEST : Z
}.

(** The two fields of [USBEPRegisters] the file writes. *)
Variant EPField : Type := control | interrupt.

(** What the driver asks of the controller and of its collaborators: register
    reads and writes ([GET_REG], [SET_REG], a field of an element of
    [InEPRegs] or [OutEPRegs]), the hardware's per-endpoint direction
    ([USB_EP_DIRECTION]), power, clock gates, delays, the interrupt
    controller ([interrupt_install irq token] installs [usbIRQHandler]) and
    the aligned allocator. *)
Variant HwE : Type -> Type :=
| GET_REG (addr : Z) : HwE Z
| SET_REG (addr val : Z) : HwE unit
| SET_EPREG (base i : Z) (f : EPField) (val : Z) : HwE unit
| USB_EP_DIRECTION (i : Z) : HwE Z
| power_ctrl (device on_off : Z) : HwE unit
| clock_gate_switch (gate on_off : Z) : HwE unit
| udelay (us : Z) : HwE unit
| interrupt_install (irq token : Z) : HwE unit
| interrupt_enable (irq : Z) : HwE unit
| memalign (alignment size : Z) : HwE Z.

Section Lifecycle.
Context {usb_h : UsbH} {hw_h : HardwareH}.
Import ITreeNotations.
Local Open Scope itree_scope.

Definition in_ep_interrupts : Z :=
  Z.lor (Z.lor (Z.lor (Z.lor (Z.lor (Z.lor USB_EPINT_INEPNakEff
    USB_EPINT_INTknEPMis) USB_EPINT_INTknTXFEmp) USB_EPINT_TimeOUT)
    USB_EPINT_AHBErr) USB_EPINT_EPDisbld) USB_EPINT_XferCompl.

Definition out_ep_interrupts : Z :=
  Z.lor (Z.lor (Z.lor (Z.lor USB_EPINT_OUTTknEPDis USB_EPINT_SetUp)
    USB_EPINT_AHBErr) USB_EPINT_EPDisbld) USB_EPINT_XferCompl.

(** A store to an element of a static array of [USB_NUM_ENDPOINTS] elements,
    with an index the loop keeps in range. *)
Definition static_set {A} (l : list A) (i : Z) (v : A) : list A :=
  match array_set l i v with Some l' => l' | None => l end.

(** The first loop of [usb_setup]: the [switch] has no [default], so an
    unknown capability leaves the element as it is. *)
Definition init_endpoint_directions (dirs : list Z) : itree HwE (list Z) :=
  ITree.iter (fun st : Z * list Z =>
    let (i, dirs) := st in
    if i <? USB_NUM_ENDPOINTS then
      d <- ITree.trigger (USB_EP_DIRECTION i) ;;
      let dirs' :=
        if d =? USB_ENDPOINT_DIRECTIONS_BIDIR then static_set dirs i USBBiDir
        else if d =? USB_ENDPOINT_DIRECTIONS_IN then static_set dirs i USBIn
        else if d =? USB_ENDPOINT_DIRECTIONS_OUT then static_set dirs i USBOut
        else dirs in
      Ret (inl (i + 1, dirs'))
    else Ret (inr dirs)) (0, dirs).

(** [for(i = 0; i < USB_NUM_ENDPOINTS; i++) { InEPRegs[i].interrupt = ...;
    OutEPRegs[i].interrupt = ...; }] *)
Definition unmask_ep_interrupts (s : State) : itree HwE unit :=
  ITree.iter (fun i : Z =>
    if i <? USB_NUM_ENDPOINTS then
      ITree.trigger (SET_EPREG (InEPRegs s) i interrupt in_ep_interrupts) ;;
      ITree.trigger (SET_EPREG (OutEPRegs s) i interrupt out_ep_interrupts) ;;
      Ret (inl (i + 1))
    else Ret (inr tt)) 0.

(** [while((GET_REG(USB + GRSTCTL) & GRSTCTL_CORESOFTRESET)
           == GRSTCTL_CORESOFTRESET);] *)
Definition wait_reset_takes : itree HwE unit :=
  ITree.iter (fun _ : unit =>
    v <- ITree.trigger (GET_REG (USB + GRSTCTL)) ;;
    if Z.land v GRSTCTL_CORESOFTRESET =? GRSTCTL_CORESOFTRESET
    then Ret (inl tt) else Ret (inr tt)) tt.

(** [while(GET_REG(USB + GRSTCTL) >= 0);] on the value [GET_REG] yields. *)
Definition wait_reset_completes : itree HwE unit :=
  ITree.iter (fun _ : unit =>
    v <- ITree.trigger (GET_REG (USB + GRSTCTL)) ;;
    if v >=? 0 then Ret (inl tt) else Ret (inr tt)) tt.

Definition zero_handlers : USBEndpointBidirHandlerInfo :=
  {| in_ := {| handler := 0; token := 0 |};
     out := {| handler := 0; token := 0 |} |}.

Definition usb_setup (s : State) : itree HwE (Z * State) :=
  if usb_inited s then Ret (0, s)
  else
    let s := set_EPRegs (USB + USB_INREGS) (USB + USB_OUTREGS) s in
    let s := change_state USBStart s in
    (* power on hardware *)
    ITree.trigger (power_ctrl POWER_USB ON) ;;
    ITree.trigger (udelay USB_START_DELAYUS) ;;
    (* initialize our data structures *)
    dirs <- init_endpoint_directions (endpoint_directions s) ;;
    let s := set_endpoint_directions dirs s in
    let s := set_endpoint_handlers
               (repeat zero_handlers (Z.to_nat USB_NUM_ENDPOINTS)) s in
    (* set up the hardware *)
    ITree.trigger (clock_gate_switch USB_OTGCLOCKGATE ON) ;;
    ITree.trigger (clock_gate_switch USB_PHYCLOCKGATE ON) ;;
    ITree.trigger (clock_gate_switch EDRAM_CLOCKGATE ON) ;;
    (* generate a soft disconnect on host *)
    v <- ITree.trigger (GET_REG (USB + DCTL)) ;;
    ITree.trigger (SET_REG (USB + DCTL) (Z.lor v DCTL_SFTDISCONNECT)) ;;
    ITree.trigger (udelay USB_SFTDISCONNECT_DELAYUS) ;;
    (* power on OTG *)
    v <- ITree.trigger (GET_REG (USB + USB_ONOFF)) ;;
    ITree.trigger (SET_REG (USB + USB_ONOFF) (Z.land v (Z.lnot USB_ONOFF_OFF))) ;;
    ITree.trigger (udelay USB_ONOFFSTART_DELAYUS) ;;
    (* power on PHY *)
    ITree.trigger (SET_REG (USB_PHY + OPHYPWR) OPHYPWR_POWERON) ;;
    ITree.trigger (udelay USB_PHYPWRPOWERON_DELAYUS) ;;
    (* select clock *)
    v <- ITree.trigger (GET_REG (USB_PHY + OPHYCLK)) ;;
    ITree.trigger (SET_REG (USB_PHY + OPHYCLK)
      (Z.lor (Z.land v OPHYCLK_CLKSEL_MASK) OPHYCLK_CLKSEL_48MHZ)) ;;
    (* reset phy *)
    v <- ITree.trigger (GET_REG (USB_PHY + ORSTCON)) ;;
    ITree.trigger (SET_REG (USB_PHY + ORSTCON) (Z.lor v ORSTCON_PHYSWRESET)) ;;
    ITree.trigger (udelay USB_RESET2_DELAYUS) ;;
    v <- ITree.trigger (GET_REG (USB_PHY + ORSTCON)) ;;
    ITree.trigger (SET_REG (USB_PHY + ORSTCON)
      (Z.land v (Z.lnot ORSTCON_PHYSWRESET))) ;;
    ITree.trigger (udelay USB_RESET_DELAYUS) ;;
    ITree.trigger (SET_REG (USB + GRSTCTL) GRSTCTL_CORESOFTRESET) ;;
    wait_reset_takes ;;
    wait_reset_completes ;;
    ITree.trigger (udelay USB_RESETWAITFINISH_DELAYUS) ;;
    (* allow host to reconnect *)
    v <- ITree.trigger (GET_REG (USB + DCTL)) ;;
    ITree.trigger (SET_REG (USB + DCTL) (Z.land v (Z.lnot DCTL_SFTDISCONNECT))) ;;
    ITree.trigger (udelay USB_SFTCONNECT_DELAYUS) ;;
    (* the element past the last endpoint, then every endpoint *)
    ITree.trigger (SET_EPREG (InEPRegs s) USB_NUM_ENDPOINTS interrupt
                     in_ep_interrupts) ;;
    ITree.trigger (SET_EPREG (OutEPRegs s) USB_NUM_ENDPOINTS interrupt
                     out_ep_interrupts) ;;
    unmask_ep_interrupts s ;;
    (* disable all interrupts until the descriptors have been set up *)
    ITree.trigger (SET_REG (USB + GINTMSK) GINTMSK_NONE) ;;
    ITree.trigger (SET_REG (USB + DIEPMSK) DIEPMSK_NONE) ;;
    ITree.trigger (SET_REG (USB + DOEPMSK) DOEPMSK_NONE) ;;
    ITree.trigger (interrupt_install USB_INTERRUPT 0) ;;
    ITree.trigger (interrupt_enable USB_INTERRUPT) ;;
    let s := initializeDescriptors s in
    inb <- (if inBuffer s =? 0 then ITree.trigger (memalign 64 128)
            else Ret (inBuffer s)) ;;
    let s := set_inBuffer inb s in
    outb <- (if outBuffer s =? 0 then ITree.trigger (memalign 64 128)
             else Ret (outBuffer s)) ;;
    let s := set_outBuffer outb s in
    ITree.trigger (SET_REG (USB + GAHBCFG)
      (Z.lor (Z.lor GAHBCFG_DMAEN GAHBCFG_BSTLEN_INCR8) GAHBCFG_MASKINT)) ;;
    ITree.trigger (SET_REG (USB + USB_UNKNOWNREG1) USB_UNKNOWNREG1_START) ;;
    ITree.trigger (SET_REG (USB + DCFG) DCFG_NZSTSOUTHSHK) ;;
    v <- ITree.trigger (GET_REG (USB + DCFG)) ;;
    ITree.trigger (SET_REG (USB + DCFG) (Z.land v (Z.lnot DCFG_DEVICEADDRMSK))) ;;
    ITree.trigger (SET_EPREG (InEPRegs s) 0 control USB_EPCON_ACTIVE) ;;
    ITree.trigger (SET_EPREG (OutEPRegs s) 0 control USB_EPCON_ACTIVE) ;;
    ITree.trigger (SET_REG (USB + GRXFSIZ) RX_FIFO_DEPTH) ;;
    ITree.trigger (SET_REG (USB + GNPTXFSIZ)
      (Z.lor (Z.shiftl TX_FIFO_DEPTH 8) TX_FIFO_STARTADDR)) ;;
    unmask_ep_interrupts s ;;
    ITree.trigger (SET_REG (USB + GINTMSK)
      (Z.lor (Z.lor (Z.lor (Z.lor (Z.lor GINTMSK_OTG GINTMSK_SUSPEND)
         GINTMSK_RESET) GINTMSK_INEP) GINTMSK_OEP) GINTMSK_DISCONNECT)) ;;
    ITree.trigger (SET_REG (USB + DAINTMSK) DAINTMSK_ALL) ;;
    ITree.trigger (SET_REG (USB + DOEPMSK)
      (Z.lor (Z.lor DOEPMSK_XFERCOMPL DOEPMSK_SETUP) DOEPMSK_BACK2BACKSETUP)) ;;
    ITree.trigger (SET_REG (USB + DIEPMSK)
      (Z.lor (Z.lor DIEPMSK_XFERCOMPL DIEPMSK_AHBERR) DIEPMSK_TIMEOUT)) ;;
    ITree.trigger (SET_REG (USB + DIEPMSK)
      (Z.lor (Z.lor DIEPMSK_XFERCOMPL DIEPMSK_AHBERR) DIEPMSK_TIMEOUT)) ;;
    ITree.trigger (SET_EPREG (InEPRegs s) 0 interrupt USB_EPINT_ALL) ;;
    ITree.trigger (SET_EPREG (OutEPRegs s) 0 interrupt USB_EPINT_ALL) ;;
    ITree.trigger (SET_REG (USB + DCTL)
      (DCTL_PROGRAMDONE + DCTL_CGOUTNAK + DCTL_CGNPINNAK)) ;;
    ITree.trigger (udelay USB_PROGRAMDONE_DELAYUS) ;;
    v <- ITree.trigger (GET_REG (USB + GOTGCTL)) ;;
    ITree.trigger (SET_REG (USB + GOTGCTL) (Z.lor v GOTGCTL_SESSIONREQUEST)) ;;
    let s := change_state USBPowered s in
    let s := set_usb_inited true s in
    Ret (0, s).

(** [releaseConfigurations(); releaseStringDescriptors();] *)
Definition release_all : M unit :=
  M_bind releaseConfigurations (fun _ => releaseStringDescriptors).

(** [usb_shutdown] ends in [None] when releasing the tables is undefined. *)
Definition usb_shutdown (s : State) : itree HwE (option (Z * State)) :=
  ITree.trigger (power_ctrl POWER_USB ON) ;;
  ITree.trigger (clock_gate_switch USB_OTGCLOCKGATE ON) ;;
  ITree.trigger (clock_gate_switch USB_PHYCLOCKGATE ON) ;;
  (* reset link *)
  v <- ITree.trigger (GET_REG (USB + USB_ONOFF)) ;;
  ITree.trigger (SET_REG (USB + USB_ONOFF) (Z.lor v USB_ONOFF_OFF)) ;;
  (* power down phy *)
  ITree.trigger (SET_REG (USB_PHY + OPHYPWR)
    (Z.lor (Z.lor (Z.lor (Z.lor OPHYPWR_FORCESUSPEND OPHYPWR_PLLPOWERDOWN)
       OPHYPWR_XOPOWERDOWN) OPHYPWR_ANALOGPOWERDOWN)
       OPHYPWR_UNKNOWNPOWERDOWN)) ;;
  (* reset phy/link *)
  ITree.trigger (SET_REG (USB_PHY + ORSTCON)
    (Z.lor (Z.lor ORSTCON_PHYSWRESET ORSTCON_LINKSWRESET)
       ORSTCON_PHYLINKSWRESET)) ;;
  ITree.trigger (udelay USB_RESET_DELAYUS) ;;
  ITree.trigger (clock_gate_switch USB_OTGCLOCKGATE OFF) ;;
  ITree.trigger (clock_gate_switch USB_PHYCLOCKGATE OFF) ;;
  ITree.trigger (power_ctrl POWER_USB OFF) ;;
  match release_all s with
  | Some (_, s') => Ret (Some (0, s'))
  | None => Ret None
  end.

End Lifecycle.

(** ** Concrete headers and the state at program start *)

(** The descriptor sizes and type codes of the USB 2.0 descriptor formats,
    the three [USBDirection] enumerators numbered from 0 (the guard
    [direction > 2] and the address bit [(direction & 0x1) << 7] fit
    [USBOut = 0], [USBIn = 1], [USBBiDir = 2]), and the controller's speed
    codes.  The instance serves to run the model on concrete inputs. *)
#[export] Instance standard_usb_h : UsbH := {|
  sizeof_USBDeviceDescriptor := 18;
  sizeof_USBConfigurationDescriptor := 9;
  sizeof_USBInterfaceDescriptor := 9;
  sizeof_USBEndpointDescriptor := 7;
  sizeof_USBStringDescriptor := 2;
  sizeof_USBFirstStringDescriptor := 2;
  USBDeviceDescriptorType := 1;
  USBConfigurationDescriptorType := 2;
  USBStringDescriptorType := 3;
  USBInterfaceDescriptorType := 4;
  USBEndpointDescriptorType := 5;
  USB_2_0 := 512;
  USB_MAX_PACKETSIZE := 64;
  VENDOR_APPLE := 1452;
  PRODUCT_IPHONE := 4736;
  DEVICE_IPHONE := 4355;
  OPENIBOOT_INTERFACE_CLASS := 255;
  OPENIBOOT_INTERFACE_SUBCLASS := 255;
  OPENIBOOT_INTERFACE_PROTOCOL := 81;
  USB_LANGID_ENGLISH_US := 1033;
  USB_HIGHSPEED := 0;
  USB_FULLSPEED := 1;
  USB_FULLSPEED_48_MHZ := 3;
  USB_LOWSPEED := 2;
  USB_NUM_ENDPOINTS := 6;
  USB_ENDPOINT_DIRECTIONS_BIDIR := 0;
  USB_ENDPOINT_DIRECTIONS_IN := 1;
  USB_ENDPOINT_DIRECTIONS_OUT := 2;
  USBOut := 0;
  USBIn := 1;
  USBBiDir := 2;
  USBBulk := 2;
  USBNoSynchronization := 0;
  USBDataEndpoint := 0;
  USBStart := 0;
  USBPowered := 1;
  USBConfigured := 4
|}.

(** A register map to run the lifecycle on: every theorem about [usb_setup]
    and [usb_shutdown] holds for all values of these constants. *)
#[export] Instance sample_hardware_h : HardwareH := {|
  ON := 1; OFF := 0;
  USB := 943718400; USB_PHY := 1010827264;
  USB_INREGS := 2304; USB_OUTREGS := 2816;
  POWER_USB := 2;
  USB_OTGCLOCKGATE := 2; USB_PHYCLOCKGATE := 35; EDRAM_CLOCKGATE := 36;
  USB_INTERRUPT := 19;
  USB_START_DELAYUS := 10000; USB_SFTDISCONNECT_DELAYUS := 4000;
  USB_ONOFFSTART_DELAYUS := 100; USB_PHYPWRPOWERON_DELAYUS := 10;
  USB_RESET2_DELAYUS := 20; USB_RESET_DELAYUS := 1000;
  USB_RESETWAITFINISH_DELAYUS := 1000; USB_SFTCONNECT_DELAYUS := 250;
  USB_PROGRAMDONE_DELAYUS := 10;
  DCTL := 2052; USB_ONOFF := 3584; OPHYPWR := 0; OPHYCLK := 4; ORSTCON := 8;
  GRSTCTL := 16; GINTMSK := 24; DIEPMSK := 2064; DOEPMSK := 2068;
  GAHBCFG := 8; USB_UNKNOWNREG1 := 12; DCFG := 2048; GRXFSIZ := 36;
  GNPTXFSIZ := 40; DAINTMSK := 2076; GOTGCTL := 0;
  DCTL_SFTDISCONNECT := 2; DCTL_PROGRAMDONE := 2048; DCTL_CGOUTNAK := 1024;
  DCTL_CGNPINNAK := 256;
  USB_ONOFF_OFF := 2;
  OPHYPWR_POWERON := 0; OPHYPWR_FORCESUSPEND := 1; OPHYPWR_PLLPOWERDOWN := 2;
  OPHYPWR_XOPOWERDOWN := 4; OPHYPWR_ANALOGPOWERDOWN := 8;
  OPHYPWR_UNKNOWNPOWERDOWN := 16;
  OPHYCLK_CLKSEL_MASK := 4294967292; OPHYCLK_CLKSEL_48MHZ := 0;
  ORSTCON_PHYSWRESET := 1; ORSTCON_LINKSWRESET := 2;
  ORSTCON_PHYLINKSWRESET := 4;
  GRSTCTL_CORESOFTRESET := 1;
  USB_EPINT_INEPNakEff := 64; USB_EPINT_INTknEPMis := 32;
  USB_EPINT_INTknTXFEmp := 16; USB_EPINT_TimeOUT := 8; USB_EPINT_AHBErr := 4;
  USB_EPINT_EPDisbld := 2; USB_EPINT_XferCompl := 1;
  USB_EPINT_OUTTknEPDis := 16; USB_EPINT_SetUp := 8;
  USB_EPINT_ALL := 4294967295;
  USB_EPCON_ACTIVE := 32768;
  GINTMSK_NONE := 0; GINTMSK_OTG := 4; GINTMSK_SUSPEND := 2048;
  GINTMSK_RESET := 4096; GINTMSK_INEP := 262144; GINTMSK_OEP := 524288;
  GINTMSK_DISCONNECT := 536870912;
  DIEPMSK_NONE := 0; DIEPMSK_XFERCOMPL := 1; DIEPMSK_AHBERR := 4;
  DIEPMSK_TIMEOUT := 8;
  DOEPMSK_NONE := 0; DOEPMSK_XFERCOMPL := 1; DOEPMSK_SETUP := 8;
  DOEPMSK_BACK2BACKSETUP := 64;
  DAINTMSK_ALL := 4294967295;
  GAHBCFG_DMAEN := 32; GAHBCFG_BSTLEN_INCR8 := 10; GAHBCFG_MASKINT := 1;
  USB_UNKNOWNREG1_START := 5128;
  DCFG_NZSTSOUTHSHK := 4; DCFG_DEVICEADDRMSK := 2032;
  RX_FIFO_DEPTH := 448; TX_FIFO_DEPTH := 448; TX_FIFO_STARTADDR := 448;
  GOTGCTL_SESSIONREQUEST := 2
|}.

Section Boot.
Context {usb_h : UsbH}.

(** The statics as the C runtime sets them up: zero-initialised, the two
    transfer buffers null, the tables of [USB_NUM_ENDPOINTS] elements. *)
Definition boot_state : State :=
  {| usb_inited := false;
     usb_state := 0;
     endpoint_directions := repeat 0 (Z.to_nat USB_NUM_ENDPOINTS);
     endpoint_handlers := repeat zero_handlers (Z.to_nat USB_NUM_ENDPOINTS);
     InEPRegs := 0;
     OutEPRegs := 0;
     deviceDescriptor :=
       {| dev_bLength := 0; dev_bDescriptorType := 0; bcdUSB := 0;
          bDeviceClass := 0; bDeviceSubClass := 0; bDeviceProtocol := 0;
          bMaxPacketSize := 0; idVendor := 0; idProduct := 0; bcdDevice := 0;
          iManufacturer := 0; iProduct := 0; iSerialNumber := 0;
          bNumConfigurations := 0 |};
     numStringDescriptors := 0;
     stringDescriptors := NULL;
     firstStringDescriptor := NULL;
     configurations := NULL;
     inBuffer := 0;
     outBuffer := 0 |}.

End Boot.

(** ** Views of the state and sample inputs

    What the properties below speak about: readings of the tables, the
    specification's own formula for the total length, the tree a build
    yields, conditions under which the tables can be released, a way to run
    a tree against a model of the controller, and concrete states. *)

Section Views.
Context {usb_h : UsbH}.

(** The slot of the table that belongs to a pair (endpoint, direction): what
    a dispatcher would read. *)
Definition handler_entry (s : State) (endpoint direction : Z)
  : option USBEndpointHandlerInfo :=
  match array_get (endpoint_handlers s) endpoint with
  | Some h =>
      if direction =? USBIn then Some (in_ h)
      else if direction =? USBOut then Some (out h)
      else None
  | None => None
  end.

(** The total length as the specification defines it: the size of the
    configuration descriptor plus, for every interface of the configuration,
    the size of the interface descriptor plus its endpoint count times the
    size of an endpoint descriptor. *)
Definition interfaces_length (ifs : list USBInterface) : Z :=
  fold_right (fun itf acc =>
      sizeof_USBInterfaceDescriptor
      + bNumEndpoints (if_descriptor itf) * sizeof_USBEndpointDescriptor
      + acc) 0 ifs.

Definition spec_total_length (c : USBConfiguration) : Z :=
  sizeof_USBConfigurationDescriptor
  + match interfaces c with
    | Ptr ifs => interfaces_length ifs
    | _ => 0
    end.

(** The elements of a block, none for a pointer to no block. *)
Definition block {A} (p : pointer (list A)) : list A :=
  match p with Ptr l => l | _ => [] end.

(** The language IDs the language-ID descriptor holds. *)
Definition langids_of (p : pointer USBFirstStringDescriptor) : list Z :=
  match p with Ptr d => wLANGID d | _ => [] end.

(** The language-ID descriptor after [realloc]: the header of the old block,
    or an unwritten one. *)
Definition with_langids (p : pointer USBFirstStringDescriptor)
  (ids : list Z) : USBFirstStringDescriptor :=
  {| fsd_bLength := match p with Ptr d => fsd_bLength d | _ => None end;
     fsd_bDescriptorType :=
       match p with Ptr d => fsd_bDescriptorType d | _ => None end;
     wLANGID := ids |}.

(** The table entry [addStringDescriptor] makes of a text. *)
Definition string_entry (text : string) : USBStringDescriptor :=
  {| str_bLength := u8 (sizeof_USBStringDescriptor + Z.of_nat (strlen text));
     str_bDescriptorType := u8 USBStringDescriptorType;
     bString := memcpy text (strlen text) |}.

(** The tree [usb_get_device_descriptor] builds. *)
Definition built_device : USBDeviceDescriptor :=
  {| dev_bLength := u8 sizeof_USBDeviceDescriptor;
     dev_bDescriptorType := u8 USBDeviceDescriptorType;
     bcdUSB := u16 USB_2_0;
     bDeviceClass := 0;
     bDeviceSubClass := 0;
     bDeviceProtocol := 0;
     bMaxPacketSize := u8 USB_MAX_PACKETSIZE;
     idVendor := u16 VENDOR_APPLE;
     idProduct := u16 PRODUCT_IPHONE;
     bcdDevice := u16 DEVICE_IPHONE;
     iManufacturer := 1;
     iProduct := 2;
     iSerialNumber := 3;
     bNumConfigurations := 1 |}.

Definition built_configuration (fresh : fresh_bits) : USBConfiguration :=
  {| descriptor :=
       {| cfg_bLength := u8 sizeof_USBConfigurationDescriptor;
          cfg_bDescriptorType := u8 USBConfigurationDescriptorType;
          wTotalLength := 0;
          bNumInterfaces := 0;
          bConfigurationValue := 1;
          iConfiguration := 4;
          cfg_bmAttributes := 128;
          bMaxPower := 250 |};
     interfaces := fresh_pointer fresh |}.

Definition built_strings : list USBStringDescriptor :=
  [ string_entry "Apple Inc.";
    string_entry "Apple Mobile Device (OpenIBoot Mode)";
    string_entry "";
    string_entry "OpenIBoot Mode Configuration" ].

Definition built_langids : list Z :=
  [ u16 USB_LANGID_ENGLISH_US; u16 USB_LANGID_ENGLISH_US;
    u16 USB_LANGID_ENGLISH_US; u16 USB_LANGID_ENGLISH_US ].

(** The part of the state the host sees through the three getters. *)
Definition descriptor_tree (s : State) :=
  (deviceDescriptor s, configurations s,
   numStringDescriptors s, stringDescriptors s,
   langids_of (firstStringDescriptor s)).

(** The endpoints of the first interface of the first configuration. *)
Definition default_endpoints (s : State)
  : option (list USBEndpointDescriptor) :=
  match configurations s with
  | Ptr (c :: _) =>
      match interfaces c with
      | Ptr (itf :: _) =>
          match endpointDescriptors itf with
          | Ptr eps => Some eps
          | _ => None
          end
      | _ => None
      end
  | _ => None
  end.

(** First bring-up, first device query, then the configuration query that
    synthesizes the default interface at the given speed. *)
Definition first_configuration_query (speed_id : Z)
  : option (USBConfigurationDescriptor * State) :=
  (let* _ := usb_get_device_descriptor Zero_bits in
   usb_get_configuration_descriptor 0 speed_id)
    (initializeDescriptors boot_state).

Definition default_packet_sizes (speed_id : Z) : option (list Z) :=
  match first_configuration_query speed_id with
  | Some (_, s) => option_map (List.map wMaxPacketSize) (default_endpoints s)
  | None => None
  end.

(** Tables that [releaseConfigurations] and [releaseStringDescriptors] can
    free: every pointer null or live, every counter covered by its block and
    within reach of the [int8_t] loop variables. *)
Definition interface_ok (itf : USBInterface) : Prop :=
  endpointDescriptors itf <> Wild.

Definition configuration_ok (c : USBConfiguration) : Prop :=
  match interfaces c with
  | NULL => bNumInterfaces (descriptor c) <= 0
  | Ptr ifs =>
      bNumInterfaces (descriptor c) <= 127 /\
      bNumInterfaces (descriptor c) <= Z.of_nat (List.length ifs) /\
      Forall interface_ok ifs
  | Wild => False
  end.

Definition tables_ok (s : State) : Prop :=
  match configurations s with
  | NULL => True
  | Ptr cfgs =>
      bNumConfigurations (deviceDescriptor s) <= 127 /\
      bNumConfigurations (deviceDescriptor s) <= Z.of_nat (List.length cfgs) /\
      Forall configuration_ok cfgs
  | Wild => False
  end /\
  match stringDescriptors s with
  | NULL => True
  | Ptr sds =>
      numStringDescriptors s <= 127 /\
      numStringDescriptors s <= Z.of_nat (List.length sds)
  | Wild => False
  end.

End Views.

(** An interface as [addInterfaceDescriptor] leaves it: no endpoint yet. *)
Definition sample_interface : USBInterface :=
  {| if_descriptor :=
       {| if_bLength := 9; if_bDescriptorType := 4; bInterfaceNumber := 0;
          bAlternateSetting := 0; bNumEndpoints := 0; bInterfaceClass := 255;
          bInterfaceSubClass := 255; bInterfaceProtocol := 81;
          iInterface := 5 |};
     endpointDescriptors := NULL |}.

(** [sample_interface] after an accepted call for endpoint 5, direction IN. *)
Definition sample_interface_in : USBInterface :=
  {| if_descriptor := set_bNumEndpoints 1 (if_descriptor sample_interface);
     endpointDescriptors :=
       Ptr [ {| ep_bLength := 7; ep_bDescriptorType := 5;
                bEndpointAddress := 129; ep_bmAttributes := 2;
                wMaxPacketSize := 512; bInterval := 0 |} ] |}.

(** Two configurations, the second with one interface of two endpoints,
    built and finalized with the file's own functions. *)
Definition second_configuration_scenario : M unit :=
  let* _ := addConfiguration Zero_bits 1 0 0 0 500 in
  let* k := addConfiguration Zero_bits 2 0 0 0 500 in
  let* j :=
    with_configuration k (fun c => addInterfaceDescriptor c 0 0 255 255 81 0) in
  let* _ :=
    with_interface k j (fun itf =>
      addEndpointDescriptor itf 1 USBIn USBBulk USBNoSynchronization
        USBDataEndpoint 512 0) in
  let* _ :=
    with_interface k j (fun itf =>
      addEndpointDescriptor itf 1 USBOut USBBulk USBNoSynchronization
        USBDataEndpoint 512 0) in
  endConfiguration k.

(** A state that serves descriptors: brought up, device and configuration
    queried at high speed. *)
Definition serving_tables : State :=
  match first_configuration_query USB_HIGHSPEED with
  | Some (_, s) => s
  | None => boot_state
  end.

Definition released_tables : State :=
  match release_all serving_tables with
  | Some (_, s) => s
  | None => boot_state
  end.

(** A hardware model answers every event from a state of its own. *)
Definition hardware (S : Type) : Type := forall X, HwE X -> S -> X * S.

Fixpoint run {S R} (hw : hardware S) (fuel : nat) (t : itree HwE R) (h : S)
  : option (R * S) :=
  match fuel with
  | O => None
  | S fuel' =>
      match observe t with
      | RetF r => Some (r, h)
      | TauF t' => run hw fuel' t' h
      | VisF e k => let (x, h') := hw _ e h in run hw fuel' (k x) h'
      end
  end.

(** A controller that is idle after the core reset (bit 31 of GRSTCTL set,
    the reset bit clear, read as a signed word), whose endpoint 0 is
    bidirectional, odd endpoints IN and the others OUT, and an allocator
    that hands out consecutive aligned blocks. *)
Definition idle_controller : hardware Z :=
  fun X e brk =>
    match e in HwE X return X * Z with
    | GET_REG addr =>
        (if addr =? USB + GRSTCTL then -2147483648 else 0, brk)
    | SET_REG _ _ => (tt, brk)
    | SET_EPREG _ _ _ _ => (tt, brk)
    | USB_EP_DIRECTION i =>
        (if i =? 0 then USB_ENDPOINT_DIRECTIONS_BIDIR
         else if Z.odd i then USB_ENDPOINT_DIRECTIONS_IN
         else USB_ENDPOINT_DIRECTIONS_OUT, brk)
    | power_ctrl _ _ => (tt, brk)
    | clock_gate_switch _ _ => (tt, brk)
    | udelay _ => (tt, brk)
    | interrupt_install _ _ => (tt, brk)
    | interrupt_enable _ => (tt, brk)
    | memalign alignment size =>
        let p := alignment * ((brk + alignment - 1) / alignment) in
        (p, p + size)
    end.

(** The statics after the first [usb_setup] on that controller. *)
Definition up_state : State :=
  match run idle_controller 400 (usb_setup boot_state) 4096 with
  | Some ((_, s), _) => s
  | None => boot_state
  end.

(** The brought-up controller after the host has read the device and the
    configuration descriptor, and what releasing the tables makes of it. *)
Definition serving_state : State :=
  match (let* _ := usb_get_device_descriptor Zero_bits in
         usb_get_configuration_descriptor 0 USB_HIGHSPEED) up_state with
  | Some (_, s) => s
  | None => up_state
  end.

Definition shut_state : State :=
  match release_all serving_state with
  | Some (_, s) => s
  | None => serving_state
  end.

(** ** Further views and sample inputs

    Readings and inputs for the properties of the second part: the
    interface a configuration query synthesizes, what the first loop of
    [usb_setup] can make of the direction table, a controller whose core
    reset never completes, and states built with the file's own functions. *)

(** The first configuration has its interfaces block: then a configuration
    query synthesizes nothing. *)
Definition has_interfaces (s : State) : Prop :=
  exists cfgs c,
    configurations s = Ptr cfgs /\ array_get cfgs 0 = Some c /\
    interfaces c <> NULL.

Section FurtherViews.
Context {usb_h : UsbH} {hw_h : HardwareH}.

(** The interface [usb_get_configuration_descriptor] synthesizes: two bulk
    endpoints on endpoint number 1, IN first. *)
Definition default_endpoint (direction speed_id : Z) : USBEndpointDescriptor :=
  {| ep_bLength := u8 sizeof_USBEndpointDescriptor;
     ep_bDescriptorType := u8 USBEndpointDescriptorType;
     bEndpointAddress := 1 + 128 * (direction mod 2);
     ep_bmAttributes :=
       u8 (Z.lor (Z.lor (Z.land USBBulk 3)
                    (Z.shiftl (Z.land USBNoSynchronization 3) 2))
             (Z.shiftl (Z.land USBDataEndpoint 3) 4));
     wMaxPacketSize := packetsizeFromSpeed speed_id;
     bInterval := 0 |}.

Definition default_interface (speed_id iInterface' : Z) : USBInterface :=
  {| if_descriptor :=
       {| if_bLength := u8 sizeof_USBInterfaceDescriptor;
          if_bDescriptorType := u8 USBInterfaceDescriptorType;
          bInterfaceNumber := 0;
          bAlternateSetting := 0;
          bNumEndpoints := 2;
          bInterfaceClass := u8 OPENIBOOT_INTERFACE_CLASS;
          bInterfaceSubClass := u8 OPENIBOOT_INTERFACE_SUBCLASS;
          bInterfaceProtocol := u8 OPENIBOOT_INTERFACE_PROTOCOL;
          iInterface := iInterface' |};
     endpointDescriptors :=
       Ptr [default_endpoint USBIn speed_id; default_endpoint USBOut speed_id] |}.

(** A configuration without interfaces after the synthesis. *)
Definition with_default_interface (c : USBConfiguration)
  (speed_id iInterface' : Z) : USBConfiguration :=
  {| descriptor :=
       set_wTotalLength
         (u16 (sizeof_USBConfigurationDescriptor
               + (sizeof_USBInterfaceDescriptor
                  + 2 * sizeof_USBEndpointDescriptor)))
         (set_bNumInterfaces 1 (descriptor c));
     interfaces := Ptr [default_interface speed_id iInterface'] |}.

(** What the first loop of [usb_setup] can make of the direction table: the
    same number of elements, each a [USBDirection] or what it was. *)
Definition directions_from (dirs0 dirs : list Z) : Prop :=
  List.length dirs = List.length dirs0 /\
  forall i d, array_get dirs i = Some d ->
    d = USBBiDir \/ d = USBIn \/ d = USBOut \/ array_get dirs0 i = Some d.

(** A controller that never lets go of the core soft reset: every read of
    GRSTCTL has the reset bit set. *)
Definition reset_stuck {W} (hw : hardware W) : Prop :=
  forall h,
    Z.land (fst (hw _ (GET_REG (USB + GRSTCTL)) h)) GRSTCTL_CORESOFTRESET
    = GRSTCTL_CORESOFTRESET.

End FurtherViews.

(** A controller all of whose registers read as all-ones. *)
Definition stuck_controller : hardware unit :=
  fun X e h =>
    match e in HwE X return X * unit with
    | GET_REG _ => (-1, h)
    | SET_REG _ _ => (tt, h)
    | SET_EPREG _ _ _ _ => (tt, h)
    | USB_EP_DIRECTION _ => (0, h)
    | power_ctrl _ _ => (tt, h)
    | clock_gate_switch _ _ => (tt, h)
    | udelay _ => (tt, h)
    | interrupt_install _ _ => (tt, h)
    | interrupt_enable _ => (tt, h)
    | memalign _ _ => (0, h)
    end.

(** The brought-up controller after a handler was installed for endpoint 1,
    direction IN. *)
Definition installed_state : State :=
  match usb_install_ep_handler 1 USBIn 4096 7 up_state with
  | Some (_, s) => s
  | None => up_state
  end.

(** String tables of one and of two entries, and one whose only entry is a
    text of 254 characters. *)
Definition one_string : State :=
  match addStringDescriptor "Apple Inc." boot_state with
  | Some (_, s) => s
  | None => boot_state
  end.

Definition two_strings : State :=
  match addStringDescriptor "OpenIBoot" one_string with
  | Some (_, s) => s
  | None => one_string
  end.

Definition long_text : string :=
  string_of_list_ascii (repeat "a"%char 254).

Definition long_string : State :=
  match addStringDescriptor long_text boot_state with
  | Some (_, s) => s
  | None => boot_state
  end.

(** [serving_tables] after [releaseStringDescriptors] alone. *)
Definition strings_released : State :=
  match releaseStringDescriptors serving_tables with
  | Some (_, s) => s
  | None => serving_tables
  end.

(** The tables after the first device query. *)
Definition device_built : State :=
  match usb_get_device_descriptor Zero_bits boot_state with
  | Some (_, s) => s
  | None => boot_state
  end.

(** Two configurations: the first with one interface, the second without
    any. *)
Definition first_with_interface : USBConfiguration :=
  {| descriptor :=
       set_bNumInterfaces 1 (descriptor (built_configuration Zero_bits));
     interfaces := Ptr [sample_interface] |}.

Definition uneven_tables : State :=
  set_configurations
    (Ptr [first_with_interface; built_configuration Zero_bits]) boot_state.

(** The built configuration after one [addInterfaceDescriptor]. *)
Definition one_interface : USBConfiguration :=
  match addInterfaceDescriptor (built_configuration Zero_bits)
          0 0 255 255 81 5 with
  | Some (_, c) => c
  | None => built_configuration Zero_bits
  end.

(** Statics whose two transfer buffers are there already, and what
    [usb_setup] on the idle controller makes of them. *)
Definition buffers_state : State :=
  set_outBuffer 8192 (set_inBuffer 4096 boot_state).

Definition buffers_up_state : State :=
  match run idle_controller 400 (usb_setup buffers_state) 4096 with
  | Some ((_, s), _) => s
  | None => buffers_state
  end.

(** * Properties *)

(** ** Blocks and arrays *)

Lemma store_nth {A} (l l' : list A) (i : nat) (v : A) :
  store l i v = Some l' -> nth_error l' i = Some v.
Proof.
  unfold store. destruct (i <=? List.length l)%nat eqn:Hi; [|discriminate].
  intros [= <-]. apply Nat.leb_le in Hi.
  rewrite nth_error_app2; rewrite firstn_length_le by exact Hi; [|lia].
  now rewrite Nat.sub_diag.
Qed.

Lemma store_append {A} (l : list A) (v : A) :
  store l (List.length l) v = Some (l ++ [v]).
Proof.
  unfold store. rewrite Nat.leb_refl, firstn_all.
  now rewrite skipn_all2 by lia.
Qed.

Lemma realloc_store_get {A} (p : pointer (list A)) (n i : Z) (v : A) l :
  realloc_store p n i v = Some l -> array_get l i = Some v.
Proof.
  unfold realloc_store, array_get.
  destruct p as [|b|]; [| |discriminate];
    (destruct ((0 <=? i) && (i <? n)) eqn:Hr; [|discriminate]);
    apply andb_true_iff in Hr; destruct Hr as [H0 _];
    apply Z.leb_le in H0; intros Hs; apply store_nth in Hs;
    (destruct (i <? 0) eqn:Hn; [apply Z.ltb_lt in Hn; lia | exact Hs]).
Qed.

Lemma realloc_store_append {A} (l : list A) (v : A) :
  Z.of_nat (List.length l) < 255 ->
  realloc_store (Ptr l) (Z.of_nat (List.length l) + 1)
    (Z.of_nat (List.length l)) v = Some (l ++ [v]).
Proof.
  intros _. unfold realloc_store.
  replace ((0 <=? Z.of_nat (List.length l))
           && (Z.of_nat (List.length l) <? Z.of_nat (List.length l) + 1))
    with true by (symmetry; apply andb_true_iff; split;
                  [apply Z.leb_le | apply Z.ltb_lt]; lia).
  rewrite Nat2Z.id, firstn_all2 by lia. apply store_append.
Qed.

Lemma array_get_range {A} (l : list A) (i : Z) (x : A) :
  array_get l i = Some x -> 0 <= i < Z.of_nat (List.length l).
Proof.
  unfold array_get. destruct (i <? 0) eqn:Hn; [discriminate|].
  apply Z.ltb_ge in Hn. intros H.
  assert (Z.to_nat i < List.length l)%nat
    by (apply nth_error_Some; congruence).
  lia.
Qed.

Lemma array_get_defined {A} (l : list A) (i : Z) :
  0 <= i < Z.of_nat (List.length l) -> exists x, array_get l i = Some x.
Proof.
  intros Hi. unfold array_get.
  destruct (i <? 0) eqn:Hn; [apply Z.ltb_lt in Hn; lia|].
  destruct (nth_error l (Z.to_nat i)) eqn:E; [eauto|].
  apply nth_error_None in E. lia.
Qed.

Lemma array_set_defined {A} (l : list A) (i : Z) (v : A) :
  0 <= i < Z.of_nat (List.length l) -> exists l', array_set l i v = Some l'.
Proof.
  intros Hi. unfold array_set.
  replace ((0 <=? i) && (i <? Z.of_nat (List.length l))) with true; [eauto|].
  symmetry. apply andb_true_iff. split; [apply Z.leb_le | apply Z.ltb_lt]; lia.
Qed.

Lemma array_set_get {A} (l l' : list A) (i : Z) (v : A) :
  array_set l i v = Some l' -> array_get l' i = Some v.
Proof.
  unfold array_set, array_get.
  destruct ((0 <=? i) && (i <? Z.of_nat (List.length l))) eqn:Hr;
    [|discriminate].
  apply andb_true_iff in Hr. destruct Hr as [H0 H1].
  apply Z.leb_le in H0. apply Z.ltb_lt in H1. intros [= <-].
  destruct (i <? 0) eqn:Hn; [apply Z.ltb_lt in Hn; lia|].
  rewrite nth_error_app2; rewrite firstn_length_le by lia; [|lia].
  now rewrite Nat.sub_diag.
Qed.

Lemma array_set_head {A} (x v : A) (l : list A) :
  array_set (x :: l) 0 v = Some (v :: l).
Proof. reflexivity. Qed.

Lemma array_set_length {A} (l l' : list A) (i : Z) (v : A) :
  array_set l i v = Some l' -> List.length l' = List.length l.
Proof.
  unfold array_set.
  destruct ((0 <=? i) && (i <? Z.of_nat (List.length l))) eqn:Hr;
    [|discriminate].
  apply andb_true_iff in Hr. destruct Hr as [H0 H1].
  apply Z.leb_le in H0. apply Z.ltb_lt in H1. intros E.
  replace l' with (firstn (Z.to_nat i) l ++ v :: skipn (S (Z.to_nat i)) l)
    by congruence.
  rewrite length_app. cbn [List.length].
  rewrite firstn_length_le by lia. rewrite List.length_skipn. lia.
Qed.

Lemma realloc_store_next {A} (p : pointer (list A)) (n : nat) (v : A) :
  p <> Wild ->
  (n <= List.length (block p))%nat ->
  realloc_store p (Z.of_nat n + 1) (Z.of_nat n) v
  = Some (firstn n (block p) ++ [v]).
Proof.
  intros Hp Hn. unfold realloc_store.
  assert (G : (0 <=? Z.of_nat n) && (Z.of_nat n <? Z.of_nat n + 1) = true)
    by (apply andb_true_iff; split; [apply Z.leb_le | apply Z.ltb_lt]; lia).
  destruct p as [|l|]; [| |congruence]; rewrite G, Nat2Z.id.
  - cbn [block List.length] in Hn. assert (n = 0)%nat by lia. subst n.
    reflexivity.
  - cbn [block] in *.
    replace (Z.to_nat (Z.of_nat n + 1)) with (S n) by lia.
    unfold store.
    assert (L : (n <=? List.length (firstn (S n) l))%nat = true).
    { apply Nat.leb_le. rewrite List.length_firstn. lia. }
    rewrite L, firstn_firstn, Nat.min_l by lia.
    rewrite skipn_all2; [reflexivity|].
    rewrite List.length_firstn. lia.
Qed.

Lemma s8_small (z : Z) : -128 <= z < 128 -> s8 z = z.
Proof. intros H. unfold s8. rewrite Z.mod_small by lia. lia. Qed.

(** ** Bit fields of the endpoint address *)

Lemma endpoint_address_bits (endpoint direction : Z) :
  u8 (Z.lor (Z.land endpoint 3) (Z.shiftl (Z.land direction 1) 7))
  = endpoint mod 4 + 128 * (direction mod 2).
Proof.
  change 3 with (Z.ones 2). change 1 with (Z.ones 1) at 1.
  rewrite !Z.land_ones by lia. change (2 ^ 2) with 4. change (2 ^ 1) with 2.
  assert (He : 0 <= endpoint mod 4 < 4) by (apply Z.mod_pos_bound; lia).
  assert (Hd : 0 <= direction mod 2 < 2) by (apply Z.mod_pos_bound; lia).
  assert (Ce : endpoint mod 4 = 0 \/ endpoint mod 4 = 1
               \/ endpoint mod 4 = 2 \/ endpoint mod 4 = 3) by lia.
  assert (Cd : direction mod 2 = 0 \/ direction mod 2 = 1) by lia.
  destruct Ce as [-> | [-> | [-> | ->]]]; destruct Cd as [-> | ->];
    reflexivity.
Qed.

(** ** Endpoint descriptors *)

Section Endpoints.
Context {usb_h : UsbH}.

Lemma addEndpointDescriptor_masks_endpoint (interface : USBInterface)
  (endpoint direction transferType syncType usageType size interval : Z) :
  addEndpointDescriptor interface (endpoint mod 4) direction transferType
    syncType usageType size interval
  = addEndpointDescriptor interface endpoint direction transferType
      syncType usageType size interval.
Proof.
  unfold addEndpointDescriptor.
  replace (Z.land (endpoint mod 4) 3) with (Z.land endpoint 3); [reflexivity|].
  change 3 with (Z.ones 2). rewrite !Z.land_ones by lia.
  change (2 ^ 2) with 4. now rewrite Z.mod_mod by lia.
Qed.

(** C10.  An accepted [addEndpointDescriptor] call (one that passes the
    guard on [direction]) stores in the new element, at the index it
    returns, the address [(endpoint & 0x3) | ((direction & 0x1) << 7)]: the
    endpoint number modulo 4 in the low bits and the low bit of the
    direction in bit 7.  The call with [endpoint] does exactly what the call
    with [endpoint mod 4] does, so a number of 4 or more is neither stored
    as such nor rejected. *)
Theorem addEndpointDescriptor_address_aliases (interface itf' : USBInterface)
  (endpoint direction transferType syncType usageType size interval idx : Z) :
  direction <= 2 ->
  addEndpointDescriptor interface endpoint direction transferType syncType
    usageType size interval = Some (idx, itf') ->
  idx = bNumEndpoints (if_descriptor interface) /\
  (exists eps e,
      endpointDescriptors itf' = Ptr eps /\
      array_get eps idx = Some e /\
      bEndpointAddress e = endpoint mod 4 + 128 * (direction mod 2)) /\
  addEndpointDescriptor interface (endpoint mod 4) direction transferType
    syncType usageType size interval = Some (idx, itf').
Proof.
  intros Hd Hrun. split; [|split].
  - unfold addEndpointDescriptor in Hrun.
    destruct (2 <? direction) eqn:G; [apply Z.ltb_lt in G; lia|].
    destruct (realloc_store _ _ _ _); [|discriminate]. congruence.
  - unfold addEndpointDescriptor in Hrun.
    destruct (2 <? direction) eqn:G; [apply Z.ltb_lt in G; lia|].
    destruct (realloc_store _ _ _ _) as [eps|] eqn:R; [|discriminate].
    apply realloc_store_get in R.
    assert (E : itf' = {| if_descriptor :=
                            set_bNumEndpoints
                              (u8 (bNumEndpoints (if_descriptor interface) + 1))
                              (if_descriptor interface);
                          endpointDescriptors := Ptr eps |}) by congruence.
    assert (I : idx = bNumEndpoints (if_descriptor interface)) by congruence.
    subst itf' idx. eexists eps, _. split; [reflexivity|]. split; [exact R|].
    cbn [bEndpointAddress]. apply endpoint_address_bits.
  - rewrite addEndpointDescriptor_masks_endpoint. exact Hrun.
Qed.

(** C7, as the code has it.  [addEndpointDescriptor] rejects a direction
    above 2, the last enumerator: it returns [(uint8_t) -1], that is 255, and
    leaves the interface as it was. *)
Theorem addEndpointDescriptor_rejects_above_2 (interface : USBInterface)
  (endpoint direction transferType syncType usageType size interval : Z) :
  2 < direction ->
  addEndpointDescriptor interface endpoint direction transferType syncType
    usageType size interval = Some (255, interface).
Proof.
  intros Hd. unfold addEndpointDescriptor.
  apply Z.ltb_lt in Hd. now rewrite Hd.
Qed.

(** Every direction up to 2 passes the guard: on an interface whose block
    holds its [bNumEndpoints] endpoints, fewer than 255, the call appends an
    endpoint and returns its index. *)
Lemma addEndpointDescriptor_accepts_up_to_2 (interface : USBInterface)
  (endpoint direction transferType syncType usageType size interval : Z) :
  direction <= 2 ->
  endpointDescriptors interface <> Wild ->
  bNumEndpoints (if_descriptor interface)
  = Z.of_nat (List.length (block (endpointDescriptors interface))) ->
  bNumEndpoints (if_descriptor interface) < 255 ->
  exists e,
    addEndpointDescriptor interface endpoint direction transferType syncType
      usageType size interval
    = Some (bNumEndpoints (if_descriptor interface),
            {| if_descriptor :=
                 set_bNumEndpoints (bNumEndpoints (if_descriptor interface) + 1)
                   (if_descriptor interface);
               endpointDescriptors :=
                 Ptr (block (endpointDescriptors interface) ++ [e]) |}).
Proof.
  intros Hd Hp Hn Hlt. unfold addEndpointDescriptor.
  destruct (2 <? direction) eqn:G; [apply Z.ltb_lt in G; lia|].
  cbn [set_bNumEndpoints bNumEndpoints].
  assert (U : u8 (bNumEndpoints (if_descriptor interface) + 1)
              = bNumEndpoints (if_descriptor interface) + 1)
    by (unfold u8; apply Z.mod_small; lia).
  rewrite U, Hn, (realloc_store_next _ _ _ Hp) by lia.
  rewrite firstn_all. eexists. reflexivity.
Qed.

(** Whatever numbers the header gives the enumerators, one of the
    directions 0, 1, 2 is neither [USBIn] nor [USBOut], and the guard lets it
    through. *)
Lemma addEndpointDescriptor_accepts_a_third_direction
  (interface : USBInterface)
  (endpoint transferType syncType usageType size interval : Z) :
  endpointDescriptors interface <> Wild ->
  bNumEndpoints (if_descriptor interface)
  = Z.of_nat (List.length (block (endpointDescriptors interface))) ->
  bNumEndpoints (if_descriptor interface) < 255 ->
  exists direction itf',
    direction <> USBIn /\ direction <> USBOut /\
    addEndpointDescriptor interface endpoint direction transferType syncType
      usageType size interval
    = Some (bNumEndpoints (if_descriptor interface), itf') /\
    bNumEndpoints (if_descriptor itf')
    = bNumEndpoints (if_descriptor interface) + 1.
Proof.
  intros Hp Hn Hlt.
  assert (Hthird : exists direction,
             0 <= direction <= 2 /\ direction <> USBIn /\ direction <> USBOut).
  { destruct (Z.eq_dec USBIn 0), (Z.eq_dec USBOut 0),
      (Z.eq_dec USBIn 1), (Z.eq_dec USBOut 1);
      try (exists 0; lia); try (exists 1; lia); exists 2; lia. }
  destruct Hthird as (direction & Hr & Hi & Ho).
  destruct (addEndpointDescriptor_accepts_up_to_2 interface endpoint direction
              transferType syncType usageType size interval) as [e He];
    [lia | assumption | assumption | assumption |].
  eexists direction, _. repeat split; [exact Hi | exact Ho | exact He |].
  reflexivity.
Qed.

End Endpoints.

Lemma addEndpointDescriptor_address_aliases_witness :
  0 = bNumEndpoints (if_descriptor sample_interface) /\
  (exists eps e,
      endpointDescriptors sample_interface_in = Ptr eps /\
      array_get eps 0 = Some e /\
      bEndpointAddress e = 5 mod 4 + 128 * (1 mod 2)) /\
  addEndpointDescriptor sample_interface (5 mod 4) 1 2 0 0 512 0
  = Some (0, sample_interface_in).
Proof.
  apply (addEndpointDescriptor_address_aliases
           sample_interface sample_interface_in 5 1 2 0 0 512 0 0);
    [lia | reflexivity].
Defined.

Lemma addEndpointDescriptor_rejects_above_2_witness :
  2 < 3 /\
  addEndpointDescriptor sample_interface 1 3 2 0 0 512 0
  = Some (255, sample_interface).
Proof.
  split; [lia|]. apply addEndpointDescriptor_rejects_above_2. lia.
Defined.

(** C7, as the specification states it, fails: the bidirectional value is
    neither [USBIn] nor [USBOut], yet [addEndpointDescriptor] does not reject
    it.  It appends an endpoint (whose address carries direction bit 0) and
    returns the new index 0. *)
Lemma addEndpointDescriptor_accepts_bidirectional :
  USBBiDir <> USBIn /\ USBBiDir <> USBOut /\
  addEndpointDescriptor sample_interface 1 USBBiDir USBBulk
    USBNoSynchronization USBDataEndpoint 512 0
  = Some (0,
      {| if_descriptor :=
           set_bNumEndpoints 1 (if_descriptor sample_interface);
         endpointDescriptors :=
           Ptr [ {| ep_bLength := 7; ep_bDescriptorType := 5;
                    bEndpointAddress := 1; ep_bmAttributes := 2;
                    wMaxPacketSize := 512; bInterval := 0 |} ] |}) /\
  addEndpointDescriptor sample_interface 1 USBBiDir USBBulk
    USBNoSynchronization USBDataEndpoint 512 0
  <> Some (255, sample_interface).
Proof.
  repeat split; try discriminate.
Qed.

(** ** Endpoint handler registry *)

Section Handlers.
Context {usb_h : UsbH}.

Lemma u32_small (t : Z) : 0 <= t < 2 ^ 32 -> u32 t = t.
Proof. intros Ht. unfold u32. apply Z.mod_small. lia. Qed.

Lemma usb_install_ep_handler_ok (s : State) (endpoint direction h t d : Z) :
  0 <= endpoint < USB_NUM_ENDPOINTS ->
  Z.of_nat (List.length (endpoint_handlers s)) = USB_NUM_ENDPOINTS ->
  array_get (endpoint_directions s) endpoint = Some d ->
  d = direction \/ d = USBBiDir ->
  direction = USBIn \/ direction = USBOut ->
  0 <= t < 2 ^ 32 ->
  exists s',
    usb_install_ep_handler endpoint direction h t s = Some (0, s') /\
    handler_entry s' endpoint direction
    = Some {| handler := h; token := t |} /\
    endpoint_directions s' = endpoint_directions s /\
    List.length (endpoint_handlers s') = List.length (endpoint_handlers s).
Proof.
  intros He Hlen Hd Hcap Hdir Ht.
  unfold usb_install_ep_handler.
  destruct (endpoint >=? USB_NUM_ENDPOINTS) eqn:G;
    [apply Z.geb_le in G; lia|].
  unfold M_bind at 1. cbn [M_get].
  unfold M_bind at 1. rewrite Hd. cbn [M_lift].
  assert (Hguard : negb (d =? direction) && negb (d =? USBBiDir) = false).
  { destruct Hcap as [-> | ->]; rewrite Z.eqb_refl; cbn;
      [reflexivity | apply andb_false_r]. }
  rewrite Hguard.
  destruct (array_get_defined (endpoint_handlers s) endpoint) as [old Hold];
    [lia|].
  rewrite (u32_small t Ht).
  destruct (direction =? USBIn) eqn:Din.
  - destruct (array_set_defined (endpoint_handlers s) endpoint
                {| in_ := {| handler := h; token := t |}; out := out old |})
      as [hs Hhs]; [lia|].
    unfold M_bind, M_lift, M_modify, M_ret. rewrite Hold, Hhs.
    eexists. split; [reflexivity|].
    unfold handler_entry. cbn [endpoint_handlers set_endpoint_handlers].
    rewrite (array_set_get _ _ _ _ Hhs), Din.
    repeat split. cbn. now apply array_set_length in Hhs.
  - assert (Dout : (direction =? USBOut) = true).
    { destruct Hdir as [-> | ->];
        [rewrite Z.eqb_refl in Din; discriminate | apply Z.eqb_refl]. }
    rewrite Dout.
    destruct (array_set_defined (endpoint_handlers s) endpoint
                {| in_ := in_ old; out := {| handler := h; token := t |} |})
      as [hs Hhs]; [lia|].
    unfold M_bind, M_lift, M_modify, M_ret. rewrite Hold, Hhs.
    eexists. split; [reflexivity|].
    unfold handler_entry. cbn [endpoint_handlers set_endpoint_handlers].
    rewrite (array_set_get _ _ _ _ Hhs), Din, Dout.
    repeat split. cbn. now apply array_set_length in Hhs.
Qed.

(** C3.  For an endpoint number in the physical range and a direction IN or
    OUT that the endpoint's hardware direction equals or covers by being
    bidirectional, [usb_install_ep_handler] returns 0 and the slot of the
    pair then holds exactly the handler and token just given, whatever it
    held before. *)
Theorem usb_install_ep_handler_installs (s : State)
  (endpoint direction h t d : Z) :
  0 <= endpoint < USB_NUM_ENDPOINTS ->
  Z.of_nat (List.length (endpoint_handlers s)) = USB_NUM_ENDPOINTS ->
  array_get (endpoint_directions s) endpoint = Some d ->
  d = direction \/ d = USBBiDir ->
  direction = USBIn \/ direction = USBOut ->
  0 <= t < 2 ^ 32 ->
  exists s',
    usb_install_ep_handler endpoint direction h t s = Some (0, s') /\
    handler_entry s' endpoint direction = Some {| handler := h; token := t |}.
Proof.
  intros He Hlen Hd Hcap Hdir Ht.
  destruct (usb_install_ep_handler_ok s endpoint direction h t d
              He Hlen Hd Hcap Hdir Ht) as (s' & Hrun & Hentry & _).
  exists s'. split; assumption.
Qed.

(** Last write wins: a second installation for the same pair succeeds as
    well and replaces the first. *)
Lemma usb_install_ep_handler_last_wins (s : State)
  (endpoint direction h1 t1 h2 t2 d : Z) :
  0 <= endpoint < USB_NUM_ENDPOINTS ->
  Z.of_nat (List.length (endpoint_handlers s)) = USB_NUM_ENDPOINTS ->
  array_get (endpoint_directions s) endpoint = Some d ->
  d = direction \/ d = USBBiDir ->
  direction = USBIn \/ direction = USBOut ->
  0 <= t1 < 2 ^ 32 -> 0 <= t2 < 2 ^ 32 ->
  exists s1 s2,
    usb_install_ep_handler endpoint direction h1 t1 s = Some (0, s1) /\
    usb_install_ep_handler endpoint direction h2 t2 s1 = Some (0, s2) /\
    handler_entry s2 endpoint direction
    = Some {| handler := h2; token := t2 |}.
Proof.
  intros He Hlen Hd Hcap Hdir Ht1 Ht2.
  destruct (usb_install_ep_handler_ok s endpoint direction h1 t1 d
              He Hlen Hd Hcap Hdir Ht1) as (s1 & Hrun1 & _ & Hdirs & Hl).
  rewrite <- Hl in Hlen. rewrite <- Hdirs in Hd.
  destruct (usb_install_ep_handler_ok s1 endpoint direction h2 t2 d
              He Hlen Hd Hcap Hdir Ht2) as (s2 & Hrun2 & Hentry & _).
  exists s1, s2. repeat split; assumption.
Qed.

(** The rejections the code does perform: for an endpoint number that is not
    negative, a number past the range, a direction that the endpoint cannot
    do, or one that is neither IN nor OUT, gives -1 and the same state. *)
Lemma usb_install_ep_handler_rejects (s : State) (endpoint direction h t : Z) :
  0 <= endpoint ->
  Z.of_nat (List.length (endpoint_directions s)) = USB_NUM_ENDPOINTS ->
  USB_NUM_ENDPOINTS <= endpoint
  \/ (direction <> USBIn /\ direction <> USBOut)
  \/ (exists d, array_get (endpoint_directions s) endpoint = Some d
                /\ d <> direction /\ d <> USBBiDir) ->
  usb_install_ep_handler endpoint direction h t s = Some (-1, s).
Proof.
  intros H0 Hlen Hcase. unfold usb_install_ep_handler.
  destruct (endpoint >=? USB_NUM_ENDPOINTS) eqn:G; [reflexivity|].
  assert (Hlt : endpoint < USB_NUM_ENDPOINTS)
    by (destruct (Z.geb_spec endpoint USB_NUM_ENDPOINTS); [discriminate|lia]).
  destruct (array_get_defined (endpoint_directions s) endpoint) as [d Hd];
    [lia|].
  unfold M_bind at 1. cbn [M_get].
  unfold M_bind at 1. rewrite Hd. cbn [M_lift].
  destruct (negb (d =? direction) && negb (d =? USBBiDir)) eqn:Hguard;
    [reflexivity|].
  destruct Hcase as [Hge | [[Hin Hout] | (d' & Hd' & Hne & Hnb)]].
  - lia.
  - apply Z.eqb_neq in Hin, Hout. now rewrite Hin, Hout.
  - assert (d' = d) by congruence. subst d'.
    apply Z.eqb_neq in Hne, Hnb. rewrite Hne, Hnb in Hguard. discriminate.
Qed.

(** Below the range there is no test: a negative endpoint number passes the
    first guard and indexes [endpoint_directions] before its first element. *)
Lemma usb_install_ep_handler_below_range (s : State)
  (endpoint direction h t : Z) :
  endpoint < 0 -> endpoint < USB_NUM_ENDPOINTS ->
  usb_install_ep_handler endpoint direction h t s = None.
Proof.
  intros Hneg Hlt. unfold usb_install_ep_handler.
  destruct (endpoint >=? USB_NUM_ENDPOINTS) eqn:G;
    [apply Z.geb_le in G; lia|].
  unfold M_bind, M_get, M_lift, array_get.
  apply Z.ltb_lt in Hneg. now rewrite Hneg.
Qed.

End Handlers.

Lemma usb_install_ep_handler_installs_witness :
  exists s',
    usb_install_ep_handler 1 USBOut 4096 7
      (set_endpoint_directions [2; 2; 1; 0; 2; 2] boot_state) = Some (0, s') /\
    handler_entry s' 1 USBOut = Some {| handler := 4096; token := 7 |}.
Proof.
  apply (usb_install_ep_handler_installs
           (set_endpoint_directions [2; 2; 1; 0; 2; 2] boot_state)
           1 USBOut 4096 7 2).
  - cbn. lia.
  - reflexivity.
  - reflexivity.
  - right. reflexivity.
  - right. reflexivity.
  - lia.
Defined.

(** C4 at an endpoint number below the range.  The only test on [endpoint]
    is [endpoint >= USB_NUM_ENDPOINTS]; with -1 the function goes on to read
    [endpoint_directions[-1]], outside the array, instead of returning -1. *)
Theorem usb_install_ep_handler_negative_endpoint (s : State)
  (direction h t : Z) :
  usb_install_ep_handler (-1) direction h t s = None.
Proof. reflexivity. Qed.

(** ** String table *)

Section Strings.
Context {usb_h : UsbH}.

Lemma realloc_store_bounds {A} (p : pointer (list A)) (n i : Z) (v : A) l :
  realloc_store p n i v = Some l -> 0 <= i < n.
Proof.
  unfold realloc_store.
  destruct p; try discriminate;
    (destruct ((0 <=? i) && (i <? n)) eqn:Hr; [|discriminate]);
    apply andb_true_iff in Hr; destruct Hr as [H0 H1];
    apply Z.leb_le in H0; apply Z.ltb_lt in H1; lia.
Qed.

(** A defined call returns the old count plus one, which is the new count,
    and puts the entry for the text and an English (US) language ID at the
    old count. *)
Lemma addStringDescriptor_result (text : string) (s s' : State) (r : Z) :
  addStringDescriptor text s = Some (r, s') ->
  r = numStringDescriptors s + 1 /\
  numStringDescriptors s' = r /\
  (exists sds,
      stringDescriptors s' = Ptr sds /\
      array_get sds (r - 1)
      = Some {| str_bLength :=
                  u8 (sizeof_USBStringDescriptor + Z.of_nat (strlen text));
                str_bDescriptorType := u8 USBStringDescriptorType;
                bString := memcpy text (strlen text) |}) /\
  (exists d,
      firstStringDescriptor s' = Ptr d /\
      array_get (wLANGID d) (r - 1) = Some (u16 USB_LANGID_ENGLISH_US)).
Proof.
  unfold addStringDescriptor, M_bind, M_get, M_modify, M_lift, M_ret.
  cbn [numStringDescriptors stringDescriptors firstStringDescriptor
       set_numStringDescriptors set_stringDescriptors
       set_firstStringDescriptor].
  destruct (realloc_store (stringDescriptors s) _ _ _) as [sds|] eqn:R1;
    [|discriminate].
  destruct (realloc_store_langid _ _ _ _) as [d|] eqn:R2; [|discriminate].
  intros E.
  pose proof (realloc_store_bounds _ _ _ _ _ R1) as Hb.
  assert (Hu : u8 (numStringDescriptors s + 1) = numStringDescriptors s + 1).
  { unfold u8 in *.
    assert ((numStringDescriptors s + 1) mod 256 < 256)
      by (apply Z.mod_pos_bound; lia).
    apply Z.mod_small. lia. }
  assert (Hr : r = numStringDescriptors s + 1) by congruence.
  assert (Hs' : s' = set_firstStringDescriptor (Ptr d)
                       (set_stringDescriptors (Ptr sds)
                          (set_numStringDescriptors
                             (u8 (numStringDescriptors s + 1)) s)))
    by congruence.
  subst s' r. cbn. rewrite Hu.
  replace (numStringDescriptors s + 1 - 1) with (numStringDescriptors s)
    by lia.
  repeat split.
  - exists sds. split; [reflexivity|]. exact (realloc_store_get _ _ _ _ _ R1).
  - exists d. split; [reflexivity|].
    unfold realloc_store_langid in R2.
    destruct (firstStringDescriptor s) as [|d0|]; [| |discriminate].
    + destruct (realloc_store NULL _ _ _) as [ids|] eqn:R3; [|discriminate].
      apply realloc_store_get in R3.
      replace d with {| fsd_bLength := None; fsd_bDescriptorType := None;
                        wLANGID := ids |} by congruence.
      exact R3.
    + destruct (realloc_store (Ptr (wLANGID d0)) _ _ _) as [ids|] eqn:R3;
        [|discriminate].
      apply realloc_store_get in R3.
      replace d with {| fsd_bLength := fsd_bLength d0;
                        fsd_bDescriptorType := fsd_bDescriptorType d0;
                        wLANGID := ids |} by congruence.
      exact R3.
Qed.

(** The header of the language-ID descriptor is never written: after a call
    it is what it was, and unwritten if the call allocated the block. *)
Lemma addStringDescriptor_header (text : string) (s s' : State) (r : Z) :
  addStringDescriptor text s = Some (r, s') ->
  exists d,
    firstStringDescriptor s' = Ptr d /\
    fsd_bLength d
    = match firstStringDescriptor s with
      | Ptr d0 => fsd_bLength d0
      | _ => None
      end /\
    fsd_bDescriptorType d
    = match firstStringDescriptor s with
      | Ptr d0 => fsd_bDescriptorType d0
      | _ => None
      end.
Proof.
  unfold addStringDescriptor, M_bind, M_get, M_modify, M_lift, M_ret.
  cbn [numStringDescriptors stringDescriptors firstStringDescriptor
       set_numStringDescriptors set_stringDescriptors
       set_firstStringDescriptor].
  destruct (realloc_store (stringDescriptors s) _ _ _) as [sds|];
    [|discriminate].
  destruct (realloc_store_langid _ _ _ _) as [d|] eqn:R2; [|discriminate].
  intros E.
  assert (Hs' : firstStringDescriptor s' = Ptr d)
    by (injection E as _ <-; reflexivity).
  exists d. split; [exact Hs'|].
  unfold realloc_store_langid in R2.
  destruct (firstStringDescriptor s) as [|d0|]; [| |discriminate];
    (destruct (realloc_store _ _ _ _) as [ids|]; [|discriminate]);
    injection R2 as <-; split; reflexivity.
Qed.

End Strings.

(** C5 on the specification's own example.  From the empty table the two
    calls return 1 and 2, index 0 gives the language-ID descriptor with two
    English (US) IDs, indices 1 and 2 give the two texts with [bLength] 2
    plus the text length.  But [addStringDescriptor] never writes the header
    of the language-ID descriptor: its [bLength] is not 6 (and its type not
    STRING), it is what [realloc] left in the block. *)
Theorem string_table_two_interns :
  option_map fst
    ((let* i1 := addStringDescriptor "Apple Inc." in
      let* i2 := addStringDescriptor "OpenIBoot Mode Configuration" in
      let* d0 := usb_get_string_descriptor 0 in
      let* d1 := usb_get_string_descriptor 1 in
      let* d2 := usb_get_string_descriptor 2 in
      M_ret (i1, i2, d0, d1, d2)) boot_state)
  = Some (1, 2,
          LanguageIDs (Ptr {| fsd_bLength := None;
                              fsd_bDescriptorType := None;
                              wLANGID := [1033; 1033] |}),
          Entry {| str_bLength := 12; str_bDescriptorType := 3;
                   bString := "Apple Inc." |},
          Entry {| str_bLength := 30; str_bDescriptorType := 3;
                   bString := "OpenIBoot Mode Configuration" |}).
Proof. vm_compute. reflexivity. Qed.

(** ** Total length of a configuration *)

Section TotalLength.
Context {usb_h : UsbH}.

Lemma endConfiguration_loop_sum (done rest : list USBInterface) (a : Z) :
  fold_left (endConfiguration_step (Ptr (done ++ rest)))
    (seq (List.length done) (List.length rest)) (Some (u16 a))
  = Some (u16 (a + interfaces_length rest)).
Proof.
  revert done a. induction rest as [|itf rest IH]; intros done a.
  - cbn. now rewrite Z.add_0_r.
  - cbn [List.length seq fold_left interfaces_length fold_right].
    unfold endConfiguration_step at 2.
    rewrite nth_error_app2 by lia. rewrite Nat.sub_diag. cbn [nth_error].
    replace (u16 (u16 a + (sizeof_USBInterfaceDescriptor
               + bNumEndpoints (if_descriptor itf)
                 * sizeof_USBEndpointDescriptor)))
      with (u16 (a + (sizeof_USBInterfaceDescriptor
               + bNumEndpoints (if_descriptor itf)
                 * sizeof_USBEndpointDescriptor)))
      by (unfold u16; now rewrite Z.add_mod_idemp_l by lia).
    replace (done ++ itf :: rest) with ((done ++ [itf]) ++ rest)
      by (now rewrite <- app_assoc).
    replace (S (List.length done)) with (List.length (done ++ [itf]))
      by (rewrite length_app; cbn; lia).
    rewrite IH. f_equal. f_equal.
    fold (interfaces_length rest). lia.
Qed.

(** For the first configuration the loop bound and the interfaces belong to
    the same configuration, and [endConfiguration] stores the specified
    total, reduced to the 16 bits of [wTotalLength]. *)
Lemma endConfiguration_first (s : State) (c : USBConfiguration)
  (others : list USBConfiguration) (ifs : list USBInterface) :
  configurations s = Ptr (c :: others) ->
  interfaces c = Ptr ifs ->
  bNumInterfaces (descriptor c) = Z.of_nat (List.length ifs) ->
  endConfiguration 0 s
  = Some (tt, set_configurations
                (Ptr ({| descriptor :=
                           set_wTotalLength (u16 (spec_total_length c))
                             (descriptor c);
                         interfaces := interfaces c |} :: others)) s).
Proof.
  intros Hc Hi Hn.
  unfold endConfiguration, with_configuration, M_bind, M_get, M_lift,
    M_modify, M_ret.
  rewrite Hc. cbn [array_get Z.ltb Z.compare Z.to_nat nth_error].
  rewrite Hi, Hn, Nat2Z.id.
  pose proof (endConfiguration_loop_sum [] ifs
                sizeof_USBConfigurationDescriptor) as L.
  cbn [List.length app] in L. rewrite L, Hc.
  cbn [array_get Z.ltb Z.compare Z.to_nat nth_error].
  rewrite array_set_head. cbn [fst snd].
  unfold spec_total_length. rewrite Hi. reflexivity.
Qed.

(** For any other configuration the bound is still the first
    configuration's count.  When the first configuration has no interface
    the loop does not run, and the configuration finalized gets the size of
    its own descriptor alone, whatever interfaces it has. *)
Lemma endConfiguration_bound_of_first (s : State)
  (cfgs : list USBConfiguration) (first c : USBConfiguration) (k : Z) :
  configurations s = Ptr cfgs ->
  array_get cfgs 0 = Some first ->
  array_get cfgs k = Some c ->
  bNumInterfaces (descriptor first) = 0 ->
  exists cfgs',
    endConfiguration k s = Some (tt, set_configurations (Ptr cfgs') s) /\
    array_get cfgs' k
    = Some {| descriptor :=
                set_wTotalLength (u16 sizeof_USBConfigurationDescriptor)
                  (descriptor c);
              interfaces := interfaces c |}.
Proof.
  intros Hc Hfirst Hk Hn.
  destruct (array_set_defined cfgs k
              {| descriptor :=
                   set_wTotalLength (u16 sizeof_USBConfigurationDescriptor)
                     (descriptor c);
                 interfaces := interfaces c |}) as [cfgs' Hset];
    [exact (array_get_range _ _ _ Hk)|].
  exists cfgs'. split; [|exact (array_set_get _ _ _ _ Hset)].
  unfold endConfiguration, with_configuration, M_bind, M_get, M_lift,
    M_modify, M_ret.
  rewrite Hc, Hk, Hfirst, Hn. cbn [Z.to_nat seq fold_left].
  rewrite Hc, Hk. cbn [fst snd]. rewrite Hset. reflexivity.
Qed.

End TotalLength.

(** C1 on a second configuration.  [endConfiguration] takes the number of
    interfaces from [configurations->descriptor], the first configuration,
    not from the configuration it finalizes.  Here the first configuration
    has no interface and the second has one with two endpoints: the loop
    does not run, and the second configuration's [wTotalLength] is 9 where
    the specified total is 9 + 9 + 2 * 7 = 32. *)
Theorem endConfiguration_second_configuration :
  exists s c0 c1,
    second_configuration_scenario boot_state = Some (tt, s) /\
    configurations s = Ptr [c0; c1] /\
    bNumInterfaces (descriptor c0) = 0 /\
    bNumInterfaces (descriptor c1) = 1 /\
    wTotalLength (descriptor c1) = 9 /\
    spec_total_length c1 = 32.
Proof.
  eexists _, _, _. vm_compute. repeat split.
Qed.

(** ** Building and releasing the descriptor tree *)

Section Registry.
Context {usb_h : UsbH}.

(** One [addStringDescriptor] on a table that holds [n] entries. *)
Lemma addStringDescriptor_step (text : string) (s : State) (n : nat) :
  numStringDescriptors s = Z.of_nat n ->
  (n < 255)%nat ->
  stringDescriptors s <> Wild ->
  firstStringDescriptor s <> Wild ->
  (n <= List.length (block (stringDescriptors s)))%nat ->
  (n <= List.length (langids_of (firstStringDescriptor s)))%nat ->
  addStringDescriptor text s
  = Some (Z.of_nat n + 1,
      set_firstStringDescriptor
        (Ptr (with_langids (firstStringDescriptor s)
                (firstn n (langids_of (firstStringDescriptor s))
                 ++ [u16 USB_LANGID_ENGLISH_US])))
        (set_stringDescriptors
           (Ptr (firstn n (block (stringDescriptors s)) ++ [string_entry text]))
           (set_numStringDescriptors (Z.of_nat n + 1) s))).
Proof.
  intros Hn Hlt Hs Hf Hls Hlf.
  unfold addStringDescriptor, M_bind, M_get, M_modify, M_lift, M_ret.
  cbn [numStringDescriptors stringDescriptors firstStringDescriptor
       set_numStringDescriptors set_stringDescriptors
       set_firstStringDescriptor].
  rewrite Hn.
  assert (U : u8 (Z.of_nat n + 1) = Z.of_nat n + 1)
    by (unfold u8; apply Z.mod_small; lia).
  rewrite U, (realloc_store_next _ n _ Hs Hls).
  fold (string_entry text).
  unfold realloc_store_langid.
  destruct (firstStringDescriptor s) as [|d|] eqn:F; [| |congruence].
  - rewrite (realloc_store_next NULL n); [reflexivity | discriminate | exact Hlf].
  - rewrite (realloc_store_next (Ptr (wLANGID d)) n);
      [reflexivity | discriminate | exact Hlf].
Qed.

(** From empty tables [usb_get_device_descriptor] builds that tree, whatever
    else the state holds; the language-ID block keeps its header. *)
Lemma usb_get_device_descriptor_builds (fresh : fresh_bits) (s : State) :
  configurations s = NULL ->
  stringDescriptors s = NULL ->
  numStringDescriptors s = 0 ->
  firstStringDescriptor s <> Wild ->
  usb_get_device_descriptor fresh s
  = Some (built_device,
      set_configurations (Ptr [built_configuration fresh])
        (set_deviceDescriptor built_device
           (set_firstStringDescriptor
              (Ptr (with_langids (firstStringDescriptor s) built_langids))
              (set_stringDescriptors (Ptr built_strings)
                 (set_numStringDescriptors 4 s))))).
Proof.
  intros Hc Hs Hn Hf.
  unfold usb_get_device_descriptor.
  unfold M_bind at 1. cbn [M_get]. rewrite Hc. cbn [is_NULL].
  unfold M_bind at 1. unfold M_bind at 1.
  rewrite (addStringDescriptor_step _ s 0);
    [| exact Hn | lia | congruence | exact Hf | cbn; lia | cbn; lia].
  unfold M_bind at 1.
  rewrite (addStringDescriptor_step _ _ 1);
    [| reflexivity | lia | discriminate | discriminate | cbn; lia | cbn; lia].
  unfold M_bind at 1.
  rewrite (addStringDescriptor_step _ _ 2);
    [| reflexivity | lia | discriminate | discriminate | cbn; lia | cbn; lia].
  unfold M_bind at 1. cbn [M_modify].
  unfold M_bind at 1.
  rewrite (addStringDescriptor_step _ _ 3);
    [| reflexivity | lia | discriminate | discriminate | cbn; lia | cbn; lia].
  rewrite Hs.
  destruct s as [i st dirs hs ir or dd ns sd fsd cf ib ob].
  cbn [configurations stringDescriptors numStringDescriptors
       firstStringDescriptor] in Hc, Hs, Hn, Hf.
  subst cf sd ns.
  destruct fsd as [|d|]; [| |congruence]; reflexivity.
Qed.

(** What releasing the tables leaves: no configuration, no string table,
    the language-ID block, the guard and the handler table as they were. *)
Lemma release_all_result (s s' : State) :
  release_all s = Some (tt, s') ->
  configurations s' = NULL /\
  stringDescriptors s' = NULL /\
  (numStringDescriptors s' = 0
   \/ stringDescriptors s = NULL
      /\ numStringDescriptors s' = numStringDescriptors s) /\
  (configurations s = NULL
   \/ bNumConfigurations (deviceDescriptor s') = 0) /\
  firstStringDescriptor s' = firstStringDescriptor s /\
  usb_inited s' = usb_inited s /\
  endpoint_directions s' = endpoint_directions s /\
  endpoint_handlers s' = endpoint_handlers s.
Proof.
  unfold release_all, releaseConfigurations, releaseStringDescriptors,
    M_bind, M_get, M_modify, M_lift, M_ret.
  destruct (configurations s) as [|cfgs|] eqn:C; [| |discriminate].
  - destruct (stringDescriptors s) as [|sds|] eqn:S; [| |discriminate].
    + intros [= <-]. rewrite C, S. repeat split; auto.
    + destruct (free_strings 256 sds (numStringDescriptors s) 0);
        [|discriminate].
      intros [= <-]. cbn. rewrite C. repeat split; auto.
  - destruct (free_configurations 256 cfgs _ 0); [|discriminate].
    cbn [stringDescriptors set_configurations set_deviceDescriptor
         numStringDescriptors].
    destruct (stringDescriptors s) as [|sds|] eqn:S; [| |discriminate].
    + intros [= <-]. cbn. rewrite S. repeat split; auto.
    + destruct (free_strings 256 sds (numStringDescriptors s) 0);
        [|discriminate].
      intros [= <-]. cbn. repeat split; auto.
Qed.

(** The two release loops run their [int8_t] variable up to the counter: on
    tables that are [tables_ok] they end, and the release is defined. *)
Lemma free_strings_defined (sds : list USBStringDescriptor) (n : Z) :
  n <= 127 -> n <= Z.of_nat (List.length sds) ->
  forall (fuel : nat) (i : Z),
    0 <= i -> (Z.to_nat (n - i) < fuel)%nat ->
    free_strings fuel sds n i = Some tt.
Proof.
  intros Hn Hl. induction fuel as [|fuel IH]; intros i Hi Hf; [lia|].
  cbn [free_strings].
  destruct (i <? n) eqn:Lt; [|reflexivity].
  apply Z.ltb_lt in Lt.
  destruct (array_get_defined sds i) as [x Hx]; [lia|].
  rewrite Hx, s8_small by lia. apply IH; lia.
Qed.

(** With 128 strings or more the variable wraps to -128 before it reaches
    the counter, and the loop reads [stringDescriptors[-128]]: however much
    fuel the model is given, the loop is undefined. *)
Lemma free_strings_int8_wrap (sds : list USBStringDescriptor) (n : Z) :
  128 <= n ->
  forall (fuel : nat) (i : Z),
    0 <= i <= 127 -> free_strings fuel sds n i = None.
Proof.
  intros Hn. induction fuel as [|fuel IH]; intros i Hi; [reflexivity|].
  cbn [free_strings].
  destruct (i <? n) eqn:Lt; [|apply Z.ltb_ge in Lt; lia].
  destruct (array_get sds i); [|reflexivity].
  destruct (Z.eq_dec i 127) as [-> | Hne].
  - change (s8 (127 + 1)) with (-128).
    destruct fuel as [|fuel']; [reflexivity|]. cbn [free_strings].
    destruct (-128 <? n) eqn:Lt'; [reflexivity | apply Z.ltb_ge in Lt'; lia].
  - rewrite s8_small by lia. apply IH. lia.
Qed.

Lemma free_interfaces_defined (c : USBConfiguration) :
  configuration_ok c ->
  forall (fuel : nat) (j : Z),
    0 <= j -> (Z.to_nat (bNumInterfaces (descriptor c) - j) < fuel)%nat ->
    free_interfaces fuel (interfaces c) (bNumInterfaces (descriptor c)) j
    = Some tt.
Proof.
  unfold configuration_ok. intros Hc.
  induction fuel as [|fuel IH]; intros j Hj Hf; [lia|].
  cbn [free_interfaces].
  destruct (j <? bNumInterfaces (descriptor c)) eqn:Lt; [|reflexivity].
  apply Z.ltb_lt in Lt.
  destruct (interfaces c) as [|ifs|]; [lia| |contradiction].
  destruct Hc as (H127 & Hlen & Hall).
  destruct (array_get_defined ifs j) as [itf Hitf]; [lia|].
  rewrite Hitf.
  assert (Hok : interface_ok itf).
  { unfold array_get in Hitf. destruct (j <? 0); [discriminate|].
    apply nth_error_In in Hitf. rewrite Forall_forall in Hall. auto. }
  unfold interface_ok in Hok.
  destruct (endpointDescriptors itf); [| |congruence];
    cbn [free]; rewrite s8_small by lia; apply IH; lia.
Qed.

Lemma free_configurations_defined (cfgs : list USBConfiguration) (n : Z) :
  n <= 127 -> n <= Z.of_nat (List.length cfgs) ->
  Forall configuration_ok cfgs ->
  forall (fuel : nat) (i : Z),
    0 <= i -> (Z.to_nat (n - i) < fuel)%nat ->
    free_configurations fuel cfgs n i = Some tt.
Proof.
  intros Hn Hl Hall. induction fuel as [|fuel IH]; intros i Hi Hf; [lia|].
  cbn [free_configurations].
  destruct (i <? n) eqn:Lt; [|reflexivity].
  apply Z.ltb_lt in Lt.
  destruct (array_get_defined cfgs i) as [c Hc]; [lia|].
  rewrite Hc.
  assert (Hok : configuration_ok c).
  { unfold array_get in Hc. destruct (i <? 0); [discriminate|].
    apply nth_error_In in Hc. rewrite Forall_forall in Hall. auto. }
  assert (Hb : bNumInterfaces (descriptor c) <= 127)
    by (unfold configuration_ok in Hok; destruct (interfaces c);
        [lia | lia | contradiction]).
  rewrite (free_interfaces_defined c Hok) by lia.
  assert (Hp : interfaces c <> Wild)
    by (unfold configuration_ok in Hok; destruct (interfaces c);
        [discriminate | discriminate | contradiction]).
  destruct (interfaces c); [| |congruence];
    cbn [free]; rewrite s8_small by lia; apply IH; lia.
Qed.

Lemma release_all_defined (s : State) :
  tables_ok s -> exists s', release_all s = Some (tt, s').
Proof.
  unfold tables_ok, release_all, releaseConfigurations,
    releaseStringDescriptors, M_bind, M_get, M_modify, M_lift, M_ret.
  intros [Hc Hs].
  destruct (configurations s) as [|cfgs|]; [| |contradiction].
  - destruct (stringDescriptors s) as [|sds|]; [eauto| |contradiction].
    destruct Hs as [Hn Hl].
    rewrite (free_strings_defined sds _ Hn Hl) by lia. eauto.
  - destruct Hc as (Hn & Hl & Hall).
    rewrite (free_configurations_defined cfgs _ Hn Hl Hall) by lia.
    cbn [stringDescriptors set_configurations set_deviceDescriptor
         numStringDescriptors].
    destruct (stringDescriptors s) as [|sds|]; [eauto| |contradiction].
    destruct Hs as [Hn' Hl'].
    rewrite (free_strings_defined sds _ Hn' Hl') by lia. eauto.
Qed.

(** C8.  [addConfiguration] never writes [configurations[newIndex].interfaces],
    which [releaseConfigurations] frees: the field holds what [realloc] left
    in the block.  So, on the tables [initializeDescriptors] leaves in any
    state [s0] of the other statics:
    - when the block of the first build does not hold zero bits there,
      [usb_get_device_descriptor] builds the tree, and the release that
      follows frees a pointer the program never set: it is undefined;
    - when it holds zero bits, the release is defined and resets the
      configuration count and the tables, and [usb_get_device_descriptor]
      then returns the same device descriptor (one configuration,
      manufacturer string at index 1) over the same strings and language
      IDs; the tree is the one of the first build if the new block is
      zeroed again, and otherwise it is not: the rebuilt configuration has
      a pointer that is not null, every query of configuration 0 returns it
      with no interface and a total length of 0, and the next release is
      undefined. *)
Theorem release_then_rebuild_fresh_block (s0 : State) :
  firstStringDescriptor s0 <> Wild ->
  (exists d1 s1,
     usb_get_device_descriptor Other_bits (initializeDescriptors s0)
     = Some (d1, s1) /\
     releaseConfigurations s1 = None /\
     release_all s1 = None) /\
  (exists d1 s1 s',
     usb_get_device_descriptor Zero_bits (initializeDescriptors s0)
     = Some (d1, s1) /\
     release_all s1 = Some (tt, s') /\
     bNumConfigurations (deviceDescriptor s') = 0 /\
     configurations s' = NULL /\
     stringDescriptors s' = NULL /\
     numStringDescriptors s' = 0 /\
     forall fresh, exists d2 s2,
       usb_get_device_descriptor fresh s' = Some (d2, s2) /\
       d2 = d1 /\
       bNumConfigurations d2 = 1 /\
       iManufacturer d2 = 1 /\
       numStringDescriptors s2 = numStringDescriptors s1 /\
       stringDescriptors s2 = stringDescriptors s1 /\
       langids_of (firstStringDescriptor s2)
       = langids_of (firstStringDescriptor s1) /\
       (fresh = Zero_bits -> descriptor_tree s2 = descriptor_tree s1) /\
       (fresh = Other_bits ->
        descriptor_tree s2 <> descriptor_tree s1 /\
        (forall speed_id,
           usb_get_configuration_descriptor 0 speed_id s2
           = Some (descriptor (built_configuration Other_bits), s2)) /\
        release_all s2 = None)).
Proof.
  intros Hf0. split.
  - eexists _, _.
    split; [apply usb_get_device_descriptor_builds;
            [reflexivity | reflexivity | reflexivity | exact Hf0]|].
    split; reflexivity.
  - eexists _, _, _.
    split; [apply usb_get_device_descriptor_builds;
            [reflexivity | reflexivity | reflexivity | exact Hf0]|].
    split; [reflexivity|].
    do 4 (split; [reflexivity|]).
    intros fresh. eexists _, _.
    split; [apply usb_get_device_descriptor_builds;
            [reflexivity | reflexivity | reflexivity | discriminate]|].
    do 6 (split; [reflexivity|]).
    split.
    + intros ->. reflexivity.
    + intros ->. split; [|split].
      * unfold descriptor_tree. cbn. intros E. discriminate E.
      * intros speed_id. reflexivity.
      * reflexivity.
Qed.

End Registry.

(** ** The default interface and the negotiated speed *)

Section Speed.
Context {usb_h : UsbH}.

Lemma packetsizeFromSpeed_high : packetsizeFromSpeed USB_HIGHSPEED = 512.
Proof. unfold packetsizeFromSpeed. now rewrite Z.eqb_refl. Qed.

Lemma packetsizeFromSpeed_full (speed_id : Z) :
  speed_id <> USB_HIGHSPEED ->
  speed_id = USB_FULLSPEED \/ speed_id = USB_FULLSPEED_48_MHZ ->
  packetsizeFromSpeed speed_id = 64.
Proof.
  intros Hh Hf. unfold packetsizeFromSpeed.
  apply Z.eqb_neq in Hh. rewrite Hh.
  destruct Hf as [-> | ->]; rewrite Z.eqb_refl; [reflexivity|].
  now rewrite orb_true_r.
Qed.

Lemma packetsizeFromSpeed_low :
  USB_LOWSPEED <> USB_HIGHSPEED -> USB_LOWSPEED <> USB_FULLSPEED ->
  USB_LOWSPEED <> USB_FULLSPEED_48_MHZ ->
  packetsizeFromSpeed USB_LOWSPEED = 32.
Proof.
  intros Hh Hf Hf48. unfold packetsizeFromSpeed.
  apply Z.eqb_neq in Hh, Hf, Hf48. rewrite Hh, Hf, Hf48.
  now rewrite Z.eqb_refl.
Qed.

(** Any other speed falls to [default: return -1], which the return type
    [uint16_t] turns into 65535. *)
Lemma packetsizeFromSpeed_unknown (speed_id : Z) :
  speed_id <> USB_HIGHSPEED -> speed_id <> USB_FULLSPEED ->
  speed_id <> USB_FULLSPEED_48_MHZ -> speed_id <> USB_LOWSPEED ->
  packetsizeFromSpeed speed_id = 65535.
Proof.
  intros Hh Hf Hf48 Hl. unfold packetsizeFromSpeed.
  apply Z.eqb_neq in Hh, Hf, Hf48, Hl. now rewrite Hh, Hf, Hf48, Hl.
Qed.

End Speed.

(** Whatever the speed identifier, the query goes through and both endpoints
    get [packetsizeFromSpeed speed_id]. *)
Lemma default_packet_sizes_any (speed_id : Z) :
  default_packet_sizes speed_id
  = Some [packetsizeFromSpeed speed_id; packetsizeFromSpeed speed_id].
Proof.
  unfold default_packet_sizes, first_configuration_query.
  unfold usb_get_configuration_descriptor, packetsizeFromSpeed.
  cbn [USB_HIGHSPEED USB_FULLSPEED USB_FULLSPEED_48_MHZ USB_LOWSPEED
       standard_usb_h].
  destruct (speed_id =? 0); [vm_compute; reflexivity|].
  destruct ((speed_id =? 1) || (speed_id =? 3)); [vm_compute; reflexivity|].
  destruct (speed_id =? 2); vm_compute; reflexivity.
Qed.

(** C2.  The synthesized endpoints get 512 bytes at high speed, 64 at full
    speed (either code) and 32 at low speed.  With a speed identifier the
    switch does not know (here 4 and 255) [packetsizeFromSpeed] returns
    [(uint16_t) -1]; [usb_get_configuration_descriptor] does not look at it,
    stores 65535 as the packet size of both endpoints and returns the
    finalized configuration descriptor as for a known speed. *)
Theorem usb_get_configuration_descriptor_unknown_speed :
  default_packet_sizes USB_HIGHSPEED = Some [512; 512] /\
  default_packet_sizes USB_FULLSPEED = Some [64; 64] /\
  default_packet_sizes USB_FULLSPEED_48_MHZ = Some [64; 64] /\
  default_packet_sizes USB_LOWSPEED = Some [32; 32] /\
  default_packet_sizes 4 = Some [65535; 65535] /\
  default_packet_sizes 255 = Some [65535; 65535] /\
  option_map fst (first_configuration_query 4)
  = Some {| cfg_bLength := 9; cfg_bDescriptorType := 2; wTotalLength := 32;
            bNumInterfaces := 1; bConfigurationValue := 1;
            iConfiguration := 4; cfg_bmAttributes := 128; bMaxPower := 250 |} /\
  option_map fst (first_configuration_query 4)
  = option_map fst (first_configuration_query USB_HIGHSPEED).
Proof. vm_compute. repeat split. Qed.

Lemma release_then_rebuild_fresh_block_witness :
  (exists d1 s1,
     usb_get_device_descriptor Other_bits (initializeDescriptors boot_state)
     = Some (d1, s1) /\
     releaseConfigurations s1 = None /\
     release_all s1 = None) /\
  (exists d1 s1 s',
     usb_get_device_descriptor Zero_bits (initializeDescriptors boot_state)
     = Some (d1, s1) /\
     release_all s1 = Some (tt, s') /\
     bNumConfigurations (deviceDescriptor s') = 0 /\
     configurations s' = NULL /\
     stringDescriptors s' = NULL /\
     numStringDescriptors s' = 0 /\
     forall fresh, exists d2 s2,
       usb_get_device_descriptor fresh s' = Some (d2, s2) /\
       d2 = d1 /\
       bNumConfigurations d2 = 1 /\
       iManufacturer d2 = 1 /\
       numStringDescriptors s2 = numStringDescriptors s1 /\
       stringDescriptors s2 = stringDescriptors s1 /\
       langids_of (firstStringDescriptor s2)
       = langids_of (firstStringDescriptor s1) /\
       (fresh = Zero_bits -> descriptor_tree s2 = descriptor_tree s1) /\
       (fresh = Other_bits ->
        descriptor_tree s2 <> descriptor_tree s1 /\
        (forall speed_id,
           usb_get_configuration_descriptor 0 speed_id s2
           = Some (descriptor (built_configuration Other_bits), s2)) /\
        release_all s2 = None)).
Proof.
  apply (release_then_rebuild_fresh_block boot_state).
  vm_compute. discriminate.
Defined.

(** ** Controller lifecycle *)

(** *** Running a tree against a model of the hardware *)

Lemma run_Leaf {S R} (hw : hardware S) (fuel : nat) :
  forall (t : itree HwE R) (h h' : S) (r : R),
    run hw fuel t h = Some (r, h') -> Leaf r t.
Proof.
  induction fuel as [|fuel IH]; intros t h h' r; cbn [run]; [discriminate|].
  destruct (observe t) as [r0|t'|X e k] eqn:O.
  - intros [= <- _]. now apply LeafRet.
  - intros Hrun. eapply LeafTau; [exact O|]. eapply IH; exact Hrun.
  - destruct (hw X e h) as [x h1]. intros Hrun.
    eapply LeafVis; [exact O|]. eapply IH; exact Hrun.
Qed.

Section LifecycleProperties.
Context {usb_h : UsbH} {hw_h : HardwareH}.

Lemma Leaf_trigger {X} (e : HwE X) (x : X) : Leaf x (ITree.trigger e).
Proof. unfold ITree.trigger. apply Leaf_Vis with x. apply Leaf_Ret. Qed.

(** With the guard set, [usb_setup] is a bare return: it performs no event
    at all, returns 0 and hands back the state it was given. *)
Lemma usb_setup_inited (s : State) :
  usb_inited s = true -> usb_setup s = Ret (0, s).
Proof. intros H. unfold usb_setup. now rewrite H. Qed.

(** Every completed [usb_setup] returns 0 with the guard set. *)
Lemma usb_setup_sets_guard (s : State) (r : Z * State) :
  Leaf r (usb_setup s) -> fst r = 0 /\ usb_inited (snd r) = true.
Proof.
  intros H. unfold usb_setup in H.
  destruct (usb_inited s) eqn:G.
  - apply Leaf_Ret_inv in H. subst r. split; [reflexivity | exact G].
  - cbv zeta in H.
    repeat (apply Leaf_bind_inv in H; destruct H as (? & _ & H)).
    apply Leaf_Ret_inv in H. subst r. split; reflexivity.
Qed.

(** C6.  Once a call of [usb_setup] has returned, a second call on the state
    it left is a bare return of 0 and of that same state: the tree of the
    second call holds no event, so no register is read or written and no
    power, clock, delay, interrupt or allocator call is made, and no static
    changes. *)
Theorem usb_setup_second_call (s : State) (r : Z * State) :
  Leaf r (usb_setup s) ->
  fst r = 0 /\ usb_setup (snd r) = Ret (0, snd r).
Proof.
  intros H. apply usb_setup_sets_guard in H. destruct H as [H0 Hg].
  split; [exact H0 | now apply usb_setup_inited].
Qed.

(** [usb_shutdown] has one outcome: 0 and the state with the tables
    released. *)
Lemma usb_shutdown_outcome (s s1 : State) :
  release_all s = Some (tt, s1) ->
  Leaf (Some (0, s1)) (usb_shutdown s) /\
  (forall r, Leaf r (usb_shutdown s) -> r = Some (0, s1)).
Proof.
  intros Hrel. unfold usb_shutdown. rewrite Hrel. split.
  - repeat first
      [ eapply (Leaf_bind _ _ _ tt); [apply Leaf_trigger|]
      | eapply (Leaf_bind _ _ _ 0); [apply Leaf_trigger|] ].
    apply Leaf_Ret.
  - intros r H.
    repeat (apply Leaf_bind_inv in H; destruct H as (? & _ & H)).
    now apply Leaf_Ret_inv in H.
Qed.

(** C9.  [usb_shutdown] on a controller that was brought up returns 0 and
    leaves the handler table and the guard [usb_inited] as they were; so
    [usb_setup] on the state it leaves is the bare return of the
    already-initialized path, without any hardware event. *)
Theorem usb_shutdown_keeps_guard (s s1 : State) :
  usb_inited s = true ->
  release_all s = Some (tt, s1) ->
  Leaf (Some (0, s1)) (usb_shutdown s) /\
  (forall r, Leaf r (usb_shutdown s) -> r = Some (0, s1)) /\
  endpoint_handlers s1 = endpoint_handlers s /\
  usb_inited s1 = true /\
  usb_setup s1 = Ret (0, s1).
Proof.
  intros Hup Hrel.
  destruct (usb_shutdown_outcome s s1 Hrel) as [Hex Hall].
  destruct (release_all_result s s1 Hrel)
    as (_ & _ & _ & _ & _ & Hg & _ & Hh).
  rewrite Hup in Hg.
  repeat split; try assumption. now apply usb_setup_inited.
Qed.

End LifecycleProperties.

(** *** A run on a model of the controller *)

Lemma usb_setup_boot_run : Leaf (0, up_state) (usb_setup boot_state).
Proof.
  apply (run_Leaf idle_controller 400 _ 4096 4352). vm_compute. reflexivity.
Qed.

Lemma usb_setup_second_call_witness :
  Leaf (0, up_state) (usb_setup boot_state) /\
  fst (0, up_state) = 0 /\
  usb_setup (snd (0, up_state)) = Ret (0, snd (0, up_state)).
Proof.
  split; [exact usb_setup_boot_run|].
  apply (usb_setup_second_call boot_state (0, up_state)).
  exact usb_setup_boot_run.
Defined.

Lemma usb_shutdown_keeps_guard_witness :
  Leaf (Some (0, shut_state)) (usb_shutdown serving_state) /\
  (forall r, Leaf r (usb_shutdown serving_state) -> r = Some (0, shut_state)) /\
  endpoint_handlers shut_state = endpoint_handlers serving_state /\
  usb_inited shut_state = true /\
  usb_setup shut_state = Ret (0, shut_state).
Proof.
  apply (usb_shutdown_keeps_guard serving_state shut_state).
  - vm_compute. reflexivity.
  - vm_compute. reflexivity.
Defined.

(** * Further properties

    What the functions of the file do beyond the statements above: the
    verdicts and the frame of the handler registry, the string table as a
    store, the descriptor registry as a builder, the getters as caches, and
    the lifecycle on any controller. *)

(** ** Blocks and arrays, continued *)

Lemma array_set_get_other {A} (l l' : list A) (i j : Z) (v : A) :
  array_set l i v = Some l' -> j <> i -> array_get l' j = array_get l j.
Proof.
  unfold array_set, array_get.
  destruct ((0 <=? i) && (i <? Z.of_nat (List.length l))) eqn:Hr;
    [|discriminate].
  apply andb_true_iff in Hr. destruct Hr as [H0 H1].
  apply Z.leb_le in H0. apply Z.ltb_lt in H1. intros E Hne.
  replace l' with (firstn (Z.to_nat i) l ++ v :: skipn (S (Z.to_nat i)) l)
    by congruence.
  destruct (j <? 0) eqn:Hn; [reflexivity|]. apply Z.ltb_ge in Hn.
  destruct (Z.lt_ge_cases j i) as [Hlt | Hge].
  - rewrite nth_error_app1 by (rewrite firstn_length_le; lia).
    rewrite nth_error_firstn.
    replace (Z.to_nat j <? Z.to_nat i)%nat with true
      by (symmetry; apply Nat.ltb_lt; lia).
    reflexivity.
  - rewrite nth_error_app2 by (rewrite firstn_length_le; lia).
    rewrite firstn_length_le by lia.
    replace (Z.to_nat j - Z.to_nat i)%nat
      with (S (Z.to_nat j - S (Z.to_nat i)))%nat by lia.
    cbn [nth_error]. rewrite nth_error_skipn. f_equal. lia.
Qed.

Lemma store_get_before {A} (l l' : list A) (i j : nat) (v : A) :
  store l i v = Some l' -> (j < i)%nat -> nth_error l' j = nth_error l j.
Proof.
  unfold store. destruct (i <=? List.length l)%nat eqn:Hi; [|discriminate].
  apply Nat.leb_le in Hi. intros E Hj.
  replace l' with (firstn i l ++ v :: skipn (S i) l) by congruence.
  rewrite nth_error_app1 by (rewrite firstn_length_le; lia).
  rewrite nth_error_firstn.
  replace (j <? i)%nat with true by (symmetry; apply Nat.ltb_lt; lia).
  reflexivity.
Qed.

(** [realloc] keeps the elements below the one stored. *)
Lemma realloc_store_get_before {A} (p : pointer (list A)) (n i j : Z)
  (v : A) (l : list A) :
  realloc_store p n i v = Some l -> 0 <= j < i ->
  array_get l j = array_get (block p) j.
Proof.
  unfold realloc_store, array_get. intros E Hj.
  destruct (j <? 0) eqn:Hn; [reflexivity|].
  destruct p as [|l0|]; [| |discriminate];
    (destruct ((0 <=? i) && (i <? n)) eqn:Hr; [|discriminate]);
    apply andb_true_iff in Hr; destruct Hr as [H0 H1];
    apply Z.leb_le in H0; apply Z.ltb_lt in H1.
  - rewrite (store_get_before _ _ _ (Z.to_nat j) _ E) by lia. reflexivity.
  - rewrite (store_get_before _ _ _ (Z.to_nat j) _ E) by lia.
    cbn [block]. rewrite nth_error_firstn.
    replace (Z.to_nat j <? Z.to_nat n)%nat with true
      by (symmetry; apply Nat.ltb_lt; lia).
    reflexivity.
Qed.

(** Three two-bit fields packed as [bmAttributes] of an endpoint. *)
Lemma two_bit_fields (a b c : Z) :
  u8 (Z.lor (Z.lor (Z.land a 3) (Z.shiftl (Z.land b 3) 2))
        (Z.shiftl (Z.land c 3) 4))
  = a mod 4 + 4 * (b mod 4) + 16 * (c mod 4).
Proof.
  change 3 with (Z.ones 2). rewrite !Z.land_ones by lia.
  change (2 ^ 2) with 4.
  assert (Ha : 0 <= a mod 4 < 4) by (apply Z.mod_pos_bound; lia).
  assert (Hb : 0 <= b mod 4 < 4) by (apply Z.mod_pos_bound; lia).
  assert (Hc : 0 <= c mod 4 < 4) by (apply Z.mod_pos_bound; lia).
  assert (Ca : a mod 4 = 0 \/ a mod 4 = 1 \/ a mod 4 = 2 \/ a mod 4 = 3)
    by lia.
  assert (Cb : b mod 4 = 0 \/ b mod 4 = 1 \/ b mod 4 = 2 \/ b mod 4 = 3)
    by lia.
  assert (Cc : c mod 4 = 0 \/ c mod 4 = 1 \/ c mod 4 = 2 \/ c mod 4 = 3)
    by lia.
  destruct Ca as [-> | [-> | [-> | ->]]];
    destruct Cb as [-> | [-> | [-> | ->]]];
    destruct Cc as [-> | [-> | [-> | ->]]]; reflexivity.
Qed.

(** The attribute byte of a configuration: bit 7 always, bits 6 and 5 from
    the two flags. *)
Lemma configuration_attribute_bits (selfPowered remoteWakeup : Z) :
  u8 (Z.lor (Z.lor (Z.shiftl 1 7) (Z.shiftl (Z.land selfPowered 1) 6))
        (Z.shiftl (Z.land remoteWakeup 1) 5))
  = 128 + 64 * (selfPowered mod 2) + 32 * (remoteWakeup mod 2).
Proof.
  change 1 with (Z.ones 1) at 2 3. rewrite !Z.land_ones by lia.
  change (2 ^ 1) with 2.
  assert (Hs : 0 <= selfPowered mod 2 < 2) by (apply Z.mod_pos_bound; lia).
  assert (Hr : 0 <= remoteWakeup mod 2 < 2) by (apply Z.mod_pos_bound; lia).
  assert (Cs : selfPowered mod 2 = 0 \/ selfPowered mod 2 = 1) by lia.
  assert (Cr : remoteWakeup mod 2 = 0 \/ remoteWakeup mod 2 = 1) by lia.
  destruct Cs as [-> | ->]; destruct Cr as [-> | ->]; reflexivity.
Qed.

(** ** Endpoint handler registry, continued *)

Section HandlerRegistry.
Context {usb_h : UsbH}.

(** An installation the three tests let through is defined and returns 0,
    whatever the token. *)
Lemma usb_install_ep_handler_accepts (s : State)
  (endpoint direction h t d : Z) :
  0 <= endpoint < USB_NUM_ENDPOINTS ->
  Z.of_nat (List.length (endpoint_handlers s)) = USB_NUM_ENDPOINTS ->
  array_get (endpoint_directions s) endpoint = Some d ->
  d = direction \/ d = USBBiDir ->
  direction = USBIn \/ direction = USBOut ->
  exists s', usb_install_ep_handler endpoint direction h t s = Some (0, s').
Proof.
  intros He Hlen Hd Hcap Hdir.
  unfold usb_install_ep_handler.
  destruct (endpoint >=? USB_NUM_ENDPOINTS) eqn:G;
    [apply Z.geb_le in G; lia|].
  unfold M_bind at 1. cbn [M_get].
  unfold M_bind at 1. rewrite Hd. cbn [M_lift].
  assert (Hguard : negb (d =? direction) && negb (d =? USBBiDir) = false).
  { destruct Hcap as [-> | ->]; rewrite Z.eqb_refl; cbn;
      [reflexivity | apply andb_false_r]. }
  rewrite Hguard.
  destruct (array_get_defined (endpoint_handlers s) endpoint) as [old Hold];
    [lia|].
  destruct (direction =? USBIn) eqn:Din.
  - destruct (array_set_defined (endpoint_handlers s) endpoint
                {| in_ := {| handler := h; token := u32 t |};
                   out := out old |})
      as [hs Hhs]; [lia|].
    unfold M_bind, M_lift, M_modify, M_ret. rewrite Hold, Hhs. eauto.
  - assert (Dout : (direction =? USBOut) = true).
    { destruct Hdir as [-> | ->];
        [rewrite Z.eqb_refl in Din; discriminate | apply Z.eqb_refl]. }
    rewrite Dout.
    destruct (array_set_defined (endpoint_handlers s) endpoint
                {| in_ := in_ old;
                   out := {| handler := h; token := u32 t |} |})
      as [hs Hhs]; [lia|].
    unfold M_bind, M_lift, M_modify, M_ret. rewrite Hold, Hhs. eauto.
Qed.

(** X1.  For an endpoint number that is not negative and tables of
    [USB_NUM_ENDPOINTS] elements, [usb_install_ep_handler] is defined and has
    one of two outcomes: -1 with the statics untouched, or 0; and it returns
    0 only for an endpoint in range, a direction IN or OUT, and an endpoint
    whose hardware direction is that direction or bidirectional. *)
Theorem usb_install_ep_handler_verdict (s : State)
  (endpoint direction h t : Z) :
  0 <= endpoint ->
  Z.of_nat (List.length (endpoint_directions s)) = USB_NUM_ENDPOINTS ->
  Z.of_nat (List.length (endpoint_handlers s)) = USB_NUM_ENDPOINTS ->
  usb_install_ep_handler endpoint direction h t s = Some (-1, s)
  \/ (exists s',
        usb_install_ep_handler endpoint direction h t s = Some (0, s') /\
        endpoint < USB_NUM_ENDPOINTS /\
        (direction = USBIn \/ direction = USBOut) /\
        (array_get (endpoint_directions s) endpoint = Some direction
         \/ array_get (endpoint_directions s) endpoint = Some USBBiDir)).
Proof.
  intros H0 Hld Hlh.
  destruct (Z.le_gt_cases USB_NUM_ENDPOINTS endpoint) as [Hge | Hlt].
  { left. apply usb_install_ep_handler_rejects; auto. }
  destruct (array_get_defined (endpoint_directions s) endpoint) as [d Hd];
    [lia|].
  assert (Hdir : (direction = USBIn \/ direction = USBOut)
                 \/ (direction <> USBIn /\ direction <> USBOut)) by lia.
  destruct Hdir as [Hdir | Hdir].
  2:{ left. apply usb_install_ep_handler_rejects; auto. }
  assert (Hcap : (d = direction \/ d = USBBiDir)
                 \/ (d <> direction /\ d <> USBBiDir)) by lia.
  destruct Hcap as [Hcap | Hcap].
  2:{ left. apply usb_install_ep_handler_rejects; auto.
      right. right. exists d. tauto. }
  right.
  destruct (usb_install_ep_handler_accepts s endpoint direction h t d
              (conj H0 Hlt) Hlh Hd Hcap Hdir) as [s' Hrun].
  exists s'. repeat split; auto.
  destruct Hcap as [-> | ->]; auto.
Qed.

(** What a successful installation changes: the handler table alone, and in
    it the one half of the one element. *)
Lemma usb_install_ep_handler_changes (s s' : State)
  (endpoint direction h t : Z) :
  usb_install_ep_handler endpoint direction h t s = Some (0, s') ->
  exists old hs,
    array_get (endpoint_handlers s) endpoint = Some old /\
    array_set (endpoint_handlers s) endpoint
      (if direction =? USBIn
       then {| in_ := {| handler := h; token := u32 t |}; out := out old |}
       else {| in_ := in_ old; out := {| handler := h; token := u32 t |} |})
    = Some hs /\
    (direction = USBIn \/ direction = USBOut) /\
    s' = set_endpoint_handlers hs s.
Proof.
  unfold usb_install_ep_handler.
  destruct (endpoint >=? USB_NUM_ENDPOINTS); [discriminate|].
  unfold M_bind, M_get, M_lift, M_modify, M_ret.
  destruct (array_get (endpoint_directions s) endpoint) as [d|];
    [|discriminate].
  destruct (negb (d =? direction) && negb (d =? USBBiDir)); [discriminate|].
  destruct (direction =? USBIn) eqn:Din.
  - destruct (array_get (endpoint_handlers s) endpoint) as [old|];
      [|discriminate].
    destruct (array_set _ _ _) as [hs|] eqn:Hs; [|discriminate].
    intros [= <-]. apply Z.eqb_eq in Din. eauto 7.
  - destruct (direction =? USBOut) eqn:Dout; [|discriminate].
    destruct (array_get (endpoint_handlers s) endpoint) as [old|];
      [|discriminate].
    destruct (array_set _ _ _) as [hs|] eqn:Hs; [|discriminate].
    intros [= <-]. apply Z.eqb_eq in Dout. eauto 7.
Qed.

(** The other half of the element stays. *)
Lemma usb_install_ep_handler_other_direction (s s' : State)
  (endpoint direction h t other : Z) :
  usb_install_ep_handler endpoint direction h t s = Some (0, s') ->
  other <> direction ->
  handler_entry s' endpoint other = handler_entry s endpoint other.
Proof.
  intros Hrun Hne.
  destruct (usb_install_ep_handler_changes _ _ _ _ _ _ Hrun)
    as (old & hs & Hold & Hset & Hdir & ->).
  unfold handler_entry.
  cbn [endpoint_handlers set_endpoint_handlers].
  rewrite (array_set_get _ _ _ _ Hset), Hold.
  destruct (direction =? USBIn) eqn:Din.
  - apply Z.eqb_eq in Din. subst direction.
    apply Z.eqb_neq in Hne. rewrite Hne. reflexivity.
  - destruct (other =? USBIn) eqn:Oin; [reflexivity|].
    cbn [out].
    destruct Hdir as [-> | ->];
      [rewrite Z.eqb_refl in Din; discriminate|].
    apply Z.eqb_neq in Hne. rewrite Hne. reflexivity.
Qed.

(** X2.  A successful [usb_install_ep_handler] changes nothing but the one
    slot: every static other than the handler table is as before, the table
    keeps its size, the elements of the other endpoints are as before, and
    so is the slot of the same endpoint for the other direction. *)
Theorem usb_install_ep_handler_frame (s s' : State)
  (endpoint direction h t : Z) :
  usb_install_ep_handler endpoint direction h t s = Some (0, s') ->
  s' = set_endpoint_handlers (endpoint_handlers s') s /\
  List.length (endpoint_handlers s') = List.length (endpoint_handlers s) /\
  (forall other, other <> endpoint ->
     array_get (endpoint_handlers s') other
     = array_get (endpoint_handlers s) other) /\
  (forall other, other <> direction ->
     handler_entry s' endpoint other = handler_entry s endpoint other).
Proof.
  intros Hrun.
  pose proof (usb_install_ep_handler_other_direction s s' endpoint direction
                h t) as Hother.
  destruct (usb_install_ep_handler_changes _ _ _ _ _ _ Hrun)
    as (old & hs & Hold & Hset & _ & ->).
  cbn [endpoint_handlers set_endpoint_handlers].
  split; [reflexivity|]. split; [exact (array_set_length _ _ _ _ Hset)|].
  split.
  - intros other Hne. exact (array_set_get_other _ _ _ _ _ Hset Hne).
  - intros other Hne. exact (Hother other Hrun Hne).
Qed.

(** X3.  On a bidirectional endpoint the two directions have slots of their
    own: after a handler for IN and then one for OUT, both are installed. *)
Theorem usb_install_ep_handler_both_directions (s : State)
  (endpoint h1 t1 h2 t2 : Z) :
  USBIn <> USBOut ->
  0 <= endpoint < USB_NUM_ENDPOINTS ->
  Z.of_nat (List.length (endpoint_handlers s)) = USB_NUM_ENDPOINTS ->
  array_get (endpoint_directions s) endpoint = Some USBBiDir ->
  0 <= t1 < 2 ^ 32 -> 0 <= t2 < 2 ^ 32 ->
  exists s1 s2,
    usb_install_ep_handler endpoint USBIn h1 t1 s = Some (0, s1) /\
    usb_install_ep_handler endpoint USBOut h2 t2 s1 = Some (0, s2) /\
    handler_entry s2 endpoint USBIn = Some {| handler := h1; token := t1 |} /\
    handler_entry s2 endpoint USBOut = Some {| handler := h2; token := t2 |}.
Proof.
  intros Hne He Hlen Hd Ht1 Ht2.
  destruct (usb_install_ep_handler_ok s endpoint USBIn h1 t1 USBBiDir
              He Hlen Hd (or_intror eq_refl) (or_introl eq_refl) Ht1)
    as (s1 & Hrun1 & Hin & Hdirs & Hl).
  rewrite <- Hl in Hlen. rewrite <- Hdirs in Hd.
  destruct (usb_install_ep_handler_ok s1 endpoint USBOut h2 t2 USBBiDir
              He Hlen Hd (or_intror eq_refl) (or_intror eq_refl) Ht2)
    as (s2 & Hrun2 & Hout & _).
  exists s1, s2. repeat split; try assumption.
  rewrite (usb_install_ep_handler_other_direction _ _ _ _ _ _ USBIn Hrun2 Hne).
  exact Hin.
Qed.

End HandlerRegistry.

Lemma usb_install_ep_handler_verdict_witness :
  usb_install_ep_handler 1 USBOut 4096 7 up_state = Some (-1, up_state)
  \/ (exists s',
        usb_install_ep_handler 1 USBOut 4096 7 up_state = Some (0, s') /\
        1 < USB_NUM_ENDPOINTS /\
        (USBOut = USBIn \/ USBOut = USBOut) /\
        (array_get (endpoint_directions up_state) 1 = Some USBOut
         \/ array_get (endpoint_directions up_state) 1 = Some USBBiDir)).
Proof.
  apply (usb_install_ep_handler_verdict up_state 1 USBOut 4096 7).
  - lia.
  - vm_compute. reflexivity.
  - vm_compute. reflexivity.
Defined.

Lemma usb_install_ep_handler_frame_witness :
  installed_state
  = set_endpoint_handlers (endpoint_handlers installed_state) up_state /\
  List.length (endpoint_handlers installed_state)
  = List.length (endpoint_handlers up_state) /\
  (forall other, other <> 1 ->
     array_get (endpoint_handlers installed_state) other
     = array_get (endpoint_handlers up_state) other) /\
  (forall other, other <> USBIn ->
     handler_entry installed_state 1 other = handler_entry up_state 1 other).
Proof.
  apply (usb_install_ep_handler_frame up_state installed_state 1 USBIn 4096 7).
  vm_compute. reflexivity.
Defined.

Lemma usb_install_ep_handler_both_directions_witness :
  exists s1 s2,
    usb_install_ep_handler 0 USBIn 4096 7 up_state = Some (0, s1) /\
    usb_install_ep_handler 0 USBOut 8192 9 s1 = Some (0, s2) /\
    handler_entry s2 0 USBIn = Some {| handler := 4096; token := 7 |} /\
    handler_entry s2 0 USBOut = Some {| handler := 8192; token := 9 |}.
Proof.
  apply (usb_install_ep_handler_both_directions up_state 0 4096 7 8192 9).
  - vm_compute. discriminate.
  - vm_compute. split; [discriminate | reflexivity].
  - vm_compute. reflexivity.
  - vm_compute. reflexivity.
  - lia.
  - lia.
Defined.

(** ** String table, continued *)

Section StringStore.
Context {usb_h : UsbH}.

(** What a defined [addStringDescriptor] does to the statics. *)
Lemma addStringDescriptor_inv (text : string) (s s' : State) (r : Z) :
  addStringDescriptor text s = Some (r, s') ->
  exists sds fsd,
    realloc_store (stringDescriptors s) (numStringDescriptors s + 1)
      (numStringDescriptors s) (string_entry text) = Some sds /\
    0 <= numStringDescriptors s < 255 /\
    r = numStringDescriptors s + 1 /\
    s' = set_firstStringDescriptor (Ptr fsd)
           (set_stringDescriptors (Ptr sds)
              (set_numStringDescriptors (numStringDescriptors s + 1) s)).
Proof.
  unfold addStringDescriptor, M_bind, M_get, M_modify, M_lift, M_ret.
  cbn [numStringDescriptors stringDescriptors firstStringDescriptor
       set_numStringDescriptors set_stringDescriptors
       set_firstStringDescriptor].
  fold (string_entry text).
  destruct (realloc_store (stringDescriptors s) _ _ _) as [sds|] eqn:R1;
    [|discriminate].
  destruct (realloc_store_langid _ _ _ _) as [fsd|] eqn:R2; [|discriminate].
  pose proof (realloc_store_bounds _ _ _ _ _ R1) as Hb.
  assert (Hu : u8 (numStringDescriptors s + 1) = numStringDescriptors s + 1).
  { unfold u8 in *.
    assert ((numStringDescriptors s + 1) mod 256 < 256)
      by (apply Z.mod_pos_bound; lia).
    apply Z.mod_small. lia. }
  rewrite Hu in *. intros [= <- <-].
  exists sds, fsd. repeat split; try assumption; try lia.
  unfold u8 in Hu.
  destruct (Z.lt_ge_cases (numStringDescriptors s) 255); [assumption|].
  assert ((numStringDescriptors s + 1) mod 256 < 256)
    by (apply Z.mod_pos_bound; lia). lia.
Qed.

(** The index a defined [addStringDescriptor] returns reads the entry back. *)
Lemma addStringDescriptor_reads_back (text : string) (s s' : State) (r : Z) :
  addStringDescriptor text s = Some (r, s') ->
  usb_get_string_descriptor r s' = Some (Entry (string_entry text), s').
Proof.
  intros Hrun.
  destruct (addStringDescriptor_inv _ _ _ _ Hrun)
    as (sds & fsd & Hsds & Hn & -> & ->).
  unfold usb_get_string_descriptor, M_bind, M_get, M_lift, M_ret.
  cbn [stringDescriptors set_firstStringDescriptor set_stringDescriptors].
  destruct (numStringDescriptors s + 1 =? 0) eqn:Z0;
    [apply Z.eqb_eq in Z0; lia|].
  replace (numStringDescriptors s + 1 - 1) with (numStringDescriptors s)
    by lia.
  now rewrite (realloc_store_get _ _ _ _ _ Hsds).
Qed.

(** X4.  Round trip of the string table: the index [addStringDescriptor]
    returns is between 1 and 255, and [usb_get_string_descriptor] at that
    index yields the entry of the text just added (length byte, type, and
    the characters without the terminator). *)
Theorem addStringDescriptor_then_get (text : string) (s s' : State) (r : Z) :
  addStringDescriptor text s = Some (r, s') ->
  1 <= r <= 255 /\
  usb_get_string_descriptor r s' = Some (Entry (string_entry text), s').
Proof.
  intros Hrun. split.
  - destruct (addStringDescriptor_inv _ _ _ _ Hrun)
      as (sds & fsd & _ & Hn & -> & _). lia.
  - exact (addStringDescriptor_reads_back _ _ _ _ Hrun).
Qed.

(** X5.  [addStringDescriptor] keeps the entries added before: an index
    below the one it returns reads after the call what it read before. *)
Theorem addStringDescriptor_keeps_entries (text : string) (s s' : State)
  (r i : Z) (d : USBStringDescriptor) :
  addStringDescriptor text s = Some (r, s') ->
  1 <= i < r ->
  usb_get_string_descriptor i s = Some (Entry d, s) ->
  usb_get_string_descriptor i s' = Some (Entry d, s').
Proof.
  intros Hrun Hi Hget.
  destruct (addStringDescriptor_inv _ _ _ _ Hrun)
    as (sds & fsd & Hsds & Hn & -> & ->).
  unfold usb_get_string_descriptor, M_bind, M_get, M_lift, M_ret in *.
  cbn [stringDescriptors set_firstStringDescriptor set_stringDescriptors].
  destruct (i =? 0) eqn:Z0; [apply Z.eqb_eq in Z0; lia|].
  rewrite (realloc_store_get_before _ _ _ (i - 1) _ _ Hsds) by lia.
  destruct (stringDescriptors s) as [|sds0|]; try discriminate.
  cbn [block].
  destruct (array_get sds0 (i - 1)) as [d0|]; [|discriminate].
  congruence.
Qed.

(** X6.  The table holds 255 strings at most: with the 8-bit count at 255
    the increment wraps to 0, the block is resized to no element and the
    store to element 255 is outside it. *)
Theorem addStringDescriptor_full (text : string) (s : State) :
  numStringDescriptors s = 255 ->
  addStringDescriptor text s = None.
Proof.
  intros Hn.
  destruct (addStringDescriptor text s) as [[r s']|] eqn:E; [|reflexivity].
  destruct (addStringDescriptor_inv _ _ _ _ E) as (_ & _ & _ & Hb & _). lia.
Qed.

(** X7.  The length byte of an entry is 8 bits wide: for a text of 254
    characters or more the entry keeps all characters of the text, but its
    [bLength] is the size modulo 256, less than the size of the entry. *)
Theorem addStringDescriptor_length_wraps (text : string) (s s' : State)
  (r : Z) :
  addStringDescriptor text s = Some (r, s') ->
  256 <= sizeof_USBStringDescriptor + Z.of_nat (strlen text) ->
  exists d,
    usb_get_string_descriptor r s' = Some (Entry d, s') /\
    bString d = memcpy text (strlen text) /\
    str_bLength d
    = (sizeof_USBStringDescriptor + Z.of_nat (strlen text)) mod 256 /\
    str_bLength d < sizeof_USBStringDescriptor + Z.of_nat (strlen text).
Proof.
  intros Hrun Hlong.
  exists (string_entry text).
  split; [exact (addStringDescriptor_reads_back _ _ _ _ Hrun)|].
  split; [reflexivity|]. split; [reflexivity|].
  cbn [string_entry str_bLength]. unfold u8.
  assert ((sizeof_USBStringDescriptor + Z.of_nat (strlen text)) mod 256 < 256)
    by (apply Z.mod_pos_bound; lia).
  lia.
Qed.

(** X8.  [usb_get_string_descriptor] has no bounds check: an index other
    than 0 that is negative or past the block of the table reads outside
    it. *)
Theorem usb_get_string_descriptor_out_of_range (index : Z) (s : State) :
  index <> 0 ->
  index < 1
  \/ Z.of_nat (List.length (block (stringDescriptors s))) < index ->
  usb_get_string_descriptor index s = None.
Proof.
  intros Hz Hr.
  unfold usb_get_string_descriptor, M_bind, M_get, M_lift, M_ret.
  apply Z.eqb_neq in Hz. rewrite Hz.
  destruct (stringDescriptors s) as [|sds|]; try reflexivity.
  cbn [block] in Hr.
  destruct (array_get sds (index - 1)) as [d|] eqn:G; [|reflexivity].
  apply array_get_range in G. apply Z.eqb_neq in Hz. lia.
Qed.

(** What a defined [releaseStringDescriptors] does. *)
Lemma releaseStringDescriptors_inv (s s' : State) :
  releaseStringDescriptors s = Some (tt, s') ->
  (stringDescriptors s = NULL /\ s' = s)
  \/ (stringDescriptors s <> NULL /\
      s' = set_stringDescriptors NULL (set_numStringDescriptors 0 s)).
Proof.
  unfold releaseStringDescriptors, M_bind, M_get, M_modify, M_lift, M_ret.
  destruct (stringDescriptors s) as [|sds|] eqn:S; [| |discriminate].
  - intros [= <-]. left. split; reflexivity.
  - destruct (free_strings 256 sds (numStringDescriptors s) 0);
      [|discriminate].
    intros [= <-]. right. split; [discriminate | reflexivity].
Qed.

(** X9.  [releaseStringDescriptors] releases the entries and not the
    language-ID descriptor: afterwards the table is null (and its count 0 if
    there was a table), [firstStringDescriptor] is the pointer it was, index
    0 still yields it, and every other index reads through the null
    table. *)
Theorem releaseStringDescriptors_keeps_language_ids (s s' : State) :
  releaseStringDescriptors s = Some (tt, s') ->
  stringDescriptors s' = NULL /\
  (stringDescriptors s <> NULL -> numStringDescriptors s' = 0) /\
  firstStringDescriptor s' = firstStringDescriptor s /\
  usb_get_string_descriptor 0 s'
  = Some (LanguageIDs (firstStringDescriptor s), s') /\
  (forall index, index <> 0 -> usb_get_string_descriptor index s' = None).
Proof.
  intros Hrel.
  assert (Hs : stringDescriptors s' = NULL
               /\ firstStringDescriptor s' = firstStringDescriptor s
               /\ (stringDescriptors s <> NULL -> numStringDescriptors s' = 0)).
  { destruct (releaseStringDescriptors_inv _ _ Hrel) as [[H ->] | [H ->]].
    - repeat split; [exact H | congruence].
    - repeat split. }
  destruct Hs as (Hnull & Hfsd & Hcount).
  split; [exact Hnull|]. split; [exact Hcount|]. split; [exact Hfsd|]. split.
  - unfold usb_get_string_descriptor, M_bind, M_get, M_ret. cbn.
    now rewrite Hfsd.
  - intros index Hz.
    unfold usb_get_string_descriptor, M_bind, M_get, M_lift, M_ret.
    apply Z.eqb_neq in Hz. now rewrite Hz, Hnull.
Qed.

(** X10.  The loop variable of [releaseStringDescriptors] is an [int8_t]:
    a table of up to 127 strings is released and reset; with 128 or more the
    variable wraps to -128 before it reaches the count and the loop reads
    before the block. *)
Theorem releaseStringDescriptors_int8_reach (s : State)
  (sds : list USBStringDescriptor) :
  stringDescriptors s = Ptr sds ->
  numStringDescriptors s = Z.of_nat (List.length sds) ->
  (List.length sds <= 127)%nat /\
    releaseStringDescriptors s
    = Some (tt, set_stringDescriptors NULL (set_numStringDescriptors 0 s))
  \/ (128 <= List.length sds)%nat /\ releaseStringDescriptors s = None.
Proof.
  intros Hs Hn.
  unfold releaseStringDescriptors, M_bind, M_get, M_modify, M_lift, M_ret.
  rewrite Hs, Hn.
  destruct (Nat.le_gt_cases (List.length sds) 127) as [Hle | Hgt].
  - left. split; [exact Hle|].
    rewrite (free_strings_defined sds) by lia. reflexivity.
  - right. split; [lia|].
    rewrite (free_strings_int8_wrap sds) by lia. reflexivity.
Qed.

(** X11.  Releasing is idempotent: after a defined
    [releaseConfigurations(); releaseStringDescriptors();] the same two
    calls are defined again and change nothing. *)
Theorem release_all_twice (s s' : State) :
  release_all s = Some (tt, s') ->
  release_all s' = Some (tt, s').
Proof.
  intros Hrel.
  destruct (release_all_result s s' Hrel) as (Hc & Hs & _).
  unfold release_all, releaseConfigurations, releaseStringDescriptors,
    M_bind, M_get, M_ret.
  now rewrite Hc, Hs.
Qed.

End StringStore.

Lemma addStringDescriptor_then_get_witness :
  1 <= 1 <= 255 /\
  usb_get_string_descriptor 1 one_string
  = Some (Entry (string_entry "Apple Inc."), one_string).
Proof.
  apply (addStringDescriptor_then_get "Apple Inc." boot_state one_string 1).
  vm_compute. reflexivity.
Defined.

Lemma addStringDescriptor_keeps_entries_witness :
  usb_get_string_descriptor 1 two_strings
  = Some (Entry (string_entry "Apple Inc."), two_strings).
Proof.
  apply (addStringDescriptor_keeps_entries "OpenIBoot" one_string two_strings
           2 1 (string_entry "Apple Inc.")).
  - vm_compute. reflexivity.
  - lia.
  - vm_compute. reflexivity.
Defined.

Lemma addStringDescriptor_full_witness :
  addStringDescriptor "Apple Inc." (set_numStringDescriptors 255 boot_state)
  = None.
Proof.
  apply (addStringDescriptor_full "Apple Inc."
           (set_numStringDescriptors 255 boot_state)).
  reflexivity.
Defined.

Lemma addStringDescriptor_length_wraps_witness :
  exists d,
    usb_get_string_descriptor 1 long_string = Some (Entry d, long_string) /\
    bString d = memcpy long_text (strlen long_text) /\
    str_bLength d
    = (sizeof_USBStringDescriptor + Z.of_nat (strlen long_text)) mod 256 /\
    str_bLength d < sizeof_USBStringDescriptor + Z.of_nat (strlen long_text).
Proof.
  apply (addStringDescriptor_length_wraps long_text boot_state long_string 1).
  - vm_compute. reflexivity.
  - vm_compute. discriminate.
Defined.

Lemma usb_get_string_descriptor_out_of_range_witness :
  usb_get_string_descriptor 2 one_string = None.
Proof.
  apply (usb_get_string_descriptor_out_of_range 2 one_string).
  - lia.
  - right. vm_compute. reflexivity.
Defined.

Lemma releaseStringDescriptors_keeps_language_ids_witness :
  stringDescriptors strings_released = NULL /\
  (stringDescriptors serving_tables <> NULL ->
   numStringDescriptors strings_released = 0) /\
  firstStringDescriptor strings_released
  = firstStringDescriptor serving_tables /\
  usb_get_string_descriptor 0 strings_released
  = Some (LanguageIDs (firstStringDescriptor serving_tables),
          strings_released) /\
  (forall index, index <> 0 ->
     usb_get_string_descriptor index strings_released = None).
Proof.
  apply (releaseStringDescriptors_keeps_language_ids serving_tables
           strings_released).
  vm_compute. reflexivity.
Defined.

Lemma releaseStringDescriptors_int8_reach_witness :
  (List.length [string_entry "Apple Inc."] <= 127)%nat /\
    releaseStringDescriptors one_string
    = Some (tt, set_stringDescriptors NULL
                  (set_numStringDescriptors 0 one_string))
  \/ (128 <= List.length [string_entry "Apple Inc."])%nat /\
     releaseStringDescriptors one_string = None.
Proof.
  apply (releaseStringDescriptors_int8_reach one_string
           [string_entry "Apple Inc."]).
  - vm_compute. reflexivity.
  - vm_compute. reflexivity.
Defined.

Lemma release_all_twice_witness :
  release_all released_tables = Some (tt, released_tables).
Proof.
  apply (release_all_twice serving_tables released_tables).
  vm_compute. reflexivity.
Defined.

(** ** Descriptor registry, continued *)

Section RegistryBuilder.
Context {usb_h : UsbH}.

(** X12.  [addConfiguration] appends: with the count equal to the number of
    configurations in the block and below 255 (and a current that fits the
    16-bit parameter), it returns the old count,
    increments [bNumConfigurations] and stores a configuration after the
    existing ones, with no interface, total length 0, bit 7 of the
    attributes set, bit 6 and bit 5 from the two flags, and half the given
    current as [bMaxPower]. *)
Theorem addConfiguration_appends (fresh : fresh_bits) (s : State)
  (value iString selfPowered remoteWakeup maxPower : Z) :
  configurations s <> Wild ->
  bNumConfigurations (deviceDescriptor s)
  = Z.of_nat (List.length (block (configurations s))) ->
  bNumConfigurations (deviceDescriptor s) < 255 ->
  0 <= maxPower < 65536 ->
  addConfiguration fresh value iString selfPowered remoteWakeup maxPower s
  = Some (bNumConfigurations (deviceDescriptor s),
      set_configurations
        (Ptr (block (configurations s)
              ++ [ {| descriptor :=
                        {| cfg_bLength :=
                             sizeof_USBConfigurationDescriptor mod 256;
                           cfg_bDescriptorType :=
                             USBConfigurationDescriptorType mod 256;
                           wTotalLength := 0;
                           bNumInterfaces := 0;
                           bConfigurationValue := value mod 256;
                           iConfiguration := iString mod 256;
                           cfg_bmAttributes :=
                             128 + 64 * (selfPowered mod 2)
                             + 32 * (remoteWakeup mod 2);
                           bMaxPower := (maxPower / 2) mod 256 |};
                      interfaces := fresh_pointer fresh |} ]))
        (set_deviceDescriptor
           (set_bNumConfigurations
              (bNumConfigurations (deviceDescriptor s) + 1)
              (deviceDescriptor s)) s)).
Proof.
  intros Hw Hn Hlt Hp.
  unfold addConfiguration, M_bind, M_get, M_modify, M_lift, M_ret.
  cbn [configurations set_deviceDescriptor deviceDescriptor
       bNumConfigurations set_bNumConfigurations].
  assert (U : u8 (bNumConfigurations (deviceDescriptor s) + 1)
              = bNumConfigurations (deviceDescriptor s) + 1)
    by (unfold u8; apply Z.mod_small; lia).
  rewrite U, Hn, (realloc_store_next _ _ _ Hw) by lia.
  rewrite firstn_all, configuration_attribute_bits.
  rewrite Z.quot_div_nonneg by lia.
  reflexivity.
Qed.

(** X13.  A defined [addInterfaceDescriptor] returns the old interface
    count (below 255), increments [bNumInterfaces] and changes no other
    field of the configuration descriptor (the total length is not
    updated), keeps the interfaces stored before, and stores the new one
    with the given bytes, no endpoint and a null endpoint block. *)
Theorem addInterfaceDescriptor_appends (c c' : USBConfiguration)
  (number alt class subclass protocol iString j : Z) :
  addInterfaceDescriptor c number alt class subclass protocol iString
  = Some (j, c') ->
  j = bNumInterfaces (descriptor c) /\
  0 <= j < 255 /\
  descriptor c' = set_bNumInterfaces (j + 1) (descriptor c) /\
  wTotalLength (descriptor c') = wTotalLength (descriptor c) /\
  (forall i, 0 <= i < j ->
     array_get (block (interfaces c')) i = array_get (block (interfaces c)) i) /\
  array_get (block (interfaces c')) j
  = Some {| if_descriptor :=
              {| if_bLength := sizeof_USBInterfaceDescriptor mod 256;
                 if_bDescriptorType := USBInterfaceDescriptorType mod 256;
                 bInterfaceNumber := number mod 256;
                 bAlternateSetting := alt mod 256;
                 bNumEndpoints := 0;
                 bInterfaceClass := class mod 256;
                 bInterfaceSubClass := subclass mod 256;
                 bInterfaceProtocol := protocol mod 256;
                 iInterface := iString mod 256 |};
            endpointDescriptors := NULL |}.
Proof.
  unfold addInterfaceDescriptor.
  destruct (realloc_store _ _ _ _) as [ifs|] eqn:R; [|discriminate].
  intros [= <- <-].
  pose proof (realloc_store_bounds _ _ _ _ _ R) as Hb.
  cbn [set_bNumInterfaces bNumInterfaces] in Hb.
  assert (Hm : (bNumInterfaces (descriptor c) + 1) mod 256 < 256)
    by (apply Z.mod_pos_bound; lia).
  assert (Hu : u8 (bNumInterfaces (descriptor c) + 1)
               = bNumInterfaces (descriptor c) + 1).
  { unfold u8 in *. apply Z.mod_small. lia. }
  cbn [descriptor interfaces block]. rewrite Hu.
  split; [reflexivity|]. split; [unfold u8 in Hb; lia|].
  split; [reflexivity|]. split; [reflexivity|]. split.
  - intros i Hi. exact (realloc_store_get_before _ _ _ i _ _ R Hi).
  - exact (realloc_store_get _ _ _ _ _ R).
Qed.

(** X14.  A defined [addEndpointDescriptor] with a direction the guard
    lets through increments [bNumEndpoints], returns the index of the new
    endpoint (below 255), keeps the endpoints stored before, and stores the
    new one with the endpoint number in the low two bits of the address, the
    direction bit in bit 7, the three two-bit attribute fields packed, and
    the packet size and interval truncated to their widths. *)
Theorem addEndpointDescriptor_element (interface itf' : USBInterface)
  (endpoint direction transferType syncType usageType size interval idx : Z) :
  direction <= 2 ->
  addEndpointDescriptor interface endpoint direction transferType syncType
    usageType size interval = Some (idx, itf') ->
  bNumEndpoints (if_descriptor itf')
  = bNumEndpoints (if_descriptor interface) + 1 /\
  0 <= idx < 255 /\
  (forall j, 0 <= j < idx ->
     array_get (block (endpointDescriptors itf')) j
     = array_get (block (endpointDescriptors interface)) j) /\
  array_get (block (endpointDescriptors itf')) idx
  = Some {| ep_bLength := sizeof_USBEndpointDescriptor mod 256;
            ep_bDescriptorType := USBEndpointDescriptorType mod 256;
            bEndpointAddress := endpoint mod 4 + 128 * (direction mod 2);
            ep_bmAttributes :=
              transferType mod 4 + 4 * (syncType mod 4)
              + 16 * (usageType mod 4);
            wMaxPacketSize := size mod 65536;
            bInterval := interval mod 256 |}.
Proof.
  intros Hd. unfold addEndpointDescriptor.
  destruct (2 <? direction) eqn:G; [apply Z.ltb_lt in G; lia|].
  destruct (realloc_store _ _ _ _) as [eps|] eqn:R; [|discriminate].
  intros [= <- <-].
  pose proof (realloc_store_bounds _ _ _ _ _ R) as Hb.
  cbn [set_bNumEndpoints bNumEndpoints] in Hb.
  assert (Hu : u8 (bNumEndpoints (if_descriptor interface) + 1)
               = bNumEndpoints (if_descriptor interface) + 1).
  { unfold u8 in *.
    assert ((bNumEndpoints (if_descriptor interface) + 1) mod 256 < 256)
      by (apply Z.mod_pos_bound; lia).
    apply Z.mod_small. lia. }
  cbn [if_descriptor endpointDescriptors set_bNumEndpoints bNumEndpoints block].
  split; [exact Hu|]. split.
  - unfold u8 in Hb.
    assert ((bNumEndpoints (if_descriptor interface) + 1) mod 256 < 256)
      by (apply Z.mod_pos_bound; lia).
    lia.
  - split.
    + intros j Hj. exact (realloc_store_get_before _ _ _ j _ _ R Hj).
    + rewrite (realloc_store_get _ _ _ _ _ R).
      rewrite endpoint_address_bits, two_bit_fields. reflexivity.
Qed.

(** X15.  For the first configuration [endConfiguration] stores the
    specified total (the configuration descriptor, and for every interface
    its descriptor and its endpoints) modulo 2^16, changes nothing else, and
    a second call changes nothing at all. *)
Theorem endConfiguration_first_twice (s : State) (c : USBConfiguration)
  (others : list USBConfiguration) (ifs : list USBInterface) :
  configurations s = Ptr (c :: others) ->
  interfaces c = Ptr ifs ->
  bNumInterfaces (descriptor c) = Z.of_nat (List.length ifs) ->
  exists s1,
    endConfiguration 0 s = Some (tt, s1) /\
    s1 = set_configurations (configurations s1) s /\
    configurations s1
    = Ptr ({| descriptor :=
                set_wTotalLength
                  ((sizeof_USBConfigurationDescriptor + interfaces_length ifs)
                   mod 65536)
                  (descriptor c);
              interfaces := Ptr ifs |} :: others) /\
    endConfiguration 0 s1 = Some (tt, s1).
Proof.
  intros Hc Hi Hn.
  eexists. split; [exact (endConfiguration_first s c others ifs Hc Hi Hn)|].
  split; [reflexivity|]. split.
  - cbn [configurations set_configurations]. unfold spec_total_length.
    rewrite Hi. reflexivity.
  - erewrite endConfiguration_first;
      [| reflexivity | cbn [interfaces]; exact Hi | exact Hn].
    unfold spec_total_length. cbn [interfaces]. reflexivity.
Qed.

Lemma endConfiguration_step_None (ifs : pointer (list USBInterface))
  (l : list nat) :
  fold_left (endConfiguration_step ifs) l None = None.
Proof. induction l as [|i l IH]; [reflexivity | exact IH]. Qed.

Lemma endConfiguration_loop_past (ifs : list USBInterface) (n : nat)
  (a : Z) :
  (List.length ifs < n)%nat ->
  fold_left (endConfiguration_step (Ptr ifs)) (seq 0 n) (Some (u16 a)) = None.
Proof.
  intros Hn.
  replace n with (List.length ifs + S (n - S (List.length ifs)))%nat by lia.
  rewrite seq_app, fold_left_app.
  pose proof (endConfiguration_loop_sum [] ifs a) as L.
  cbn [List.length app] in L. rewrite L.
  cbn [seq fold_left Nat.add]. unfold endConfiguration_step at 2.
  replace (nth_error ifs (List.length ifs)) with (@None USBInterface)
    by (symmetry; apply nth_error_None; lia).
  apply endConfiguration_step_None.
Qed.

(** X16.  The loop of [endConfiguration] runs to the interface count of the
    first configuration: finalizing a configuration whose interface block
    has fewer elements than that count reads past the block. *)
Theorem endConfiguration_reads_past_the_block (s : State)
  (cfgs : list USBConfiguration) (first c : USBConfiguration) (k : Z) :
  configurations s = Ptr cfgs ->
  array_get cfgs 0 = Some first ->
  array_get cfgs k = Some c ->
  Z.of_nat (List.length (block (interfaces c)))
  < bNumInterfaces (descriptor first) ->
  endConfiguration k s = None.
Proof.
  intros Hc Hfirst Hk Hlt.
  unfold endConfiguration. unfold M_bind at 1. cbn [M_get]. rewrite Hc.
  unfold M_bind at 1. rewrite Hk. cbn [M_lift].
  unfold M_bind at 1. rewrite Hfirst. cbn [M_lift].
  unfold M_bind at 1.
  replace (fold_left _ _ _) with (@None Z); [reflexivity|].
  symmetry.
  destruct (interfaces c) as [|ifs|] eqn:I.
  - cbn [block List.length] in Hlt.
    destruct (Z.to_nat (bNumInterfaces (descriptor first))) as [|m] eqn:E;
      [lia|].
    cbn [seq fold_left]. apply endConfiguration_step_None.
  - cbn [block] in Hlt. apply endConfiguration_loop_past. lia.
  - cbn [block List.length] in Hlt.
    destruct (Z.to_nat (bNumInterfaces (descriptor first))) as [|m] eqn:E;
      [lia|].
    cbn [seq fold_left]. apply endConfiguration_step_None.
Qed.

End RegistryBuilder.

Lemma addConfiguration_appends_witness :
  addConfiguration Zero_bits 1 4 0 0 500 boot_state
  = Some (bNumConfigurations (deviceDescriptor boot_state),
      set_configurations
        (Ptr (block (configurations boot_state)
              ++ [ {| descriptor :=
                        {| cfg_bLength :=
                             sizeof_USBConfigurationDescriptor mod 256;
                           cfg_bDescriptorType :=
                             USBConfigurationDescriptorType mod 256;
                           wTotalLength := 0;
                           bNumInterfaces := 0;
                           bConfigurationValue := 1 mod 256;
                           iConfiguration := 4 mod 256;
                           cfg_bmAttributes :=
                             128 + 64 * (0 mod 2) + 32 * (0 mod 2);
                           bMaxPower := (500 / 2) mod 256 |};
                      interfaces := fresh_pointer Zero_bits |} ]))
        (set_deviceDescriptor
           (set_bNumConfigurations
              (bNumConfigurations (deviceDescriptor boot_state) + 1)
              (deviceDescriptor boot_state)) boot_state)).
Proof.
  apply (addConfiguration_appends Zero_bits boot_state 1 4 0 0 500).
  - discriminate.
  - reflexivity.
  - reflexivity.
  - lia.
Defined.

Lemma addInterfaceDescriptor_appends_witness :
  0 = bNumInterfaces (descriptor (built_configuration Zero_bits)) /\
  0 <= 0 < 255 /\
  descriptor one_interface
  = set_bNumInterfaces (0 + 1) (descriptor (built_configuration Zero_bits)) /\
  wTotalLength (descriptor one_interface)
  = wTotalLength (descriptor (built_configuration Zero_bits)) /\
  (forall i, 0 <= i < 0 ->
     array_get (block (interfaces one_interface)) i
     = array_get (block (interfaces (built_configuration Zero_bits))) i) /\
  array_get (block (interfaces one_interface)) 0
  = Some {| if_descriptor :=
              {| if_bLength := sizeof_USBInterfaceDescriptor mod 256;
                 if_bDescriptorType := USBInterfaceDescriptorType mod 256;
                 bInterfaceNumber := 0 mod 256;
                 bAlternateSetting := 0 mod 256;
                 bNumEndpoints := 0;
                 bInterfaceClass := 255 mod 256;
                 bInterfaceSubClass := 255 mod 256;
                 bInterfaceProtocol := 81 mod 256;
                 iInterface := 5 mod 256 |};
            endpointDescriptors := NULL |}.
Proof.
  apply (addInterfaceDescriptor_appends (built_configuration Zero_bits)
           one_interface 0 0 255 255 81 5 0).
  vm_compute. reflexivity.
Defined.

Lemma addEndpointDescriptor_element_witness :
  bNumEndpoints (if_descriptor sample_interface_in)
  = bNumEndpoints (if_descriptor sample_interface) + 1 /\
  0 <= 0 < 255 /\
  (forall j, 0 <= j < 0 ->
     array_get (block (endpointDescriptors sample_interface_in)) j
     = array_get (block (endpointDescriptors sample_interface)) j) /\
  array_get (block (endpointDescriptors sample_interface_in)) 0
  = Some {| ep_bLength := sizeof_USBEndpointDescriptor mod 256;
            ep_bDescriptorType := USBEndpointDescriptorType mod 256;
            bEndpointAddress := 5 mod 4 + 128 * (USBIn mod 2);
            ep_bmAttributes :=
              USBBulk mod 4 + 4 * (USBNoSynchronization mod 4)
              + 16 * (USBDataEndpoint mod 4);
            wMaxPacketSize := 512 mod 65536;
            bInterval := 0 mod 256 |}.
Proof.
  apply (addEndpointDescriptor_element sample_interface sample_interface_in
           5 USBIn USBBulk USBNoSynchronization USBDataEndpoint 512 0 0).
  - vm_compute. discriminate.
  - vm_compute. reflexivity.
Defined.

Lemma endConfiguration_first_twice_witness :
  exists s1,
    endConfiguration 0 serving_tables = Some (tt, s1) /\
    s1 = set_configurations (configurations s1) serving_tables /\
    configurations s1
    = Ptr ({| descriptor :=
                set_wTotalLength
                  ((sizeof_USBConfigurationDescriptor
                    + interfaces_length [default_interface USB_HIGHSPEED 5])
                   mod 65536)
                  (descriptor
                     (with_default_interface (built_configuration Zero_bits)
                        USB_HIGHSPEED 5));
              interfaces := Ptr [default_interface USB_HIGHSPEED 5] |} :: []) /\
    endConfiguration 0 s1 = Some (tt, s1).
Proof.
  apply (endConfiguration_first_twice serving_tables
           (with_default_interface (built_configuration Zero_bits)
              USB_HIGHSPEED 5)
           [] [default_interface USB_HIGHSPEED 5]).
  - vm_compute. reflexivity.
  - reflexivity.
  - reflexivity.
Defined.

Lemma endConfiguration_reads_past_the_block_witness :
  endConfiguration 1 uneven_tables = None.
Proof.
  apply (endConfiguration_reads_past_the_block uneven_tables
           [first_with_interface; built_configuration Zero_bits]
           first_with_interface (built_configuration Zero_bits) 1).
  - reflexivity.
  - reflexivity.
  - reflexivity.
  - vm_compute. reflexivity.
Defined.

(** ** The getters as caches *)

Section Getters.
Context {usb_h : UsbH}.

(** X17.  The first [usb_get_device_descriptor] on empty tables builds the
    device: it returns the device descriptor with one configuration and
    string indices 1, 2 and 3, leaves one configuration without interfaces
    and four strings that read back in order, and touches neither the guard
    nor the handler table. *)
Theorem usb_get_device_descriptor_first_build (fresh : fresh_bits)
  (s : State) :
  configurations s = NULL ->
  stringDescriptors s = NULL ->
  numStringDescriptors s = 0 ->
  firstStringDescriptor s <> Wild ->
  exists s',
    usb_get_device_descriptor fresh s = Some (built_device, s') /\
    deviceDescriptor s' = built_device /\
    configurations s' = Ptr [built_configuration fresh] /\
    numStringDescriptors s' = 4 /\
    langids_of (firstStringDescriptor s') = built_langids /\
    usb_get_string_descriptor 1 s'
    = Some (Entry (string_entry "Apple Inc."), s') /\
    usb_get_string_descriptor 2 s'
    = Some (Entry (string_entry "Apple Mobile Device (OpenIBoot Mode)"), s') /\
    usb_get_string_descriptor 3 s' = Some (Entry (string_entry ""), s') /\
    usb_get_string_descriptor 4 s'
    = Some (Entry (string_entry "OpenIBoot Mode Configuration"), s') /\
    usb_inited s' = usb_inited s /\
    endpoint_handlers s' = endpoint_handlers s.
Proof.
  intros Hc Hs Hn Hf.
  eexists. split; [exact (usb_get_device_descriptor_builds fresh s Hc Hs Hn Hf)|].
  repeat split.
Qed.

(** A query of the device descriptor when configurations exist is a read. *)
Lemma usb_get_device_descriptor_cached (fresh : fresh_bits) (s : State) :
  configurations s <> NULL ->
  usb_get_device_descriptor fresh s = Some (deviceDescriptor s, s).
Proof.
  intros Hc. unfold usb_get_device_descriptor, M_bind, M_get, M_ret.
  destruct (configurations s); [congruence | reflexivity | reflexivity].
Qed.

Lemma addConfiguration_configurations (fresh : fresh_bits)
  (v i sp rw mp r : Z) (s s' : State) :
  addConfiguration fresh v i sp rw mp s = Some (r, s') ->
  configurations s' <> NULL.
Proof.
  unfold addConfiguration, M_bind, M_get, M_modify, M_lift, M_ret.
  cbn [configurations set_deviceDescriptor].
  destruct (realloc_store _ _ _ _); [|discriminate].
  intros [= _ <-]. discriminate.
Qed.

Lemma usb_get_device_descriptor_result (fresh : fresh_bits) (s s' : State)
  (d : USBDeviceDescriptor) :
  usb_get_device_descriptor fresh s = Some (d, s') ->
  configurations s' <> NULL /\ d = deviceDescriptor s'.
Proof.
  unfold usb_get_device_descriptor.
  unfold M_bind at 1. cbn [M_get].
  destruct (is_NULL (configurations s)) eqn:N.
  - unfold M_bind at 1. unfold M_bind at 1.
    destruct (addStringDescriptor _ s) as [[i1 s1]|]; [|discriminate].
    unfold M_bind at 1.
    destruct (addStringDescriptor _ s1) as [[i2 s2]|]; [|discriminate].
    unfold M_bind at 1.
    destruct (addStringDescriptor _ s2) as [[i3 s3]|]; [|discriminate].
    unfold M_bind at 1. cbn [M_modify].
    unfold M_bind at 1.
    destruct (addStringDescriptor _ _) as [[i4 s4]|]; [|discriminate].
    unfold M_bind at 1.
    destruct (addConfiguration _ _ _ _ _ _ s4) as [[r5 s5]|] eqn:A;
      [|discriminate].
    cbn [M_ret]. unfold M_bind, M_get, M_ret. intros [= <- <-].
    split; [|reflexivity].
    exact (addConfiguration_configurations _ _ _ _ _ _ _ _ _ A).
  - unfold M_bind, M_get, M_ret. intros [= <- <-].
    split; [|reflexivity].
    destruct (configurations s); [discriminate N | discriminate | discriminate].
Qed.

(** X18.  [usb_get_device_descriptor] builds once: after any defined call,
    the next call returns the same descriptor and changes nothing, whatever
    [realloc] would have left in a new block. *)
Theorem usb_get_device_descriptor_again (fresh fresh' : fresh_bits)
  (s s' : State) (d : USBDeviceDescriptor) :
  usb_get_device_descriptor fresh s = Some (d, s') ->
  usb_get_device_descriptor fresh' s' = Some (d, s').
Proof.
  intros Hrun.
  destruct (usb_get_device_descriptor_result _ _ _ _ Hrun) as [Hc ->].
  now apply usb_get_device_descriptor_cached.
Qed.

Lemma with_configuration_inv {A} (k : Z)
  (f : USBConfiguration -> option (A * USBConfiguration))
  (s s' : State) (a : A) :
  with_configuration k f s = Some (a, s') ->
  exists cfgs c c' cfgs',
    configurations s = Ptr cfgs /\
    array_get cfgs k = Some c /\
    f c = Some (a, c') /\
    array_set cfgs k c' = Some cfgs' /\
    s' = set_configurations (Ptr cfgs') s.
Proof.
  unfold with_configuration, M_bind, M_get, M_lift, M_modify, M_ret.
  destruct (configurations s) as [|cfgs|]; try discriminate.
  destruct (array_get cfgs k) as [c|] eqn:G; [|discriminate].
  destruct (f c) as [[a' c']|] eqn:F; [|discriminate]. cbn [fst snd].
  destruct (array_set cfgs k c') as [cfgs'|] eqn:S; [|discriminate].
  intros [= <- <-]. exists cfgs, c, c', cfgs'. repeat split; assumption.
Qed.

Lemma with_configuration_has_interfaces {A}
  (f : USBConfiguration -> option (A * USBConfiguration))
  (s s' : State) (a : A) :
  (forall c a c', f c = Some (a, c') -> interfaces c' <> NULL) ->
  with_configuration 0 f s = Some (a, s') ->
  has_interfaces s'.
Proof.
  intros Hf Hrun.
  destruct (with_configuration_inv _ _ _ _ _ Hrun)
    as (cfgs & c & c' & cfgs' & _ & _ & Hfc & Hset & ->).
  exists cfgs', c'. cbn. repeat split.
  - exact (array_set_get _ _ _ _ Hset).
  - exact (Hf _ _ _ Hfc).
Qed.

Lemma with_interface_has_interfaces {A} (j : Z)
  (f : USBInterface -> option (A * USBInterface)) (s s' : State) (a : A) :
  with_interface 0 j f s = Some (a, s') -> has_interfaces s'.
Proof.
  unfold with_interface. apply with_configuration_has_interfaces.
  intros c a0 c'.
  destruct (interfaces c) as [|ifs|]; try discriminate.
  destruct (array_get ifs j) as [itf|]; [|discriminate].
  destruct (f itf) as [[a1 itf']|]; [|discriminate].
  destruct (array_set ifs j itf'); [|discriminate].
  intros [= _ <-]. discriminate.
Qed.

Lemma endConfiguration_has_interfaces (s s' : State) :
  has_interfaces s -> endConfiguration 0 s = Some (tt, s') ->
  has_interfaces s'.
Proof.
  intros (cfgs & c & Hc & Hg & Hi).
  unfold endConfiguration. unfold M_bind at 1. cbn [M_get]. rewrite Hc.
  unfold M_bind at 1. rewrite Hg. cbn [M_lift].
  unfold M_bind at 1. cbn [M_lift].
  unfold M_bind at 1.
  destruct (M_lift _ s) as [[total s0]|] eqn:L; [|discriminate].
  assert (s0 = s) by (unfold M_lift in L; destruct (fold_left _ _ _);
                      [congruence | discriminate]).
  subst s0. intros Hrun.
  destruct (with_configuration_inv _ _ _ _ _ Hrun)
    as (cfgs1 & c1 & c' & cfgs' & Hc1 & Hg1 & Hfc & Hset & ->).
  assert (cfgs1 = cfgs) by congruence. subst cfgs1.
  assert (c1 = c) by congruence. subst c1.
  exists cfgs', c'. cbn. repeat split.
  - exact (array_set_get _ _ _ _ Hset).
  - injection Hfc as <-. exact Hi.
Qed.

(** A query that does not synthesize is a read. *)
Lemma usb_get_configuration_descriptor_read (s : State)
  (cfgs : list USBConfiguration) (c : USBConfiguration)
  (index speed_id : Z) :
  configurations s = Ptr cfgs ->
  array_get cfgs index = Some c ->
  index <> 0 \/ interfaces c <> NULL ->
  usb_get_configuration_descriptor index speed_id s = Some (descriptor c, s).
Proof.
  intros Hc Hg Hcase.
  unfold usb_get_configuration_descriptor, synthesizes.
  unfold M_bind at 1. unfold M_bind at 1. cbn [M_get].
  destruct (index =? 0) eqn:Z0.
  - apply Z.eqb_eq in Z0. subst index.
    destruct Hcase as [Hne | Hi]; [congruence|].
    rewrite Hc. unfold M_bind at 1. rewrite Hg. cbn [M_lift M_ret].
    destruct (interfaces c); [congruence | |];
      cbn [is_NULL]; unfold M_bind, M_get, M_lift, M_ret; now rewrite Hc, Hg.
  - cbn [M_ret]. unfold M_bind, M_get, M_lift, M_ret. now rewrite Hc, Hg.
Qed.

Lemma usb_get_configuration_descriptor_result (s s' : State)
  (speed_id : Z) (d : USBConfigurationDescriptor) :
  usb_get_configuration_descriptor 0 speed_id s = Some (d, s') ->
  exists cfgs c,
    configurations s' = Ptr cfgs /\ array_get cfgs 0 = Some c /\
    interfaces c <> NULL /\ d = descriptor c.
Proof.
  unfold usb_get_configuration_descriptor.
  unfold M_bind at 1.
  destruct (synthesizes 0 s) as [[synth s0]|] eqn:Sy; [|discriminate].
  assert (Hs0 : s0 = s /\ (synth = false -> has_interfaces s)).
  { unfold synthesizes, M_bind, M_get, M_lift, M_ret in Sy.
    cbn [Z.eqb] in Sy.
    destruct (configurations s) as [|cfgs|] eqn:C; try discriminate.
    destruct (array_get cfgs 0) as [c|] eqn:G; [|discriminate].
    injection Sy as <- <-. split; [reflexivity|].
    intros Hn. exists cfgs, c. repeat split; try assumption.
    destruct (interfaces c); [discriminate Hn | discriminate | discriminate]. }
  destruct Hs0 as [-> Hsynth].
  unfold M_bind at 1.
  assert (Hread : forall s1, has_interfaces s1 ->
            (let* s2 := M_get in
             match configurations s2 with
             | Ptr cfgs =>
                 let* c := M_lift (array_get cfgs 0) in M_ret (descriptor c)
             | _ => M_lift None
             end) s1 = Some (d, s') ->
            exists cfgs c,
              configurations s' = Ptr cfgs /\ array_get cfgs 0 = Some c /\
              interfaces c <> NULL /\ d = descriptor c).
  { intros s1 (cfgs & c & Hc & Hg & Hi).
    unfold M_bind, M_get, M_lift, M_ret. rewrite Hc, Hg.
    intros [= <- <-]. exists cfgs, c. repeat split; assumption. }
  destruct synth.
  - unfold M_bind at 1.
    destruct (addStringDescriptor "IF0" s) as [[i s1]|]; [|discriminate].
    unfold M_bind at 1.
    destruct (with_configuration 0 _ s1) as [[j s2]|]; [|discriminate].
    unfold M_bind at 1.
    destruct (with_interface 0 j _ s2) as [[r3 s3]|]; [|discriminate].
    unfold M_bind at 1.
    destruct (with_interface 0 j _ s3) as [[r4 s4]|] eqn:W4; [|discriminate].
    destruct (endConfiguration 0 s4) as [[[] s5]|] eqn:E5; [|discriminate].
    apply Hread.
    eapply endConfiguration_has_interfaces; [|exact E5].
    eapply with_interface_has_interfaces; exact W4.
  - cbn [M_ret]. apply Hread. now apply Hsynth.
Qed.

(** X19.  The default interface is synthesized once, at the speed of the
    first query: after any defined query of configuration 0, a further
    query returns the same descriptor and changes nothing, at whatever
    speed it is made; the packet sizes stay those of the first speed. *)
Theorem usb_get_configuration_descriptor_again (s s' : State)
  (speed_id other_speed : Z) (d : USBConfigurationDescriptor) :
  usb_get_configuration_descriptor 0 speed_id s = Some (d, s') ->
  usb_get_configuration_descriptor 0 other_speed s' = Some (d, s').
Proof.
  intros Hrun.
  destruct (usb_get_configuration_descriptor_result _ _ _ _ Hrun)
    as (cfgs & c & Hc & Hg & Hi & ->).
  apply (usb_get_configuration_descriptor_read s' cfgs c 0 other_speed Hc Hg).
  now right.
Qed.

(** X20.  [usb_get_configuration_descriptor] checks neither the table nor
    the index: before any configuration exists, and for an index other than
    0 outside the block, it dereferences outside the table. *)
Theorem usb_get_configuration_descriptor_undefined (s : State)
  (index speed_id : Z) :
  configurations s = NULL
  \/ index <> 0
     /\ (index < 0
         \/ Z.of_nat (List.length (block (configurations s))) <= index) ->
  usb_get_configuration_descriptor index speed_id s = None.
Proof.
  intros Hcase.
  unfold usb_get_configuration_descriptor, synthesizes.
  unfold M_bind at 1. unfold M_bind at 1. cbn [M_get].
  destruct Hcase as [Hnull | [Hz Hr]].
  - rewrite Hnull. destruct (index =? 0); [reflexivity|].
    unfold M_bind, M_get, M_lift, M_ret. now rewrite Hnull.
  - apply Z.eqb_neq in Hz. rewrite Hz. cbn [M_ret].
    unfold M_bind, M_get, M_lift, M_ret.
    destruct (configurations s) as [|cfgs|]; try reflexivity.
    cbn [block] in Hr.
    destruct (array_get cfgs index) as [c|] eqn:G; [|reflexivity].
    apply array_get_range in G. lia.
Qed.

Lemma packetsizeFromSpeed_u16 (speed_id : Z) :
  u16 (packetsizeFromSpeed speed_id) = packetsizeFromSpeed speed_id.
Proof.
  unfold packetsizeFromSpeed.
  destruct (speed_id =? USB_HIGHSPEED); [reflexivity|].
  destruct ((speed_id =? USB_FULLSPEED) || (speed_id =? USB_FULLSPEED_48_MHZ));
    [reflexivity|].
  destruct (speed_id =? USB_LOWSPEED); reflexivity.
Qed.

Lemma with_configuration_head {A}
  (f : USBConfiguration -> option (A * USBConfiguration))
  (s : State) (c c' : USBConfiguration) (others : list USBConfiguration)
  (a : A) :
  configurations s = Ptr (c :: others) ->
  f c = Some (a, c') ->
  with_configuration 0 f s
  = Some (a, set_configurations (Ptr (c' :: others)) s).
Proof.
  intros Hc Hf.
  unfold with_configuration, M_bind, M_get, M_lift, M_modify, M_ret.
  rewrite Hc. cbn [array_get Z.ltb Z.compare Z.to_nat nth_error].
  rewrite Hf. cbn [fst snd]. now rewrite array_set_head.
Qed.

Lemma with_interface_head {A}
  (f : USBInterface -> option (A * USBInterface))
  (s : State) (c : USBConfiguration) (others : list USBConfiguration)
  (itf itf' : USBInterface) (rest : list USBInterface) (a : A) :
  configurations s = Ptr (c :: others) ->
  interfaces c = Ptr (itf :: rest) ->
  f itf = Some (a, itf') ->
  with_interface 0 0 f s
  = Some (a, set_configurations
               (Ptr ({| descriptor := descriptor c;
                        interfaces := Ptr (itf' :: rest) |} :: others)) s).
Proof.
  intros Hc Hi Hf. unfold with_interface.
  apply (with_configuration_head _ s c _ others a Hc).
  rewrite Hi. cbn [array_get Z.ltb Z.compare Z.to_nat nth_error].
  rewrite Hf. now rewrite array_set_head.
Qed.

Lemma default_endpoint_added (itf : USBInterface)
  (eps : pointer (list USBEndpointDescriptor)) (direction speed_id : Z)
  (n : nat) :
  direction <= 2 ->
  endpointDescriptors itf = eps -> eps <> Wild ->
  bNumEndpoints (if_descriptor itf) = Z.of_nat n ->
  n = List.length (block eps) -> (n < 255)%nat ->
  addEndpointDescriptor itf 1 direction USBBulk USBNoSynchronization
    USBDataEndpoint (packetsizeFromSpeed speed_id) 0
  = Some (Z.of_nat n,
          {| if_descriptor :=
               set_bNumEndpoints (Z.of_nat n + 1) (if_descriptor itf);
             endpointDescriptors :=
               Ptr (block eps ++ [default_endpoint direction speed_id]) |}).
Proof.
  intros Hd He Hw Hn Hl Hlt. unfold addEndpointDescriptor.
  destruct (2 <? direction) eqn:G; [apply Z.ltb_lt in G; lia|].
  cbn [set_bNumEndpoints bNumEndpoints]. rewrite Hn, He.
  assert (U : u8 (Z.of_nat n + 1) = Z.of_nat n + 1)
    by (unfold u8; apply Z.mod_small; lia).
  rewrite U, (realloc_store_next _ n _ Hw) by lia.
  rewrite Hl, firstn_all, <- Hl.
  rewrite endpoint_address_bits, packetsizeFromSpeed_u16. reflexivity.
Qed.

(** X21.  The first query of configuration 0, on a first configuration
    without interfaces and a string table of [n] entries, synthesizes the
    default interface: it adds the string IF0 as entry [n + 1], gives the
    configuration one interface of the OpenIBoot class named by that string,
    with a bulk IN and a bulk OUT endpoint on endpoint number 1 whose packet
    size is [packetsizeFromSpeed] of the speed, sets the total length to
    configuration + interface + two endpoints, and returns that
    descriptor. *)
Theorem usb_get_configuration_descriptor_synthesizes (s : State)
  (c : USBConfiguration) (others : list USBConfiguration) (speed_id : Z)
  (n : nat) :
  configurations s = Ptr (c :: others) ->
  interfaces c = NULL ->
  bNumInterfaces (descriptor c) = 0 ->
  numStringDescriptors s = Z.of_nat n ->
  (n < 255)%nat ->
  stringDescriptors s <> Wild ->
  firstStringDescriptor s <> Wild ->
  (n <= List.length (block (stringDescriptors s)))%nat ->
  (n <= List.length (langids_of (firstStringDescriptor s)))%nat ->
  USBIn <= 2 -> USBOut <= 2 ->
  usb_get_configuration_descriptor 0 speed_id s
  = Some (descriptor (with_default_interface c speed_id (Z.of_nat n + 1)),
      set_configurations
        (Ptr (with_default_interface c speed_id (Z.of_nat n + 1) :: others))
        (set_firstStringDescriptor
           (Ptr (with_langids (firstStringDescriptor s)
                   (firstn n (langids_of (firstStringDescriptor s))
                    ++ [u16 USB_LANGID_ENGLISH_US])))
           (set_stringDescriptors
              (Ptr (firstn n (block (stringDescriptors s))
                    ++ [string_entry "IF0"]))
              (set_numStringDescriptors (Z.of_nat n + 1) s)))).
Proof.
  intros Hc Hi Hb Hn Hlt Hs Hf Hls Hlf Hin Hout.
  unfold usb_get_configuration_descriptor.
  unfold M_bind at 1. unfold synthesizes, M_bind at 1, M_get.
  cbn [Z.eqb]. rewrite Hc.
  unfold M_bind at 1.
  cbn [array_get Z.ltb Z.compare Z.to_nat nth_error M_lift M_ret].
  rewrite Hi. cbn [is_NULL].
  unfold M_bind at 1. unfold M_bind at 1.
  rewrite (addStringDescriptor_step _ s n Hn Hlt Hs Hf Hls Hlf).
  set (s1 := set_firstStringDescriptor _ _).
  assert (Hc1 : configurations s1 = Ptr (c :: others)) by exact Hc.
  unfold M_bind at 1.
  set (c1 := {| descriptor := set_bNumInterfaces 1 (descriptor c);
                interfaces :=
                  Ptr [ {| if_descriptor :=
                             set_bNumEndpoints 0
                               (if_descriptor
                                  (default_interface speed_id
                                     (Z.of_nat n + 1)));
                           endpointDescriptors := NULL |} ] |}).
  assert (U : u8 (Z.of_nat n + 1) = Z.of_nat n + 1)
    by (unfold u8; apply Z.mod_small; lia).
  rewrite (with_configuration_head _ s1 c c1 others 0 Hc1).
  2:{ unfold addInterfaceDescriptor. rewrite Hi, Hb, U. reflexivity. }
  unfold M_bind at 1.
  erewrite (with_interface_head _ _ c1 others);
    [| reflexivity | reflexivity
     | apply (default_endpoint_added _ NULL USBIn speed_id 0 Hin);
       [reflexivity | discriminate | reflexivity | reflexivity | lia] ].
  unfold M_bind at 1.
  erewrite (with_interface_head _ _ _ others);
    [| reflexivity | reflexivity
     | apply (default_endpoint_added _ (Ptr [default_endpoint USBIn speed_id])
                USBOut speed_id 1 Hout);
       [reflexivity | discriminate | reflexivity | reflexivity | lia] ].
  erewrite endConfiguration_first; [| reflexivity | reflexivity | reflexivity].
  unfold M_bind, M_get, M_lift, M_ret.
  cbn [configurations set_configurations array_get Z.ltb Z.compare Z.to_nat
       nth_error descriptor].
  unfold with_default_interface, spec_total_length.
  cbn [interfaces interfaces_length fold_right if_descriptor bNumEndpoints
       set_bNumEndpoints descriptor].
  replace (Z.of_nat 1 + 1) with 2 by reflexivity.
  replace (sizeof_USBInterfaceDescriptor + 2 * sizeof_USBEndpointDescriptor + 0)
    with (sizeof_USBInterfaceDescriptor + 2 * sizeof_USBEndpointDescriptor)
    by lia.
  reflexivity.
Qed.

End Getters.

Lemma usb_get_device_descriptor_first_build_witness :
  exists s',
    usb_get_device_descriptor Zero_bits boot_state = Some (built_device, s') /\
    deviceDescriptor s' = built_device /\
    configurations s' = Ptr [built_configuration Zero_bits] /\
    numStringDescriptors s' = 4 /\
    langids_of (firstStringDescriptor s') = built_langids /\
    usb_get_string_descriptor 1 s'
    = Some (Entry (string_entry "Apple Inc."), s') /\
    usb_get_string_descriptor 2 s'
    = Some (Entry (string_entry "Apple Mobile Device (OpenIBoot Mode)"), s') /\
    usb_get_string_descriptor 3 s' = Some (Entry (string_entry ""), s') /\
    usb_get_string_descriptor 4 s'
    = Some (Entry (string_entry "OpenIBoot Mode Configuration"), s') /\
    usb_inited s' = usb_inited boot_state /\
    endpoint_handlers s' = endpoint_handlers boot_state.
Proof.
  apply (usb_get_device_descriptor_first_build Zero_bits boot_state).
  - reflexivity.
  - reflexivity.
  - reflexivity.
  - discriminate.
Defined.

Lemma usb_get_device_descriptor_again_witness :
  usb_get_device_descriptor Other_bits device_built
  = Some (built_device, device_built).
Proof.
  apply (usb_get_device_descriptor_again Zero_bits Other_bits boot_state
           device_built built_device).
  vm_compute. reflexivity.
Defined.

Lemma usb_get_configuration_descriptor_again_witness :
  usb_get_configuration_descriptor 0 USB_LOWSPEED serving_tables
  = Some (descriptor
            (with_default_interface (built_configuration Zero_bits)
               USB_HIGHSPEED 5),
          serving_tables).
Proof.
  apply (usb_get_configuration_descriptor_again device_built serving_tables
           USB_HIGHSPEED USB_LOWSPEED
           (descriptor
              (with_default_interface (built_configuration Zero_bits)
                 USB_HIGHSPEED 5))).
  vm_compute. reflexivity.
Defined.

Lemma usb_get_configuration_descriptor_undefined_witness :
  usb_get_configuration_descriptor 0 USB_HIGHSPEED boot_state = None.
Proof.
  apply (usb_get_configuration_descriptor_undefined boot_state 0
           USB_HIGHSPEED).
  left. reflexivity.
Defined.

Lemma usb_get_configuration_descriptor_synthesizes_witness :
  usb_get_configuration_descriptor 0 USB_HIGHSPEED device_built
  = Some (descriptor
            (with_default_interface (built_configuration Zero_bits)
               USB_HIGHSPEED (Z.of_nat 4 + 1)),
      set_configurations
        (Ptr (with_default_interface (built_configuration Zero_bits)
                USB_HIGHSPEED (Z.of_nat 4 + 1) :: []))
        (set_firstStringDescriptor
           (Ptr (with_langids (firstStringDescriptor device_built)
                   (firstn 4 (langids_of (firstStringDescriptor device_built))
                    ++ [u16 USB_LANGID_ENGLISH_US])))
           (set_stringDescriptors
              (Ptr (firstn 4 (block (stringDescriptors device_built))
                    ++ [string_entry "IF0"]))
              (set_numStringDescriptors (Z.of_nat 4 + 1) device_built)))).
Proof.
  apply (usb_get_configuration_descriptor_synthesizes device_built
           (built_configuration Zero_bits) [] USB_HIGHSPEED 4).
  - vm_compute. reflexivity.
  - reflexivity.
  - reflexivity.
  - vm_compute. reflexivity.
  - lia.
  - vm_compute. discriminate.
  - vm_compute. discriminate.
  - vm_compute. lia.
  - vm_compute. lia.
  - vm_compute. discriminate.
  - vm_compute. discriminate.
Defined.

(** ** Controller lifecycle, continued *)

(** A tree whose continuation never returns does not return. *)
Lemma run_bind_continuation {W A B} (hw : hardware W)
  (k : A -> itree HwE B) :
  (forall x fuel h, run hw fuel (k x) h = None) ->
  forall fuel (t : itree HwE A) h, run hw fuel (ITree.bind t k) h = None.
Proof.
  intros Hk. induction fuel as [|fuel IH]; intros t h; [reflexivity|].
  cbn [run]. rewrite observe_bind.
  destruct (observe t) as [r|t'|X e k'] eqn:O.
  - specialize (Hk r (S fuel) h). cbn [run] in Hk. exact Hk.
  - cbn [observe _observe]. apply IH.
  - cbn [observe _observe]. destruct (hw X e h) as [x h']. apply IH.
Qed.

(** A tree whose first part never returns does not return. *)
Lemma run_bind_left {W A B} (hw : hardware W) (k : A -> itree HwE B) :
  forall fuel (t : itree HwE A) h,
    (forall fuel', run hw fuel' t h = None) ->
    run hw fuel (ITree.bind t k) h = None.
Proof.
  induction fuel as [|fuel IH]; intros t h Ht; [reflexivity|].
  cbn [run]. rewrite observe_bind.
  destruct (observe t) as [r|t'|X e k'] eqn:O.
  - specialize (Ht 1%nat). cbn [run] in Ht. rewrite O in Ht. discriminate.
  - cbn [observe _observe]. apply IH. intros fuel'.
    specialize (Ht (S fuel')). cbn [run] in Ht. now rewrite O in Ht.
  - cbn [observe _observe]. destruct (hw X e h) as [x h'] eqn:Hw.
    apply IH. intros fuel'.
    specialize (Ht (S fuel')). cbn [run] in Ht. rewrite O, Hw in Ht. exact Ht.
Qed.

Section LifecycleFrame.
Context {usb_h : UsbH} {hw_h : HardwareH}.

(** The statics a completed first [usb_setup] leaves, in terms of what the
    environment answered: the directions [dirs] of the first loop and the
    two buffers. *)
Lemma usb_setup_first_call (s : State) (r : Z * State) :
  usb_inited s = false ->
  Leaf r (usb_setup s) ->
  exists dirs inb outb,
    Leaf dirs (init_endpoint_directions (endpoint_directions s)) /\
    Leaf inb (if inBuffer s =? 0 then ITree.trigger (memalign 64 128)
              else Ret (inBuffer s)) /\
    Leaf outb (if outBuffer s =? 0 then ITree.trigger (memalign 64 128)
               else Ret (outBuffer s)) /\
    r = (0,
         set_usb_inited true
           (change_state USBPowered
              (set_outBuffer outb
                 (set_inBuffer inb
                    (initializeDescriptors
                       (set_endpoint_handlers
                          (repeat zero_handlers (Z.to_nat USB_NUM_ENDPOINTS))
                          (set_endpoint_directions dirs
                             (change_state USBStart
                                (set_EPRegs (USB + USB_INREGS)
                                   (USB + USB_OUTREGS) s))))))))).
Proof.
  intros G H. unfold usb_setup in H. rewrite G in H. cbv zeta in H.
  apply Leaf_bind_inv in H. destruct H as (? & _ & H).
  apply Leaf_bind_inv in H. destruct H as (? & _ & H).
  apply Leaf_bind_inv in H. destruct H as (dirs & Hdirs & H).
  do 34 (apply Leaf_bind_inv in H; destruct H as (? & _ & H)).
  apply Leaf_bind_inv in H. destruct H as (inb & Hinb & H).
  apply Leaf_bind_inv in H. destruct H as (outb & Houtb & H).
  repeat (apply Leaf_bind_inv in H; destruct H as (? & _ & H)).
  apply Leaf_Ret_inv in H.
  exists dirs, inb, outb. repeat split; assumption.
Qed.

(** X22.  A first [usb_setup] that completes returns 0, sets the guard,
    ends in state [USBPowered] with the two register bases set, leaves a
    handler table of [USB_NUM_ENDPOINTS] zeroed elements (no handler and no
    token for any endpoint and direction), and resets the descriptor tables
    to null and the string count to 0 without touching the device
    descriptor or the language-ID descriptor. *)
Theorem usb_setup_resets_tables (s : State) (r : Z * State) :
  usb_inited s = false ->
  Leaf r (usb_setup s) ->
  fst r = 0 /\
  usb_inited (snd r) = true /\
  usb_state (snd r) = USBPowered /\
  InEPRegs (snd r) = USB + USB_INREGS /\
  OutEPRegs (snd r) = USB + USB_OUTREGS /\
  endpoint_handlers (snd r)
  = repeat zero_handlers (Z.to_nat USB_NUM_ENDPOINTS) /\
  (forall endpoint direction,
     direction = USBIn \/ direction = USBOut ->
     0 <= endpoint < USB_NUM_ENDPOINTS ->
     handler_entry (snd r) endpoint direction
     = Some {| handler := 0; token := 0 |}) /\
  configurations (snd r) = NULL /\
  stringDescriptors (snd r) = NULL /\
  numStringDescriptors (snd r) = 0 /\
  deviceDescriptor (snd r) = deviceDescriptor s /\
  firstStringDescriptor (snd r) = firstStringDescriptor s.
Proof.
  intros G H.
  destruct (usb_setup_first_call s r G H) as (dirs & inb & outb & _ & _ & _ & ->).
  cbn [fst snd]. repeat split.
  intros endpoint direction Hd He. unfold handler_entry.
  cbn [endpoint_handlers set_usb_inited change_state set_usb_state
       set_outBuffer set_inBuffer initializeDescriptors set_configurations
       set_stringDescriptors set_numStringDescriptors set_endpoint_handlers].
  unfold array_get.
  destruct (endpoint <? 0) eqn:N; [apply Z.ltb_lt in N; lia|].
  rewrite nth_error_repeat by lia.
  destruct Hd as [-> | ->].
  - now rewrite Z.eqb_refl.
  - destruct (USBOut =? USBIn); [reflexivity|]. now rewrite Z.eqb_refl.
Qed.

(** X23.  [usb_setup] allocates a transfer buffer only where the pointer is
    null: buffers that exist are kept by a first call that completes. *)
Theorem usb_setup_keeps_buffers (s : State) (r : Z * State) :
  usb_inited s = false ->
  inBuffer s <> 0 -> outBuffer s <> 0 ->
  Leaf r (usb_setup s) ->
  inBuffer (snd r) = inBuffer s /\ outBuffer (snd r) = outBuffer s.
Proof.
  intros G Hi Ho H.
  destruct (usb_setup_first_call s r G H)
    as (dirs & inb & outb & _ & Hinb & Houtb & ->).
  apply Z.eqb_neq in Hi, Ho. rewrite Hi in Hinb. rewrite Ho in Houtb.
  apply Leaf_Ret_inv in Hinb, Houtb. subst. split; reflexivity.
Qed.

Lemma static_set_directions (dirs0 dirs : list Z) (i v : Z) :
  v = USBBiDir \/ v = USBIn \/ v = USBOut ->
  directions_from dirs0 dirs ->
  directions_from dirs0 (static_set dirs i v).
Proof.
  intros Hv [Hl Hd]. unfold static_set.
  destruct (array_set dirs i v) as [dirs'|] eqn:S; [|split; assumption].
  split; [rewrite (array_set_length _ _ _ _ S); exact Hl|].
  intros j d Hj.
  destruct (Z.eq_dec j i) as [-> | Hne].
  - rewrite (array_set_get _ _ _ _ S) in Hj.
    assert (d = v) by congruence. subst d. tauto.
  - rewrite (array_set_get_other _ _ _ _ _ S Hne) in Hj. now apply Hd.
Qed.

(** The first loop of [usb_setup], whatever the hardware answers. *)
Lemma init_endpoint_directions_result (dirs0 dirs : list Z) :
  Leaf dirs (init_endpoint_directions dirs0) ->
  directions_from dirs0 dirs.
Proof.
  unfold init_endpoint_directions.
  apply (Leaf_iter_inv _ _
           (fun st : Z * list Z => directions_from dirs0 (snd st))
           (directions_from dirs0)).
  - intros [i ds] r Hinv Hr. cbn [snd] in Hinv.
    destruct (i <? USB_NUM_ENDPOINTS).
    + apply Leaf_bind_inv in Hr. destruct Hr as (d & _ & Hr).
      apply Leaf_Ret_inv in Hr. subst r. cbn [sum_pred snd].
      destruct (d =? USB_ENDPOINT_DIRECTIONS_BIDIR);
        [apply static_set_directions; tauto|].
      destruct (d =? USB_ENDPOINT_DIRECTIONS_IN);
        [apply static_set_directions; tauto|].
      destruct (d =? USB_ENDPOINT_DIRECTIONS_OUT);
        [apply static_set_directions; tauto|].
      exact Hinv.
    + apply Leaf_Ret_inv in Hr. subst r. exact Hinv.
  - split; [reflexivity|]. intros i d Hd. tauto.
Qed.

(** X24.  Whatever the hardware reports, a first [usb_setup] that
    completes leaves a direction table of the size it had, in which every
    element is [USBBiDir], [USBIn], [USBOut] or, the [switch] having no
    default, the value it held before the call. *)
Theorem usb_setup_directions (s : State) (r : Z * State) :
  usb_inited s = false ->
  Leaf r (usb_setup s) ->
  List.length (endpoint_directions (snd r))
  = List.length (endpoint_directions s) /\
  forall i d, array_get (endpoint_directions (snd r)) i = Some d ->
    d = USBBiDir \/ d = USBIn \/ d = USBOut
    \/ array_get (endpoint_directions s) i = Some d.
Proof.
  intros G H.
  destruct (usb_setup_first_call s r G H)
    as (dirs & inb & outb & Hdirs & _ & _ & ->).
  exact (init_endpoint_directions_result _ _ Hdirs).
Qed.

Lemma wait_reset_takes_spins {W} (hw : hardware W) :
  reset_stuck hw ->
  forall bound fuel h,
    (fuel <= bound)%nat -> run hw fuel wait_reset_takes h = None.
Proof.
  intros Hstuck.
  induction bound as [|bound IH]; intros fuel h Hle.
  { replace fuel with 0%nat by lia. reflexivity. }
  destruct fuel as [|[|fuel]]; [reflexivity| |].
  - cbn [run]. unfold wait_reset_takes. cbn.
    destruct (hw Z (GET_REG (USB + GRSTCTL)) h); reflexivity.
  - cbn [run]. unfold wait_reset_takes. cbn.
    pose proof (Hstuck h) as Hh.
    destruct (hw Z (GET_REG (USB + GRSTCTL)) h) as [v h'].
    cbn [fst] in Hh.
    repeat match goal with
    | |- context [observe (ITree.subst ?k ?t)] =>
        change (observe (ITree.subst k t)) with (observe (ITree.bind t k));
        rewrite (observe_bind t k); cbn [observe _observe]
    end.
    rewrite Hh, Z.eqb_refl. cbn [observe _observe].
    apply IH. lia.
Qed.

(** X25.  [usb_setup] waits for the core soft reset without a timeout: on
    a controller whose GRSTCTL keeps the reset bit set, a first call never
    returns, however long it runs. *)
Theorem usb_setup_hangs {W} (hw : hardware W) (s : State) :
  reset_stuck hw ->
  usb_inited s = false ->
  forall fuel h, run hw fuel (usb_setup s) h = None.
Proof.
  intros Hstuck G. unfold usb_setup. rewrite G. cbv zeta.
  repeat first
    [ intros fuel h; apply run_bind_left;
      intros fuel'; apply (wait_reset_takes_spins hw Hstuck fuel'); lia
    | intros fuel h; apply run_bind_continuation; clear fuel h; intros ? ].
Qed.

(** What releasing the tables leaves alone. *)
Lemma release_all_frame (s s' : State) :
  release_all s = Some (tt, s') ->
  usb_state s' = usb_state s /\
  inBuffer s' = inBuffer s /\ outBuffer s' = outBuffer s /\
  InEPRegs s' = InEPRegs s /\ OutEPRegs s' = OutEPRegs s.
Proof.
  unfold release_all, releaseConfigurations, releaseStringDescriptors,
    M_bind, M_get, M_modify, M_lift, M_ret.
  destruct (configurations s) as [|cfgs|] eqn:C; [| |discriminate].
  - destruct (stringDescriptors s) as [|sds|] eqn:S; [| |discriminate].
    + intros [= <-]. repeat split.
    + destruct (free_strings 256 sds (numStringDescriptors s) 0);
        [|discriminate].
      intros [= <-]. repeat split.
  - destruct (free_configurations 256 cfgs _ 0); [|discriminate].
    cbn [stringDescriptors set_configurations set_deviceDescriptor
         numStringDescriptors].
    destruct (stringDescriptors s) as [|sds|] eqn:S; [| |discriminate].
    + intros [= <-]. repeat split.
    + destruct (free_strings 256 sds (numStringDescriptors s) 0);
        [|discriminate].
      intros [= <-]. repeat split.
Qed.

(** X26.  A [usb_shutdown] that returns, returns 0 after the two releases,
    and is no inverse of [usb_setup]: the state variable is not changed
    (it stays what it was, [USBPowered] after a bring-up), the two transfer
    buffer pointers keep their values, and the register bases, the
    direction table and the language-ID descriptor are as before. *)
Theorem usb_shutdown_frame (s s' : State) (code : Z) :
  Leaf (Some (code, s')) (usb_shutdown s) ->
  code = 0 /\
  release_all s = Some (tt, s') /\
  usb_state s' = usb_state s /\
  inBuffer s' = inBuffer s /\ outBuffer s' = outBuffer s /\
  InEPRegs s' = InEPRegs s /\ OutEPRegs s' = OutEPRegs s /\
  endpoint_directions s' = endpoint_directions s /\
  firstStringDescriptor s' = firstStringDescriptor s.
Proof.
  intros H. unfold usb_shutdown in H.
  repeat (apply Leaf_bind_inv in H; destruct H as (? & _ & H)).
  destruct (release_all s) as [[[] s1]|] eqn:R;
    apply Leaf_Ret_inv in H; [|discriminate].
  assert (Hr : s1 = s' /\ code = 0) by (split; congruence).
  destruct Hr as [-> ->].
  destruct (release_all_frame s s' R) as (A & B & C & D & E).
  destruct (release_all_result s s' R) as (_ & _ & _ & _ & F & _ & G & _).
  repeat split; assumption.
Qed.

End LifecycleFrame.

Lemma usb_setup_resets_tables_witness :
  fst (0, up_state) = 0 /\
  usb_inited (snd (0, up_state)) = true /\
  usb_state (snd (0, up_state)) = USBPowered /\
  InEPRegs (snd (0, up_state)) = USB + USB_INREGS /\
  OutEPRegs (snd (0, up_state)) = USB + USB_OUTREGS /\
  endpoint_handlers (snd (0, up_state))
  = repeat zero_handlers (Z.to_nat USB_NUM_ENDPOINTS) /\
  (forall endpoint direction,
     direction = USBIn \/ direction = USBOut ->
     0 <= endpoint < USB_NUM_ENDPOINTS ->
     handler_entry (snd (0, up_state)) endpoint direction
     = Some {| handler := 0; token := 0 |}) /\
  configurations (snd (0, up_state)) = NULL /\
  stringDescriptors (snd (0, up_state)) = NULL /\
  numStringDescriptors (snd (0, up_state)) = 0 /\
  deviceDescriptor (snd (0, up_state)) = deviceDescriptor boot_state /\
  firstStringDescriptor (snd (0, up_state)) = firstStringDescriptor boot_state.
Proof.
  apply (usb_setup_resets_tables boot_state (0, up_state)).
  - reflexivity.
  - apply (run_Leaf idle_controller 400 _ 4096 4352). vm_compute. reflexivity.
Defined.

Lemma usb_setup_keeps_buffers_witness :
  inBuffer (snd (0, buffers_up_state)) = inBuffer buffers_state /\
  outBuffer (snd (0, buffers_up_state)) = outBuffer buffers_state.
Proof.
  apply (usb_setup_keeps_buffers buffers_state (0, buffers_up_state)).
  - reflexivity.
  - vm_compute. discriminate.
  - vm_compute. discriminate.
  - apply (run_Leaf idle_controller 400 _ 4096 4096). vm_compute. reflexivity.
Defined.

Lemma usb_setup_directions_witness :
  List.length (endpoint_directions (snd (0, up_state)))
  = List.length (endpoint_directions boot_state) /\
  forall i d, array_get (endpoint_directions (snd (0, up_state))) i = Some d ->
    d = USBBiDir \/ d = USBIn \/ d = USBOut
    \/ array_get (endpoint_directions boot_state) i = Some d.
Proof.
  apply (usb_setup_directions boot_state (0, up_state)).
  - reflexivity.
  - apply (run_Leaf idle_controller 400 _ 4096 4352). vm_compute. reflexivity.
Defined.

Lemma usb_setup_hangs_witness :
  run stuck_controller 1000 (usb_setup boot_state) tt = None.
Proof.
  apply (usb_setup_hangs stuck_controller boot_state).
  - intros h. vm_compute. reflexivity.
  - reflexivity.
Defined.

Lemma usb_shutdown_frame_witness :
  0 = 0 /\
  release_all serving_state = Some (tt, shut_state) /\
  usb_state shut_state = usb_state serving_state /\
  inBuffer shut_state = inBuffer serving_state /\
  outBuffer shut_state = outBuffer serving_state /\
  InEPRegs shut_state = InEPRegs serving_state /\
  OutEPRegs shut_state = OutEPRegs serving_state /\
  endpoint_directions shut_state = endpoint_directions serving_state /\
  firstStringDescriptor shut_state = firstStringDescriptor serving_state.
Proof.
  apply (usb_shutdown_frame serving_state shut_state 0).
  apply (usb_shutdown_outcome serving_state shut_state).
  vm_compute. reflexivity.
Defined.
